(** * Registration Credential Engine of the college event portal

    A shallow embedding of [server/index.js]: the QR credential codec
    ([generateQRSignature], [validateQRSignature]), the two issuance
    handlers ([POST /api/events/register-multiple] and
    [POST /api/events/:eventId/register]), the validator
    ([POST /api/qr/validate]), unregistration and administrative user
    deletion, the two listings ([GET /api/scan-logs],
    [GET /api/registrations]) and the deletion of events, over an explicit
    model of the four Mongoose collections.

    Strings are byte strings (the UTF-8 encoding of the JavaScript string),
    bytes and 32-bit words are [N] with the wrap-around written out, JSON
    values are an inductive type, and every [await] of a handler is one
    atomic step of a small resumption monad, so that the same handler text
    has a sequential and an interleaved semantics. *)

From Stdlib Require Import NArith ZArith Ascii String List Bool Lia DecimalString.
From stdpp Require Import base option list gmap strings.

Import ListNotations.
Set Warnings "-register-all".
Local Open Scope string_scope.
Local Open Scope list_scope.

(** ** Bytes and hexadecimal text *)

Module Hex.

(** One hexadecimal digit, lowercase, as [Buffer.toString('hex')] and
    [Hmac.digest('hex')] print it. *)
Definition digit (n : N) : ascii :=
  match n with
  | 0 => "0" | 1 => "1" | 2 => "2" | 3 => "3" | 4 => "4" | 5 => "5"
  | 6 => "6" | 7 => "7" | 8 => "8" | 9 => "9" | 10 => "a" | 11 => "b"
  | 12 => "c" | 13 => "d" | 14 => "e" | _ => "f"
  end%N%char.

(** The value of a hexadecimal digit in either case, [None] for any
    other character: the table [Buffer.from(s, 'hex')] decodes with. *)
Definition value (c : ascii) : option N :=
  let n := N_of_ascii c in
  if N.leb 48 n && N.leb n 57 then Some (n - 48)%N
  else if N.leb 97 n && N.leb n 102 then Some (n - 87)%N
  else if N.leb 65 n && N.leb n 70 then Some (n - 55)%N
  else None.

Definition is_lower_digit (c : ascii) : bool :=
  let n := N_of_ascii c in
  (N.leb 48 n && N.leb n 57) || (N.leb 97 n && N.leb n 102).

Definition is_lower_letter (c : ascii) : bool :=
  let n := N_of_ascii c in N.leb 97 n && N.leb n 102.

Definition of_byte (b : N) : list ascii :=
  [digit (N.land (N.shiftr b 4) 15); digit (N.land b 15)].

Fixpoint encode (bs : list N) : list ascii :=
  match bs with
  | [] => []
  | b :: bs' => of_byte b ++ encode bs'
  end.

(** [Buffer.from(s, 'hex')]: two characters per byte, decoding stops at
    the first pair that is not two hexadecimal digits, and a trailing
    single character is dropped. *)
Fixpoint decode (s : list ascii) : list N :=
  match s with
  | a :: b :: rest =>
      match value a, value b with
      | Some x, Some y => (16 * x + y)%N :: decode rest
      | _, _ => []
      end
  | _ => []
  end.

End Hex.

Definition bytes_of_string (s : string) : list N :=
  map N_of_ascii (list_ascii_of_string s).

(** ** SHA-256 and HMAC (FIPS 180-4, RFC 2104), as Node's [crypto] computes them *)

Module SHA256.

Definition wrap (x : N) : N := N.land x 0xFFFFFFFF.
Definition add32 (x y : N) : N := wrap (x + y).
Definition rotr (n x : N) : N :=
  N.lor (N.shiftr x n) (wrap (N.shiftl x (32 - n))).
Definition shr (n x : N) : N := N.shiftr x n.
Definition not32 (x : N) : N := N.lxor x 0xFFFFFFFF.

Definition Ch (x y z : N) : N := N.lxor (N.land x y) (N.land (not32 x) z).
Definition Maj (x y z : N) : N :=
  N.lxor (N.lxor (N.land x y) (N.land x z)) (N.land y z).
Definition Sigma0 (x : N) : N := N.lxor (N.lxor (rotr 2 x) (rotr 13 x)) (rotr 22 x).
Definition Sigma1 (x : N) : N := N.lxor (N.lxor (rotr 6 x) (rotr 11 x)) (rotr 25 x).
Definition sigma0 (x : N) : N := N.lxor (N.lxor (rotr 7 x) (rotr 18 x)) (shr 3 x).
Definition sigma1 (x : N) : N := N.lxor (N.lxor (rotr 17 x) (rotr 19 x)) (shr 10 x).

(** The round constants are taken from the prime numbers, as FIPS 180-4
    defines them. *)
Definition is_prime (n : nat) : bool :=
  forallb (fun d => negb (Nat.eqb (Nat.modulo n d) 0)) (seq 2 (n - 2)).

Definition primes (count : nat) : list N :=
  map N.of_nat (firstn count (List.filter is_prime (seq 2 400))).

(** The integer cube root, found bit by bit from bit 39 down. *)
Definition cube_root (n : N) : N :=
  fold_left (fun r i => let c := (r + 2 ^ N.of_nat i)%N in
                        if N.leb (c * c * c) n then c else r)
            (rev (seq 0 40)) 0%N.

(** K0..K63: the first 32 bits of the fractional parts of the cube roots
    of the first 64 primes. *)
Definition K : list N :=
  Eval vm_compute in map (fun p => wrap (cube_root (N.shiftl p 96))) (primes 64).

(** The eight working variables a..h, also the chaining value. *)
Record state := State { a : N; b : N; c : N; d : N; e : N; f : N; g : N; h : N }.

(** The initial hash value: the first 32 bits of the fractional parts of
    the square roots of the first 8 primes. *)
Definition initial (i : nat) : N :=
  wrap (N.sqrt (N.shiftl (nth i (primes 8) 0%N) 64)).

Definition H0 : state :=
  Eval vm_compute in
    State (initial 0) (initial 1) (initial 2) (initial 3)
          (initial 4) (initial 5) (initial 6) (initial 7).

(** Padding: the bit 1, zeros up to 56 modulo 64 bytes, then the
    message length in bits as a 64-bit big-endian integer. *)
Definition be_bytes (width : nat) (x : N) : list N :=
  map (fun i => N.land (N.shiftr x (8 * N.of_nat i)) 255) (rev (seq 0 width)).

Definition pad (msg : list N) : list N :=
  let len := N.of_nat (length msg) in
  let zeros := N.to_nat ((119 - len mod 64) mod 64) in
  msg ++ [128%N] ++ repeat 0%N zeros ++ be_bytes 8 (8 * len).

Fixpoint words (fuel : nat) (bs : list N) : list N :=
  match fuel, bs with
  | S fuel', b0 :: b1 :: b2 :: b3 :: rest =>
      (N.shiftl b0 24 + N.shiftl b1 16 + N.shiftl b2 8 + b3)%N :: words fuel' rest
  | _, _ => []
  end.

(** The message schedule W0..W63 of one block, extended one word at a
    time. *)
Fixpoint extend (n : nat) (w : list N) : list N :=
  match n with
  | O => w
  | S n' =>
      let t := length w in
      let at_ k := nth (t - k) w 0%N in
      extend n' (w ++ [add32 (add32 (sigma1 (at_ 2%nat)) (at_ 7%nat))
                             (add32 (sigma0 (at_ 15%nat)) (at_ 16%nat))])
  end.

Definition round (s : state) (kw : N * N) : state :=
  let t1 := add32 (add32 (add32 (h s) (Sigma1 (e s))) (Ch (e s) (f s) (g s)))
                  (add32 (fst kw) (snd kw)) in
  let t2 := add32 (Sigma0 (a s)) (Maj (a s) (b s) (c s)) in
  State (add32 t1 t2) (a s) (b s) (c s) (add32 (d s) t1) (e s) (f s) (g s).

Definition compress (s : state) (block : list N) : state :=
  let w := extend 48 block in
  let r := fold_left round (combine K w) s in
  State (add32 (a s) (a r)) (add32 (b s) (b r)) (add32 (c s) (c r))
        (add32 (d s) (d r)) (add32 (e s) (e r)) (add32 (f s) (f r))
        (add32 (g s) (g r)) (add32 (h s) (h r)).

Fixpoint blocks (fuel : nat) (ws : list N) : list (list N) :=
  match fuel, ws with
  | S fuel', _ :: _ => firstn 16 ws :: blocks fuel' (skipn 16 ws)
  | _, _ => []
  end.

Definition digest_bytes (s : state) : list N :=
  be_bytes 4 (a s) ++ be_bytes 4 (b s) ++ be_bytes 4 (c s) ++ be_bytes 4 (d s) ++
  be_bytes 4 (e s) ++ be_bytes 4 (f s) ++ be_bytes 4 (g s) ++ be_bytes 4 (h s).

Definition hash (msg : list N) : list N :=
  let bs := pad msg in
  let ws := words (length bs) bs in
  digest_bytes (fold_left compress (blocks (length ws) ws) H0).

End SHA256.

Module HMAC.

Definition block_size : nat := 64.

(** Keys longer than a block are hashed first, then the key is
    zero-padded to one block. *)
Definition block_key (key : list N) : list N :=
  let k := if Nat.ltb block_size (length key) then SHA256.hash key else key in
  k ++ repeat 0%N (block_size - length k).

Definition sha256 (key msg : list N) : list N :=
  let k := block_key key in
  let ipad := map (N.lxor 0x36) k in
  let opad := map (N.lxor 0x5c) k in
  SHA256.hash (opad ++ SHA256.hash (ipad ++ msg)).

End HMAC.

(** [crypto.createHmac('sha256', key).update(data).digest('hex')]. *)
Definition createHmac_sha256_hex (key data : string) : string :=
  string_of_list_ascii
    (Hex.encode (HMAC.sha256 (bytes_of_string key) (bytes_of_string data))).

(** ** JavaScript values

    The values [JSON.parse] can produce.  A property that is absent reads as
    [undefined], modelled by [None] in [option json].  Numbers are the
    integers; a number with a fraction or an exponent is outside the model
    (no credential field carries one). *)

Inductive json : Type :=
| JNull
| JBool (b : bool)
| JNum (n : Z)
| JStr (s : string)
| JArr (items : list json)
| JObj (fields : list (string * json)).

Module JS.

Definition decimal (n : Z) : string := NilZero.string_of_int (Z.to_int n).

(** [String(v)], the conversion a template literal applies. *)
Fixpoint toString (v : json) : string :=
  match v with
  | JNull => "null"
  | JBool true => "true"
  | JBool false => "false"
  | JNum n => decimal n
  | JStr s => s
  | JArr items =>
      let element (x : json) : string :=
        match x with JNull => "" | _ => toString x end in
      (fix join (l : list json) : string :=
         match l with
         | [] => ""
         | [x] => match x with JNull => "" | _ => toString x end
         | x :: (_ :: _) as rest =>
             match x with JNull => "" | _ => toString x end +:+ "," +:+ join rest
         end) items
  | JObj _ => "[object Object]"
  end.

(** A template-literal hole [${o}] whose value may be [undefined]. *)
Definition interpolate (o : option json) : string :=
  match o with
  | None => "undefined"
  | Some v => toString v
  end.

(** Truthiness, as [!x], [x && y] and [x || y] test it. *)
Definition truthy (o : option json) : bool :=
  match o with
  | None | Some JNull => false
  | Some (JBool b) => b
  | Some (JNum n) => negb (Z.eqb n 0)
  | Some (JStr s) => negb (String.eqb s "")
  | Some (JArr _) | Some (JObj _) => true
  end.

(** Property read [v[k]] for the string keys the server uses: only an
    object has such own properties. *)
Fixpoint lookup_field (k : string) (fields : list (string * json)) : option json :=
  match fields with
  | [] => None
  | (k', v) :: rest => if String.eqb k k' then Some v else lookup_field k rest
  end.

Definition get (k : string) (v : json) : option json :=
  match v with
  | JObj fields => lookup_field k fields
  | _ => None
  end.

(** Property write [o[k] = v]: an existing key keeps its position. *)
Fixpoint set_field (k : string) (v : json) (fields : list (string * json))
  : list (string * json) :=
  match fields with
  | [] => [(k, v)]
  | (k', v') :: rest =>
      if String.eqb k k' then (k', v) :: rest else (k', v') :: set_field k v rest
  end.

Definition set (k : string) (v : json) (o : json) : json :=
  match o with
  | JObj fields => JObj (set_field k v fields)
  | _ => o
  end.

(** Strict equality [v === s] of a value with a string. *)
Definition strict_eq_string (o : option json) (s : string) : bool :=
  match o with
  | Some (JStr s') => String.eqb s' s
  | _ => false
  end.

End JS.

(** ** JSON text *)

Module JSON.

(** The double quote, character 34. *)
Definition dquote : ascii := Ascii false true false false false true false false.

Definition escape_char (c : ascii) : string :=
  let n := N_of_ascii c in
  if N.eqb n 34 then String "\" (String dquote "")
  else if N.eqb n 92 then "\\"
  else if N.eqb n 8 then "\b"
  else if N.eqb n 9 then "\t"
  else if N.eqb n 10 then "\n"
  else if N.eqb n 12 then "\f"
  else if N.eqb n 13 then "\r"
  else if N.ltb n 32 then
    "\u00" +:+ string_of_list_ascii (Hex.of_byte n)
  else String c "".

Fixpoint escape (s : string) : string :=
  match s with
  | "" => ""
  | String c rest => escape_char c +:+ escape rest
  end.

Definition quote (s : string) : string :=
  String dquote (escape s +:+ String dquote "").

(** [JSON.stringify(v)] without indentation. *)
Fixpoint stringify (v : json) : string :=
  match v with
  | JNull => "null"
  | JBool true => "true"
  | JBool false => "false"
  | JNum n => JS.decimal n
  | JStr s => quote s
  | JArr items =>
      "[" +:+
      (fix elements (l : list json) : string :=
         match l with
         | [] => ""
         | [x] => stringify x
         | x :: (_ :: _) as rest => stringify x +:+ "," +:+ elements rest
         end) items +:+ "]"
  | JObj fields =>
      "{" +:+
      (fix members (l : list (string * json)) : string :=
         match l with
         | [] => ""
         | [(k, x)] => quote k +:+ ":" +:+ stringify x
         | (k, x) :: (_ :: _) as rest =>
             quote k +:+ ":" +:+ stringify x +:+ "," +:+ members rest
         end) fields +:+ "}"
  end.

(** *** Parsing

    A recursive-descent reading of the JSON grammar.  [parse_value],
    [parse_elements] and [parse_members] recurse on a fuel that
    [parse] takes from the length of the text. *)

Definition is_ws (c : ascii) : bool :=
  let n := N_of_ascii c in
  N.eqb n 32 || N.eqb n 9 || N.eqb n 10 || N.eqb n 13.

Fixpoint skip_ws (s : string) : string :=
  match s with
  | String c rest => if is_ws c then skip_ws rest else s
  | "" => ""
  end.

(** The UTF-8 bytes of the code unit a [\uXXXX] escape denotes (a
    surrogate is encoded on its own). *)
Definition utf8 (cp : N) : string :=
  if N.ltb cp 0x80 then String (ascii_of_N cp) ""
  else if N.ltb cp 0x800 then
    String (ascii_of_N (0xC0 + N.shiftr cp 6))
      (String (ascii_of_N (0x80 + N.land cp 0x3F)) "")
  else
    String (ascii_of_N (0xE0 + N.shiftr cp 12))
      (String (ascii_of_N (0x80 + N.land (N.shiftr cp 6) 0x3F))
         (String (ascii_of_N (0x80 + N.land cp 0x3F)) "")).

Definition hex4 (h1 h2 h3 h4 : ascii) : option N :=
  match Hex.value h1, Hex.value h2, Hex.value h3, Hex.value h4 with
  | Some a, Some b, Some c, Some d => Some (4096 * a + 256 * b + 16 * c + d)%N
  | _, _, _, _ => None
  end.

Definition simple_escape (e : ascii) : option ascii :=
  let n := N_of_ascii e in
  if N.eqb n 34 then Some dquote
  else if N.eqb n 92 then Some "\"%char
  else if N.eqb n 47 then Some "/"%char
  else if N.eqb n 98 then Some (ascii_of_N 8)
  else if N.eqb n 102 then Some (ascii_of_N 12)
  else if N.eqb n 110 then Some (ascii_of_N 10)
  else if N.eqb n 114 then Some (ascii_of_N 13)
  else if N.eqb n 116 then Some (ascii_of_N 9)
  else None.

(** The characters of a string literal after its opening quote, up to
    and including the closing quote; returns the string denoted and the
    rest of the text. *)
Fixpoint parse_chars (s : string) : option (string * string) :=
  match s with
  | "" => None
  | String c rest =>
      let n := N_of_ascii c in
      if N.eqb n 34 then Some ("", rest)
      else if N.eqb n 92 then
        match rest with
        | String e rest' =>
            if N.eqb (N_of_ascii e) 117 then
              match rest' with
              | String h1 (String h2 (String h3 (String h4 rest''))) =>
                  match hex4 h1 h2 h3 h4, parse_chars rest'' with
                  | Some cp, Some (str, r) => Some (utf8 cp +:+ str, r)
                  | _, _ => None
                  end
              | _ => None
              end
            else
              match simple_escape e, parse_chars rest' with
              | Some x, Some (str, r) => Some (String x str, r)
              | _, _ => None
              end
        | "" => None
        end
      else if N.ltb n 32 then None
      else
        match parse_chars rest with
        | Some (str, r) => Some (String c str, r)
        | None => None
        end
  end.

Definition is_digit (c : ascii) : bool :=
  let n := N_of_ascii c in N.leb 48 n && N.leb n 57.

Fixpoint parse_digits (acc : N) (s : string) : N * string :=
  match s with
  | String c rest =>
      if is_digit c then parse_digits (10 * acc + (N_of_ascii c - 48))%N rest
      else (acc, s)
  | "" => (acc, "")
  end.

(** An integer literal; a leading zero must stand alone, and a fraction
    or exponent part is outside the model. *)
Definition parse_int (s : string) : option (N * string) :=
  match s with
  | String c rest =>
      if negb (is_digit c) then None
      else
        let '(n, r) :=
          if N.eqb (N_of_ascii c) 48 then (0%N, rest) else parse_digits 0 s in
        match r with
        | String c' _ =>
            let k := N_of_ascii c' in
            if is_digit c' || N.eqb k 46 || N.eqb k 101 || N.eqb k 69
            then None else Some (n, r)
        | "" => Some (n, r)
        end
  | "" => None
  end.

Definition parse_number (s : string) : option (json * string) :=
  match s with
  | String c rest =>
      if N.eqb (N_of_ascii c) 45 then
        match parse_int rest with
        | Some (n, r) => Some (JNum (- Z.of_N n), r)
        | None => None
        end
      else
        match parse_int s with
        | Some (n, r) => Some (JNum (Z.of_N n), r)
        | None => None
        end
  | "" => None
  end.

Definition parse_literal (lit : string) (v : json) (s : string)
  : option (json * string) :=
  if String.prefix lit s
  then Some (v, String.substring (String.length lit)
                  (String.length s - String.length lit) s)
  else None.

Fixpoint parse_value (fuel : nat) (s : string) : option (json * string) :=
  match fuel with
  | O => None
  | S fuel' =>
      match skip_ws s with
      | "" => None
      | String c rest as s' =>
          let n := N_of_ascii c in
          if N.eqb n 123 then
            match skip_ws rest with
            | String c' rest' as inner =>
                if N.eqb (N_of_ascii c') 125 then Some (JObj [], rest')
                else parse_members fuel' [] inner
            | "" => None
            end
          else if N.eqb n 91 then
            match skip_ws rest with
            | String c' rest' as inner =>
                if N.eqb (N_of_ascii c') 93 then Some (JArr [], rest')
                else parse_elements fuel' [] inner
            | "" => None
            end
          else if N.eqb n 34 then
            match parse_chars rest with
            | Some (str, r) => Some (JStr str, r)
            | None => None
            end
          else if N.eqb n 116 then parse_literal "true" (JBool true) s'
          else if N.eqb n 102 then parse_literal "false" (JBool false) s'
          else if N.eqb n 110 then parse_literal "null" JNull s'
          else parse_number s'
      end
  end
with parse_elements (fuel : nat) (acc : list json) (s : string)
  : option (json * string) :=
  match fuel with
  | O => None
  | S fuel' =>
      match parse_value fuel' s with
      | Some (v, r) =>
          match skip_ws r with
          | String c rest =>
              let n := N_of_ascii c in
              if N.eqb n 44 then parse_elements fuel' (acc ++ [v]) rest
              else if N.eqb n 93 then Some (JArr (acc ++ [v]), rest)
              else None
          | "" => None
          end
      | None => None
      end
  end
with parse_members (fuel : nat) (acc : list (string * json)) (s : string)
  : option (json * string) :=
  match fuel with
  | O => None
  | S fuel' =>
      match skip_ws s with
      | String q rest =>
          if negb (N.eqb (N_of_ascii q) 34) then None
          else
            match parse_chars rest with
            | Some (k, r) =>
                match skip_ws r with
                | String colon r' =>
                    if negb (N.eqb (N_of_ascii colon) 58) then None
                    else
                      match parse_value fuel' r' with
                      | Some (v, r'') =>
                          match skip_ws r'' with
                          | String c rest' =>
                              let n := N_of_ascii c in
                              if N.eqb n 44
                              then parse_members fuel' (JS.set_field k v acc) rest'
                              else if N.eqb n 125
                              then Some (JObj (JS.set_field k v acc), rest')
                              else None
                          | "" => None
                          end
                      | None => None
                      end
                | "" => None
                end
            | None => None
            end
      | "" => None
      end
  end.

(** [JSON.parse(text)]; [None] stands for the [SyntaxError] it throws. *)
Definition parse (text : string) : option json :=
  match parse_value (2 * String.length text + 2) text with
  | Some (v, r) => if String.eqb (skip_ws r) "" then Some v else None
  | None => None
  end.

End JSON.

(** ** Dates

    A [Date] is its time value, milliseconds since the epoch, in [Z]. *)

Module Date.

Local Open Scope Z_scope.

Definition ms_per_day : Z := 86400000.

(** Proleptic Gregorian calendar date of a day number (days since
    1970-01-01), and back. *)
Definition civil_from_days (days : Z) : Z * Z * Z :=
  let z := days + 719468 in
  let era := z / 146097 in
  let doe := z - era * 146097 in
  let yoe := (doe - doe / 1460 + doe / 36524 - doe / 146096) / 365 in
  let doy := doe - (365 * yoe + yoe / 4 - yoe / 100) in
  let mp := (5 * doy + 2) / 153 in
  let d := doy - (153 * mp + 2) / 5 + 1 in
  let m := if mp <? 10 then mp + 3 else mp - 9 in
  let y := yoe + era * 400 in
  (if m <=? 2 then y + 1 else y, m, d).

Definition days_from_civil (y m d : Z) : Z :=
  let y' := if m <=? 2 then y - 1 else y in
  let era := y' / 400 in
  let yoe := y' - era * 400 in
  let mp := if m >? 2 then m - 3 else m + 9 in
  let doy := (153 * mp + 2) / 5 + d - 1 in
  let doe := yoe * 365 + yoe / 4 - yoe / 100 + doy in
  era * 146097 + doe - 719468.

Definition is_leap (y : Z) : bool :=
  (y mod 4 =? 0) && (negb (y mod 100 =? 0) || (y mod 400 =? 0)).

Definition days_in_month (y m : Z) : Z :=
  if m =? 2 then (if is_leap y then 29 else 28)
  else if (m =? 4) || (m =? 6) || (m =? 9) || (m =? 11) then 30
  else 31.

(** [n] in decimal on [width] digits, zero-padded. *)
Fixpoint digits (width : nat) (n : Z) : string :=
  match width with
  | O => ""
  | S w => digits w (n / 10) +:+ String (ascii_of_N (48 + Z.to_N (n mod 10))) ""
  end.

(** [Date.prototype.toISOString]: [YYYY-MM-DDTHH:mm:ss.sssZ], the year
    on six signed digits outside 0..9999. *)
Definition toISOString (t : Z) : string :=
  let '(y, m, d) := civil_from_days (t / ms_per_day) in
  let r := t mod ms_per_day in
  let year :=
    if (0 <=? y) && (y <=? 9999) then digits 4 y
    else (if y <? 0 then "-" else "+") +:+ digits 6 (Z.abs y) in
  year +:+ "-" +:+ digits 2 m +:+ "-" +:+ digits 2 d +:+ "T" +:+
  digits 2 (r / 3600000) +:+ ":" +:+ digits 2 (r / 60000 mod 60) +:+ ":" +:+
  digits 2 (r / 1000 mod 60) +:+ "." +:+ digits 3 (r mod 1000) +:+ "Z".

Fixpoint number (width : nat) (acc : Z) (s : string) : option (Z * string) :=
  match width, s with
  | O, _ => Some (acc, s)
  | S w, String c rest =>
      let n := N_of_ascii c in
      if N.leb 48 n && N.leb n 57
      then number w (10 * acc + Z.of_N (n - 48)) rest
      else None
  | S _, "" => None
  end.

Definition expect (c : ascii) (s : string) : option string :=
  match s with
  | String c' rest => if Ascii.eqb c c' then Some rest else None
  | "" => None
  end.

Definition parse_year (s : string) : option (Z * string) :=
  match s with
  | String c rest =>
      if Ascii.eqb c "+"%char then number 6 0 rest
      else if Ascii.eqb c "-"%char then
        match number 6 0 rest with
        | Some (y, r) => if y =? 0 then None else Some (- y, r)
        | None => None
        end
      else number 4 0 s
  | "" => None
  end.

(** A time value is at most 8.64e15 ms away from the epoch. *)
Definition max_time : Z := 8640000000000000.

(** The time value of [new Date(text)] for a text in the format that
    [toISOString] writes.  For such a text [None] is the Invalid Date
    (time value NaN): a field out of its range, or a time beyond
    [max_time].  An engine reads other date forms too; those are not
    modelled, [parse] answers [None] on them as well, and the statements
    about expiry below are made for texts that [parse] reads. *)
Definition parse (text : string) : option Z :=
  y ← parse_year text;
  s1 ← expect "-"%char y.2;  mo ← number 2 0 s1;
  s2 ← expect "-"%char mo.2; d ← number 2 0 s2;
  s3 ← expect "T"%char d.2;  h ← number 2 0 s3;
  s4 ← expect ":"%char h.2;  mi ← number 2 0 s4;
  s5 ← expect ":"%char mi.2; sec ← number 2 0 s5;
  s6 ← expect "."%char sec.2; ms ← number 3 0 s6;
  s7 ← expect "Z"%char ms.2;
  if String.eqb s7 "" && (1 <=? mo.1) && (mo.1 <=? 12) && (1 <=? d.1)
     && (d.1 <=? days_in_month y.1 mo.1) && (h.1 <=? 23) && (mi.1 <=? 59)
     && (sec.1 <=? 59)
  then
    let t := days_from_civil y.1 mo.1 d.1 * ms_per_day
             + h.1 * 3600000 + mi.1 * 60000 + sec.1 * 1000 + ms.1 in
    if Z.abs t <=? max_time then Some t else None
  else None.

(** [new Date(v)] for a JSON value: a string is parsed, a number is the
    time value itself, a boolean or [null] converts to a number, an
    array or object goes through its string form. *)
Definition of_json (v : json) : option Z :=
  match v with
  | JStr s => parse s
  | JNum n => if Z.abs n <=? max_time then Some n else None
  | JBool true => Some 1
  | JBool false | JNull => Some 0
  | JArr _ | JObj _ => parse (JS.toString v)
  end.

(** [a > b] on two dates; a comparison with the Invalid Date is false. *)
Definition gt (a : Z) (b : option Z) : bool :=
  match b with
  | Some t => a >? t
  | None => false
  end.

End Date.

(** Tampering: the string [s] with bit [j] (0 is the least significant)
    of its character at index [i] flipped. *)
Definition flip_char (j : nat) (c : ascii) : ascii :=
  ascii_of_N (N.lxor (N_of_ascii c) (2 ^ N.of_nat j)).

Fixpoint flip_bit (i j : nat) (s : string) : string :=
  match s, i with
  | "", _ => ""
  | String c rest, O => String (flip_char j c) rest
  | String c rest, S i' => String c (flip_bit i' j rest)
  end.

(** ** [Buffer] and [crypto.timingSafeEqual] *)

(** [Buffer.from(v, 'hex')] on a property value.  [None] is the
    [TypeError] thrown for [undefined], [null], a boolean or a number.
    The wire format fixes the signature to be a string; a signature given
    as an array or an object (which Node would read as a list of bytes) is
    outside the format and is refused here like the other non-strings. *)
Definition Buffer_from_hex (o : option json) : option (list N) :=
  match o with
  | Some (JStr s) => Some (Hex.decode (list_ascii_of_string s))
  | _ => None
  end.

(** [crypto.timingSafeEqual(a, b)]: [None] is the [RangeError] thrown when
    the two buffers differ in length. *)
Definition timingSafeEqual (a b : list N) : option bool :=
  if Nat.eqb (length a) (length b) then Some (bool_decide (a = b)) else None.

(** ** The collections *)

Inductive RegistrationStatus := registered | attended | absent | cancelled.
Inductive ScanStatus := valid | invalid | expired | duplicate.

#[global] Instance RegistrationStatus_eq_dec : EqDecision RegistrationStatus.
Proof. solve_decision. Defined.
#[global] Instance ScanStatus_eq_dec : EqDecision ScanStatus.
Proof. solve_decision. Defined.

(** Of a user and of an event, the fields the engine reads. *)
Record User := { name : string }.

Record Event := {
  title : string;
  date : Z;
  maxParticipants : Z;
  currentParticipants : Z;
  registrationDeadline : Z
}.

(** The [qrPayload] sub-document of the registration schema. *)
Record QRPayload := {
  registration_id : string;
  student_id : string;
  event_id : string;
  issued_at : string;
  expires_at : string;
  signature : string;
  event_title : string;
  student_name : string
}.

(** An element of a registration's embedded [scanLogs] array. *)
Record ScanEntry := {
  scannedAt : Z;
  scannedBy : string;
  location : string;
  scanStatus : ScanStatus;
  notes : string
}.

(** The picture [generateQRCodeWithEventName] draws, by the text its QR
    code encodes and the label printed with it. *)
Record QRImage := { encoded : string; label : string }.

Record Registration := {
  registrationId : string;
  userId : string;
  eventId : string;
  registeredAt : Z;
  status : RegistrationStatus;
  qrCode : QRImage;
  qrPayload : QRPayload;
  scanLogs : list ScanEntry
}.

(** A document of the standalone [ScanLog] collection. *)
Module ScanLog.
Record t := {
  registrationId : string;
  scannedAt : Z;
  scannedBy : string;
  location : string;
  status : ScanStatus;
  notes : string;
  eventId : option string;
  userId : option string
}.
End ScanLog.

(** The database.  Users and events are keyed by their [_id]; a
    registration's [_id] is its slot in [Registrations], and a deleted
    document leaves its slot empty, so that slots never move. *)
Record DB := {
  Users : gmap string User;
  Events : gmap string Event;
  Registrations : list (option Registration);
  ScanLogs : list ScanLog.t
}.

Definition with_status (s : RegistrationStatus) (r : Registration) : Registration :=
  {| registrationId := registrationId r; userId := userId r; eventId := eventId r;
     registeredAt := registeredAt r; status := s; qrCode := qrCode r;
     qrPayload := qrPayload r; scanLogs := scanLogs r |}.

Definition push_scanLog (l : ScanEntry) (r : Registration) : Registration :=
  {| registrationId := registrationId r; userId := userId r; eventId := eventId r;
     registeredAt := registeredAt r; status := status r; qrCode := qrCode r;
     qrPayload := qrPayload r; scanLogs := scanLogs r ++ [l] |}.

Definition with_currentParticipants (n : Z) (e : Event) : Event :=
  {| title := title e; date := date e; maxParticipants := maxParticipants e;
     currentParticipants := n; registrationDeadline := registrationDeadline e |}.

Definition with_signature (s : string) (p : QRPayload) : QRPayload :=
  {| registration_id := registration_id p; student_id := student_id p;
     event_id := event_id p; issued_at := issued_at p; expires_at := expires_at p;
     signature := s; event_title := event_title p; student_name := student_name p |}.

(** The payload as the JavaScript object the server builds and signs, its
    keys in the order of the object literal. *)
Definition payload_object (p : QRPayload) : json :=
  JObj [ ("registration_id", JStr (registration_id p));
         ("student_id", JStr (student_id p));
         ("event_id", JStr (event_id p));
         ("issued_at", JStr (issued_at p));
         ("expires_at", JStr (expires_at p));
         ("signature", JStr (signature p));
         ("event_title", JStr (event_title p));
         ("student_name", JStr (student_name p)) ].

(** *** Queries *)

Definition matches_user_event (u e : string) (r : Registration) : bool :=
  String.eqb (userId r) u && String.eqb (eventId r) e.

Definition matches_triple (rid u e : string) (r : Registration) : bool :=
  String.eqb (registrationId r) rid && String.eqb (userId r) u
  && String.eqb (eventId r) e.

Definition matches_user (u : string) (r : Registration) : bool :=
  String.eqb (userId r) u.

(** [Model.findOne(filter)]: the first live document that matches, with
    its slot. *)
Fixpoint findOne_from (i : nat) (f : Registration -> bool)
         (docs : list (option Registration)) : option (nat * Registration) :=
  match docs with
  | [] => None
  | Some r :: rest => if f r then Some (i, r) else findOne_from (S i) f rest
  | None :: rest => findOne_from (S i) f rest
  end.

Definition findOne (f : Registration -> bool) (docs : list (option Registration))
  : option (nat * Registration) := findOne_from 0 f docs.

(** The two unique indexes of the registration schema: [registrationId],
    and the pair [(userId, eventId)]. *)
Definition violates_unique_index (r : Registration)
           (docs : list (option Registration)) : bool :=
  existsb (fun d =>
             match d with
             | Some r' =>
                 String.eqb (registrationId r') (registrationId r)
                 || matches_user_event (userId r) (eventId r) r'
             | None => false
             end) docs.

Definition deleteMany (f : Registration -> bool) (docs : list (option Registration))
  : list (option Registration) :=
  map (fun d => match d with
                | Some r => if f r then None else Some r
                | None => None
                end) docs.

(** ** Asynchronous handlers

    Every [await] on the database or on the QR renderer is one atomic
    operation; a handler is a tree of such operations.  Between two of
    them another request may run. *)

Inductive op : Type -> Type :=
| User_findById (id : string) : op (option User)
| User_findByIdAndDelete (id : string) : op (option User)
| Event_findById (id : string) : op (option Event)
| Event_save_currentParticipants (id : string) (n : Z) : op bool
| Registration_findOne (f : Registration -> bool) : op (option (nat * Registration))
| Registration_findOne_populated (f : Registration -> bool)
    : op (option (nat * Registration * option User * option Event))
| Registration_findById_populated (i : nat)
    : op (option (Registration * option User * option Event))
| Registration_create (r : Registration) : op (option nat)
| Registration_save_attended (i : nat) (l : ScanEntry) : op bool
| Registration_findOneAndDelete (f : Registration -> bool) : op (option Registration)
| Registration_deleteMany (f : Registration -> bool) : op unit
| ScanLog_create (l : ScanLog.t) : op unit
| Render_QRCode (img : QRImage) : op QRImage.

Inductive async (A : Type) : Type :=
| Return (a : A)
| Await {X : Type} (o : op X) (k : X -> async A).

Arguments Return {A} a.
Arguments Await {A X} o k.

Fixpoint bind {A B : Type} (m : async A) (f : A -> async B) : async B :=
  match m with
  | Return a => f a
  | Await o k => Await o (fun x => bind (k x) f)
  end.

Definition await {X : Type} (o : op X) : async X := Await o Return.

Notation "'let*' x ':=' m 'in' k" := (bind m (fun x => k))
  (at level 10, x pattern, m at level 100, k at level 200).

Definition set_Events (ev : gmap string Event) (db : DB) : DB :=
  {| Users := Users db; Events := ev; Registrations := Registrations db;
     ScanLogs := ScanLogs db |}.
Definition set_Registrations (rs : list (option Registration)) (db : DB) : DB :=
  {| Users := Users db; Events := Events db; Registrations := rs;
     ScanLogs := ScanLogs db |}.
Definition set_Users (us : gmap string User) (db : DB) : DB :=
  {| Users := us; Events := Events db; Registrations := Registrations db;
     ScanLogs := ScanLogs db |}.
Definition set_ScanLogs (ls : list ScanLog.t) (db : DB) : DB :=
  {| Users := Users db; Events := Events db; Registrations := Registrations db;
     ScanLogs := ls |}.

Definition populate (db : DB) (r : Registration) : option User * option Event :=
  (Users db !! userId r, Events db !! eventId r).

(** What one operation returns and does to the database.  A [save] writes
    the paths the handler modified: [Event_save_currentParticipants] is
    [event.save()] after [event.currentParticipants] was assigned,
    [Registration_save_attended] is [registration.save()] after the status
    was set to attended and a scan log was pushed.  A [save] of a new
    registration that violates a unique index, and a [save] of a document
    that is no longer stored, throw: they return [None] or [false] and
    change nothing. *)
Definition exec {X : Type} (o : op X) (db : DB) : X * DB :=
  match o in op X return X * DB with
  | User_findById id => (Users db !! id, db)
  | User_findByIdAndDelete id =>
      (Users db !! id, set_Users (delete id (Users db)) db)
  | Event_findById id => (Events db !! id, db)
  | Event_save_currentParticipants id n =>
      match Events db !! id with
      | Some e =>
          (true, set_Events (<[id := with_currentParticipants n e]> (Events db)) db)
      | None => (false, db)
      end
  | Registration_findOne f => (findOne f (Registrations db), db)
  | Registration_findOne_populated f =>
      (match findOne f (Registrations db) with
       | Some (i, r) => Some (i, r, (populate db r).1, (populate db r).2)
       | None => None
       end, db)
  | Registration_findById_populated i =>
      (match Registrations db !! i with
       | Some (Some r) => Some (r, (populate db r).1, (populate db r).2)
       | _ => None
       end, db)
  | Registration_create r =>
      if violates_unique_index r (Registrations db) then (None, db)
      else (Some (length (Registrations db)),
            set_Registrations (Registrations db ++ [Some r]) db)
  | Registration_save_attended i l =>
      match Registrations db !! i with
      | Some (Some r) =>
          (true, set_Registrations
                   (<[i := Some (push_scanLog l (with_status attended r))]>
                      (Registrations db)) db)
      | _ => (false, db)
      end
  | Registration_findOneAndDelete f =>
      match findOne f (Registrations db) with
      | Some (i, r) =>
          (Some r, set_Registrations (<[i := None]> (Registrations db)) db)
      | None => (None, db)
      end
  | Registration_deleteMany f =>
      (tt, set_Registrations (deleteMany f (Registrations db)) db)
  | ScanLog_create l => (tt, set_ScanLogs (ScanLogs db ++ [l]) db)
  | Render_QRCode img => (img, db)
  end.

(** A request that runs alone, from its first operation to its response. *)
Fixpoint run {A : Type} (m : async A) (db : DB) : A * DB :=
  match m with
  | Return a => (a, db)
  | Await o k => let '(x, db') := exec o db in run (k x) db'
  end.

(** Requests in flight together: [schedule] names, step by step, the
    request whose next operation runs. *)
Definition step {A : Type} (m : async A) (db : DB) : async A * DB :=
  match m with
  | Return a => (Return a, db)
  | Await o k => let '(x, db') := exec o db in (k x, db')
  end.

Fixpoint interleave {A : Type} (schedule : list nat) (requests : list (async A))
         (db : DB) : list (async A) * DB :=
  match schedule with
  | [] => (requests, db)
  | i :: rest =>
      match requests !! i with
      | Some m => let '(m', db') := step m db in
                  interleave rest (<[i := m']> requests) db'
      | None => interleave rest requests db
      end
  end.

Definition response {A : Type} (m : async A) : option A :=
  match m with
  | Return a => Some a
  | Await _ _ => None
  end.

(** ** Responses *)

(** The request body of [POST /api/qr/validate]; an absent field is
    [None]. *)
Module ValidateRequest.
Record t := {
  qrData : string;
  eventId : option string;
  scannedBy : option string;
  location : option string
}.
End ValidateRequest.

(** The response body of [POST /api/qr/validate], with the HTTP status. *)
Module QRValidationResult.
Record t := {
  code : nat;
  valid : bool;
  reason : option string;
  registration : option Registration;
  scanLog : option ScanEntry
}.
Definition rejected (c : nat) (why : string) : t :=
  {| code := c; valid := false; reason := Some why;
     registration := None; scanLog := None |}.
End QRValidationResult.

(** The body of [POST /api/events/:eventId/register]. *)
Module RegisterResponse.
Record t := {
  code : nat;
  error : option string;
  success : bool;
  registration : option Registration
}.
Definition failed (c : nat) (why : string) : t :=
  {| code := c; error := Some why; success := false; registration := None |}.
End RegisterResponse.

(** The [results] object of [POST /api/events/register-multiple]. *)
Record MultiResults := {
  totalEvents : nat;
  successfulRegistrations : nat;
  failedRegistrations : list (string * string);
  registrations : list Registration
}.

Module MultiResponse.
Record t := { code : nat; error : option string; results : option MultiResults }.
End MultiResponse.

Module SimpleResponse.
Record t := { code : nat; error : option string }.
End SimpleResponse.

Definition push_failed (eventId reason : string) (r : MultiResults) : MultiResults :=
  {| totalEvents := totalEvents r;
     successfulRegistrations := successfulRegistrations r;
     failedRegistrations := failedRegistrations r ++ [(eventId, reason)];
     registrations := registrations r |}.

Definition push_registration (reg : Registration) (r : MultiResults) : MultiResults :=
  {| totalEvents := totalEvents r;
     successfulRegistrations := S (successfulRegistrations r);
     failedRegistrations := failedRegistrations r;
     registrations := registrations r ++ [reg] |}.

Fixpoint join (sep : string) (l : list string) : string :=
  match l with
  | [] => ""
  | [x] => x
  | x :: (_ :: _) as rest => x +:+ sep +:+ join sep rest
  end.

(** ** The server

    The handlers are modelled for identifiers in the form [ObjectId]
    prints, 24 lowercase hexadecimal digits ([is_ObjectId] below): on
    these, equality of strings is equality of identifiers.  On any other
    text Mongoose's cast throws or compares differently, and the [catch]
    of the route answers with status 500 (400 on the event routes); those
    answers are not modelled, and a statement that depends on the answer
    for an arbitrary identifier assumes [is_ObjectId] of it. *)

Section Engine.

(** [process.env.QR_CODE_SECRET]. *)
Variable QR_CODE_SECRET : option string.

Definition QR_SECRET : string :=
  match QR_CODE_SECRET with
  | Some s =>
      if String.eqb s "" then "your_secure_qr_secret_key_change_in_production"
      else s
  | None => "your_secure_qr_secret_key_change_in_production"
  end.

Definition generateQRSignature (payload : json) : string :=
  let data :=
    JS.interpolate (JS.get "registration_id" payload) +:+ ":" +:+
    JS.interpolate (JS.get "student_id" payload) +:+ ":" +:+
    JS.interpolate (JS.get "event_id" payload) +:+ ":" +:+
    JS.interpolate (JS.get "issued_at" payload) in
  createHmac_sha256_hex QR_SECRET data.

(** The [catch] turns both the [TypeError] of [Buffer.from] and the
    [RangeError] of [timingSafeEqual] into [false]. *)
Definition validateQRSignature (payload : json) : bool :=
  let expectedSignature := generateQRSignature payload in
  match Buffer_from_hex (JS.get "signature" payload),
        Buffer_from_hex (Some (JStr expectedSignature)) with
  | Some given, Some expected =>
      match timingSafeEqual given expected with
      | Some equal => equal
      | None => false
      end
  | _, _ => false
  end.

(** [crypto.randomBytes(16).toString('hex')], from the bytes drawn.  The
    handlers below take the identifier drawn as an argument. *)
Definition generateUniqueRegistrationId (randomBytes : list N) : string :=
  string_of_list_ascii (Hex.encode randomBytes).

(** The payload with its signature filled in, as the batch path does
    with [qrPayload.signature = generateQRSignature(qrPayload)]. *)
Definition sign (unsigned : QRPayload) : QRPayload :=
  with_signature (generateQRSignature (payload_object unsigned)) unsigned.

(** The label under the code: the event name, cut to [maxChars].  The
    characters counted are those of [string]; for a name in ASCII they
    are the units [length] and [substring] count in the source. *)
Definition displayName (eventName : string) (maxChars : nat) : string :=
  if Nat.ltb maxChars (String.length eventName)
  then String.substring 0 (maxChars - 3) eventName +:+ "..."
  else eventName.

Definition generateQRCodeWithEventName (qrData eventName : string) (maxChars : nat)
  : async QRImage :=
  await (Render_QRCode {| encoded := qrData;
                          label := displayName eventName maxChars |}).

(** *** [POST /api/events/register-multiple]

    [now] is the clock of the request and [registrationId] the value
    [generateUniqueRegistrationId] draws in this iteration. *)
Definition registerMultiple_event (now : Z) (registrationId : string)
           (userId : string) (user : User) (eventId : string)
           (results : MultiResults) : async MultiResults :=
  let* existingRegistration :=
    await (Registration_findOne (matches_user_event userId eventId)) in
  match existingRegistration with
  | Some _ => Return (push_failed eventId "Already registered for this event" results)
  | None =>
      let* event := await (Event_findById eventId) in
      match event with
      | None => Return (push_failed eventId "Event not found" results)
      | Some event =>
          if (currentParticipants event >=? maxParticipants event)%Z
          then Return (push_failed eventId "Event is full" results)
          else if (now >? registrationDeadline event)%Z
          then Return (push_failed eventId "Registration deadline has passed" results)
          else
            let issuedAt := Date.toISOString now in
            let expiresAt := Date.toISOString (date event) in
            let unsigned :=
              {| registration_id := registrationId; student_id := userId;
                 event_id := eventId; issued_at := issuedAt;
                 expires_at := expiresAt; signature := "";
                 event_title := title event; student_name := name user |} in
            let qrPayload := sign unsigned in
            let* qrCodeString :=
              generateQRCodeWithEventName
                (JSON.stringify (payload_object qrPayload)) (title event) 40 in
            let registration :=
              {| registrationId := registrationId; userId := userId;
                 eventId := eventId; registeredAt := now; status := registered;
                 qrCode := qrCodeString; qrPayload := qrPayload; scanLogs := [] |} in
            let* saved := await (Registration_create registration) in
            match saved with
            | None =>
                Return (push_failed eventId "Registration processing failed" results)
            | Some slot =>
                let* updated :=
                  await (Event_save_currentParticipants eventId
                           (currentParticipants event + 1)) in
                if negb updated
                then Return (push_failed eventId "Registration processing failed" results)
                else
                  let* populatedRegistration :=
                    await (Registration_findById_populated slot) in
                  match populatedRegistration with
                  | Some (regObj, Some _, Some _) =>
                      Return (push_registration regObj results)
                  | _ =>
                      Return (push_failed eventId "Registration processing failed"
                                results)
                  end
            end
      end
  end.

Fixpoint registerMultiple_loop (now : Z) (random : nat -> string) (userId : string)
         (user : User) (i : nat) (eventIds : list string) (results : MultiResults)
  : async MultiResults :=
  match eventIds with
  | [] => Return results
  | eventId :: rest =>
      let* results' :=
        registerMultiple_event now (random i) userId user eventId results in
      registerMultiple_loop now random userId user (S i) rest results'
  end.

Definition registerMultiple (now : Z) (random : nat -> string)
           (userId : string) (eventIds : list string) : async MultiResponse.t :=
  if String.eqb userId "" || Nat.eqb (length eventIds) 0
  then Return {| MultiResponse.code := 400;
                 MultiResponse.error := Some "Invalid request data";
                 MultiResponse.results := None |}
  else
    let* user := await (User_findById userId) in
    match user with
    | None => Return {| MultiResponse.code := 404;
                        MultiResponse.error := Some "User not found";
                        MultiResponse.results := None |}
    | Some user =>
        let* results :=
          registerMultiple_loop now random userId user 0 eventIds
            {| totalEvents := length eventIds; successfulRegistrations := 0;
               failedRegistrations := []; registrations := [] |} in
        Return {| MultiResponse.code := 200; MultiResponse.error := None;
                  MultiResponse.results := Some results |}
    end.

(** *** [POST /api/events/:eventId/register] *)
Definition register (now : Z) (registrationId : string)
           (userId eventId : string) : async RegisterResponse.t :=
  let* user := await (User_findById userId) in
  match user with
  | None => Return (RegisterResponse.failed 404 "User not found")
  | Some user =>
      let* event := await (Event_findById eventId) in
      match event with
      | None => Return (RegisterResponse.failed 404 "Event not found")
      | Some event =>
          let* existingRegistration :=
            await (Registration_findOne (matches_user_event userId eventId)) in
          match existingRegistration with
          | Some _ =>
              Return (RegisterResponse.failed 409 "Already registered for this event")
          | None =>
              if (currentParticipants event >=? maxParticipants event)%Z
              then Return (RegisterResponse.failed 400 "Event is full")
              else if (now >? registrationDeadline event)%Z
              then Return (RegisterResponse.failed 400
                             "Registration deadline has passed")
              else
                let qrPayload :=
                  JObj [ ("registrationId", JStr registrationId);
                         ("userId", JStr userId);
                         ("eventIds", JArr [JStr eventId]);
                         ("timestamp", JNum now) ] in
                let signature := generateQRSignature qrPayload in
                let qrData :=
                  JSON.stringify (JS.set "signature" (JStr signature) qrPayload) in
                let* qrCodeUrl :=
                  generateQRCodeWithEventName qrData (title event) 40 in
                let registration :=
                  {| registrationId := registrationId; userId := userId;
                     eventId := eventId; registeredAt := now; status := registered;
                     qrCode := qrCodeUrl;
                     qrPayload :=
                       {| registration_id := registrationId; student_id := userId;
                          event_id := eventId;
                          issued_at := Date.toISOString now;
                          expires_at := Date.toISOString (date event);
                          signature := signature;
                          event_title := title event; student_name := name user |};
                     scanLogs := [] |} in
                let* saved := await (Registration_create registration) in
                match saved with
                | None => Return (RegisterResponse.failed 500 "Registration failed")
                | Some _ =>
                    let* updated :=
                      await (Event_save_currentParticipants eventId
                               (currentParticipants event + 1)) in
                    if negb updated
                    then Return (RegisterResponse.failed 500 "Registration failed")
                    else Return {| RegisterResponse.code := 200;
                                   RegisterResponse.error := None;
                                   RegisterResponse.success := true;
                                   RegisterResponse.registration := Some registration |}
                end
          end
      end
  end.

(** *** [POST /api/qr/validate] *)
Definition requiredFields : list string :=
  ["registration_id"; "student_id"; "event_id"; "signature"].

(** The values Mongoose casts the filter to; [None] is its [CastError].
    [registrationId] is a [String] path: a number or a boolean is
    converted to its text.  [userId] and [eventId] are [ObjectId] paths,
    and identifiers are taken to be well-formed: a string is the
    identifier it spells, any other value is refused. *)
Definition castString (o : option json) : option string :=
  match o with
  | Some (JStr s) => Some s
  | Some (JNum n) => Some (JS.toString (JNum n))
  | Some (JBool b) => Some (JS.toString (JBool b))
  | _ => None
  end.

Definition castObjectId (o : option json) : option string :=
  match o with
  | Some (JStr s) => Some s
  | _ => None
  end.

Definition cast_filter (qrPayload : json) : option (string * string * string) :=
  match castString (JS.get "registration_id" qrPayload),
        castObjectId (JS.get "student_id" qrPayload),
        castObjectId (JS.get "event_id" qrPayload) with
  | Some rid, Some u, Some e => Some (rid, u, e)
  | _, _, _ => None
  end.

Definition qr_expired (now : Z) (qrPayload : json) : bool :=
  JS.truthy (JS.get "expires_at" qrPayload)
  && match JS.get "expires_at" qrPayload with
     | Some v => Date.gt now (Date.of_json v)
     | None => false
     end.

(** [eventId && qrPayload.event_id !== eventId]. *)
Definition different_event (eventId : option string) (qrPayload : json) : bool :=
  match eventId with
  | Some expected =>
      negb (String.eqb expected "")
      && negb (JS.strict_eq_string (JS.get "event_id" qrPayload) expected)
  | None => false
  end.

(** [o || default] on an optional string. *)
Definition or_default (o : option string) (default : string) : string :=
  match o with
  | Some s => if String.eqb s "" then default else s
  | None => default
  end.

Definition validate (now : Z) (body : ValidateRequest.t)
  : async QRValidationResult.t :=
  let failure := QRValidationResult.rejected 500 "QR validation failed" in
  match JSON.parse (ValidateRequest.qrData body) with
  | None | Some JNull =>
      Return (QRValidationResult.rejected 200 "Invalid QR code format")
  | Some qrPayload =>
      let missingFields :=
        List.filter (fun field => negb (JS.truthy (JS.get field qrPayload)))
                    requiredFields in
      if Nat.ltb 0 (length missingFields)
      then Return (QRValidationResult.rejected 200
                     ("Missing required QR code fields: " +:+ join ", " missingFields))
      else if negb (validateQRSignature qrPayload)
      then Return (QRValidationResult.rejected 200 "Invalid QR code signature")
      else if different_event (ValidateRequest.eventId body) qrPayload
      then Return (QRValidationResult.rejected 200 "QR code is for a different event")
      else
        match cast_filter qrPayload with
        | None => Return failure
        | Some (rid, u, e) =>
            let* found :=
              await (Registration_findOne_populated (matches_triple rid u e)) in
            match found with
            | None => Return (QRValidationResult.rejected 200 "Registration not found")
            | Some (slot, registration, user, event) =>
                if bool_decide (status registration = cancelled)
                then Return (QRValidationResult.rejected 200
                               "Registration has been cancelled")
                else if qr_expired now qrPayload
                then Return (QRValidationResult.rejected 200 "QR code has expired")
                else if bool_decide (status registration = attended)
                then
                  match user, event with
                  | Some _, Some _ =>
                      Return {| QRValidationResult.code := 200;
                                QRValidationResult.valid := false;
                                QRValidationResult.reason :=
                                  Some "Already marked as attended";
                                QRValidationResult.registration := Some registration;
                                QRValidationResult.scanLog := None |}
                  | _, _ => Return failure
                  end
                else
                  let scanLog :=
                    {| scannedAt := now;
                       scannedBy :=
                         or_default (ValidateRequest.scannedBy body) "system";
                       location :=
                         or_default (ValidateRequest.location body) "unknown";
                       scanStatus := valid;
                       notes := "Valid scan - marked as attended" |} in
                  let* saved := await (Registration_save_attended slot scanLog) in
                  if negb saved then Return failure
                  else
                    let* _ :=
                      await (ScanLog_create
                               {| ScanLog.registrationId := registrationId registration;
                                  ScanLog.scannedAt := scannedAt scanLog;
                                  ScanLog.scannedBy := scannedBy scanLog;
                                  ScanLog.location := location scanLog;
                                  ScanLog.status := scanStatus scanLog;
                                  ScanLog.notes := notes scanLog;
                                  ScanLog.eventId :=
                                    match event with
                                    | Some _ => Some (eventId registration)
                                    | None => None
                                    end;
                                  ScanLog.userId :=
                                    match user with
                                    | Some _ => Some (userId registration)
                                    | None => None
                                    end |}) in
                    match user, event with
                    | Some _, Some _ =>
                        Return {| QRValidationResult.code := 200;
                                  QRValidationResult.valid := true;
                                  QRValidationResult.reason := None;
                                  QRValidationResult.registration :=
                                    Some (push_scanLog scanLog
                                            (with_status attended registration));
                                  QRValidationResult.scanLog := Some scanLog |}
                    | _, _ => Return failure
                    end
            end
        end
  end.

(** *** [POST /api/events/:eventId/unregister] *)
Definition unregister (userId eventId : string) : async SimpleResponse.t :=
  let* registration :=
    await (Registration_findOneAndDelete (matches_user_event userId eventId)) in
  match registration with
  | None => Return {| SimpleResponse.code := 404;
                      SimpleResponse.error := Some "Registration not found." |}
  | Some _ =>
      let* event := await (Event_findById eventId) in
      let ok := {| SimpleResponse.code := 200; SimpleResponse.error := None |} in
      match event with
      | Some event =>
          if (currentParticipants event >? 0)%Z
          then
            let* updated :=
              await (Event_save_currentParticipants eventId
                       (currentParticipants event - 1)) in
            if negb updated
            then Return {| SimpleResponse.code := 500;
                           SimpleResponse.error := Some "Unregistration failed." |}
            else Return ok
          else Return ok
      | None => Return ok
      end
  end.

(** *** [DELETE /api/admin/user/:id] *)
Definition deleteUser (id : string) : async SimpleResponse.t :=
  let* user := await (User_findByIdAndDelete id) in
  match user with
  | None => Return {| SimpleResponse.code := 404;
                      SimpleResponse.error := Some "User not found." |}
  | Some _ =>
      let* _ := await (Registration_deleteMany (matches_user id)) in
      Return {| SimpleResponse.code := 200; SimpleResponse.error := None |}
  end.

End Engine.

(** Requests served one after the other, each from its first operation
    to its response. *)
Fixpoint run_all {A : Type} (requests : list (async A)) (db : DB) : list A * DB :=
  match requests with
  | [] => ([], db)
  | m :: rest =>
      let '(a, db1) := run m db in
      let '(others, db2) := run_all rest db1 in
      (a :: others, db2)
  end.

(** A batch answer that registered its one event, and one that refused
    it because the event is full. *)
Definition registered_one (resp : MultiResponse.t) : bool :=
  match MultiResponse.results resp with
  | Some results => Nat.eqb (successfulRegistrations results) 1
  | None => false
  end.

Definition refused_full (eventId : string) (resp : MultiResponse.t) : bool :=
  match MultiResponse.results resp with
  | Some results =>
      bool_decide (failedRegistrations results = [(eventId, "Event is full")])
  | None => false
  end.

(** ** The handlers, by their outcome

    The definitions below name what the handlers compute, for the
    statements that follow: the documents an issuance stores, the database
    it leaves, and the way a scan ends. *)

(** The documents the two issuance paths store. *)
Definition batch_registration (secret : option string) (now : Z)
           (registrationId userId : string) (user : User)
           (eventId : string) (event : Event) : Registration :=
  let qrPayload :=
    sign secret
      {| registration_id := registrationId; student_id := userId;
         event_id := eventId; issued_at := Date.toISOString now;
         expires_at := Date.toISOString (date event); signature := "";
         event_title := title event; student_name := name user |} in
  {| registrationId := registrationId; userId := userId; eventId := eventId;
     registeredAt := now; status := registered;
     qrCode := {| encoded := JSON.stringify (payload_object qrPayload);
                  label := displayName (title event) 40 |};
     qrPayload := qrPayload; scanLogs := [] |}.

Definition single_registration (secret : option string) (now : Z)
           (registrationId userId : string) (user : User)
           (eventId : string) (event : Event) : Registration :=
  let unsigned :=
    JObj [ ("registrationId", JStr registrationId); ("userId", JStr userId);
           ("eventIds", JArr [JStr eventId]); ("timestamp", JNum now) ] in
  let signature := generateQRSignature secret unsigned in
  {| registrationId := registrationId; userId := userId; eventId := eventId;
     registeredAt := now; status := registered;
     qrCode := {| encoded :=
                    JSON.stringify (JS.set "signature" (JStr signature) unsigned);
                  label := displayName (title event) 40 |};
     qrPayload :=
       {| registration_id := registrationId; student_id := userId;
          event_id := eventId; issued_at := Date.toISOString now;
          expires_at := Date.toISOString (date event); signature := signature;
          event_title := title event; student_name := name user |};
     scanLogs := [] |}.

(** The database after a registration is stored and the counter of its
    event is written back as the count read before, plus one. *)
Definition issued (db : DB) (eventId : string) (event : Event) (r : Registration)
  : DB :=
  set_Events
    (<[eventId := with_currentParticipants (currentParticipants event + 1) event]>
       (Events db))
    (set_Registrations (Registrations db ++ [Some r]) db).


(** The scan log of a valid scan, and the database after it is committed. *)
Definition valid_scanLog (now : Z) (body : ValidateRequest.t) : ScanEntry :=
  {| scannedAt := now;
     scannedBy := or_default (ValidateRequest.scannedBy body) "system";
     location := or_default (ValidateRequest.location body) "unknown";
     scanStatus := valid;
     notes := "Valid scan - marked as attended" |}.

Definition standalone_scanLog (db : DB) (r : Registration) (l : ScanEntry) : ScanLog.t :=
  {| ScanLog.registrationId := registrationId r;
     ScanLog.scannedAt := scannedAt l;
     ScanLog.scannedBy := scannedBy l;
     ScanLog.location := location l;
     ScanLog.status := scanStatus l;
     ScanLog.notes := notes l;
     ScanLog.eventId := match Events db !! eventId r with
                        | Some _ => Some (eventId r)
                        | None => None
                        end;
     ScanLog.userId := match Users db !! userId r with
                       | Some _ => Some (userId r)
                       | None => None
                       end |}.

Definition committed (db : DB) (slot : nat) (r : Registration) (l : ScanEntry) : DB :=
  set_ScanLogs (ScanLogs db ++ [standalone_scanLog db r l])
    (set_Registrations
       (<[slot := Some (push_scanLog l (with_status attended r))]> (Registrations db))
       db).

Definition missing_fields (qrPayload : json) : list string :=
  List.filter (fun field => negb (JS.truthy (JS.get field qrPayload))) requiredFields.

(** How a scan ends. *)
Inductive ending : Type :=
| Rejected (why : string)
| AlreadyAttended (r : Registration)
| Failed
| Committed (slot : nat) (r : Registration).

Definition scan_of (secret : option string) (now : Z) (body : ValidateRequest.t)
           (db : DB) : ending :=
  match JSON.parse (ValidateRequest.qrData body) with
  | None | Some JNull => Rejected "Invalid QR code format"
  | Some qrPayload =>
      if Nat.ltb 0 (length (missing_fields qrPayload))
      then Rejected ("Missing required QR code fields: "
                     +:+ join ", " (missing_fields qrPayload))
      else if negb (validateQRSignature secret qrPayload)
      then Rejected "Invalid QR code signature"
      else if different_event (ValidateRequest.eventId body) qrPayload
      then Rejected "QR code is for a different event"
      else
        match cast_filter qrPayload with
        | None => Failed
        | Some (rid, u, e) =>
            match findOne (matches_triple rid u e) (Registrations db) with
            | None => Rejected "Registration not found"
            | Some (slot, r) =>
                if bool_decide (status r = cancelled)
                then Rejected "Registration has been cancelled"
                else if qr_expired now qrPayload
                then Rejected "QR code has expired"
                else if bool_decide (status r = attended)
                then match Users db !! userId r, Events db !! eventId r with
                     | Some _, Some _ => AlreadyAttended r
                     | _, _ => Failed
                     end
                else Committed slot r
            end
        end
  end.

Definition failure : QRValidationResult.t :=
  QRValidationResult.rejected 500 "QR validation failed".


(** ** A scenario

    Two students, one event with a single place, and the requests the
    examples replay. *)

Module Scenario.

Local Open Scope Z_scope.

Definition asha : string := "64b7f0c2a1b2c3d4e5f60001".
Definition ben : string := "64b7f0c2a1b2c3d4e5f60002".
Definition hackathon : string := "64b7f0c2a1b2c3d4e5f6e001".
Definition quiz : string := "64b7f0c2a1b2c3d4e5f6e002".

(** 2025-11-02T05:00:00.123Z; the event is on 2026-01-01 and its
    registration closes on 2025-12-17T19:33:20.000Z. *)
Definition now : Z := 1762059600123.

Definition hackathon_event : Event :=
  {| title := "Hackathon"; date := 1767225600000; maxParticipants := 1;
     currentParticipants := 0; registrationDeadline := 1766000000000 |}.

Definition db0 : DB :=
  {| Users := {[ asha := {| name := "Asha" |}; ben := {| name := "Ben" |} ]};
     Events := {[ hackathon := hackathon_event ]};
     Registrations := [];
     ScanLogs := [] |}.

(** Two draws of [generateUniqueRegistrationId]. *)
Definition id1 : string :=
  Eval vm_compute in
    generateUniqueRegistrationId
      [0x00; 0x11; 0x22; 0x33; 0x44; 0x55; 0x66; 0x77;
       0x88; 0x99; 0xaa; 0xbb; 0xcc; 0xdd; 0xee; 0xff]%N.
Definition id2 : string :=
  Eval vm_compute in
    generateUniqueRegistrationId
      [0xff; 0xee; 0xdd; 0xcc; 0xbb; 0xaa; 0x99; 0x88;
       0x77; 0x66; 0x55; 0x44; 0x33; 0x22; 0x11; 0x00]%N.

(** Asha's registration as the batch path and as the single-event path
    store it. *)
Definition asha_batch : Registration :=
  batch_registration None now id1 asha {| name := "Asha" |} hackathon hackathon_event.
Definition asha_single : Registration :=
  single_registration None now id1 asha {| name := "Asha" |} hackathon hackathon_event.

Definition scan (text : string) : ValidateRequest.t :=
  {| ValidateRequest.qrData := text;
     ValidateRequest.eventId := Some hackathon;
     ValidateRequest.scannedBy := Some "gate-1";
     ValidateRequest.location := None |}.

(** The database after Asha registered through the batch path. *)
Definition db1 : DB := issued db0 hackathon hackathon_event asha_batch.

(** The same, with her registration in another status. *)
Definition db1_with (s : RegistrationStatus) : DB :=
  set_Registrations [Some (with_status s asha_batch)] db1.


Definition two_attempts : list (async MultiResponse.t) :=
  [ registerMultiple None now (fun _ => id1) asha [hackathon];
    registerMultiple None now (fun _ => id2) ben [hackathon] ].


(** The event full, seen after its deadline at time [late]. *)
Definition late : Z := 1766000000001.

Definition full_and_late : DB :=
  set_Events {[ hackathon := with_currentParticipants 1 hackathon_event ]} db0.

End Scenario.

(** ** The other routes and the requests as a whole *)

(** The text of a scan status, as stored and as a query gives it. *)
Definition status_name (s : ScanStatus) : string :=
  match s with
  | valid => "valid"
  | invalid => "invalid"
  | expired => "expired"
  | duplicate => "duplicate"
  end.







(** [GET /api/registrations]: the registrations whose user and event both
    still exist, each with the two documents. *)
Definition getRegistrations (db : DB) : list (Registration * User * Event) :=
  omap (fun d =>
          match d with
          | Some r =>
              match Users db !! userId r, Events db !! eventId r with
              | Some u, Some e => Some (r, u, e)
              | _, _ => None
              end
          | None => None
          end) (Registrations db).

(** [DELETE /api/events]: [Event.deleteMany({ _id: { $in: eventIds } })]
    with the [deletedCount] it reports; an empty list is refused with
    status 400. *)
Module DeleteEventsResponse.
Record t := { code : nat; error : option string; deletedCount : option nat }.
End DeleteEventsResponse.

Definition listed (eventIds : list string) (doc : string * Event) : Prop :=
  doc.1 ∈ eventIds.

#[global] Instance listed_dec (eventIds : list string) (doc : string * Event)
  : Decision (listed eventIds doc).
Proof. unfold listed. apply _. Defined.

Definition deleteEvents (eventIds : list string) (db : DB)
  : DeleteEventsResponse.t * DB :=
  if Nat.eqb (length eventIds) 0
  then ({| DeleteEventsResponse.code := 400;
           DeleteEventsResponse.error := Some "No event IDs provided.";
           DeleteEventsResponse.deletedCount := None |}, db)
  else
    ({| DeleteEventsResponse.code := 200;
        DeleteEventsResponse.error := None;
        DeleteEventsResponse.deletedCount :=
          Some (size (filter (listed eventIds) (Events db))) |},
     set_Events (filter (fun doc => ~ listed eventIds doc) (Events db)) db).

(** [DELETE /api/events/:id]: [Event.findByIdAndDelete]; the answer is
    the same whether the event existed or not. *)
Definition deleteEvent (id : string) (db : DB) : DB :=
  set_Events (delete id (Events db)) db.

(** The requests that write to the database, and the database each leaves
    when it is served alone. *)
Inductive request : Type :=
| POST_register_multiple (now : Z) (random : nat -> string)
                         (userId : string) (eventIds : list string)
| POST_register (now : Z) (registrationId userId eventId : string)
| POST_validate (now : Z) (body : ValidateRequest.t)
| POST_unregister (userId eventId : string)
| DELETE_admin_user (id : string)
| DELETE_events (eventIds : list string)
| DELETE_event (id : string).

Definition serve (secret : option string) (req : request) (db : DB) : DB :=
  match req with
  | POST_register_multiple now random u es =>
      (run (registerMultiple secret now random u es) db).2
  | POST_register now rid u e => (run (register secret now rid u e) db).2
  | POST_validate now body => (run (validate secret now body) db).2
  | POST_unregister u e => (run (unregister u e) db).2
  | DELETE_admin_user id => (run (deleteUser id) db).2
  | DELETE_events eventIds => (deleteEvents eventIds db).2
  | DELETE_event id => deleteEvent id db
  end.

Definition serve_all (secret : option string) (reqs : list request) (db : DB) : DB :=
  fold_left (fun db req => serve secret req db) reqs db.

(** The database after the registration in [slot] is deleted and the
    counter of [eventId], when it is above zero, is written back one
    lower. *)
Definition unregistered (db : DB) (slot : nat) (eventId : string) : DB :=
  let db1 := set_Registrations (<[slot := None]> (Registrations db)) db in
  match Events db !! eventId with
  | Some event =>
      if (currentParticipants event >? 0)%Z
      then set_Events
             (<[eventId := with_currentParticipants (currentParticipants event - 1)
                             event]> (Events db)) db1
      else db1
  | None => db1
  end.

(** The database after a user and the registrations of the user are
    deleted. *)
Definition user_deleted (db : DB) (id : string) : DB :=
  set_Registrations (deleteMany (matches_user id) (Registrations db))
    (set_Users (delete id (Users db)) db).

(** The writes the requests are made of, each with what the handler has
    checked when it comes to it. *)
Inductive write : DB -> DB -> Prop :=
| write_issued (db : DB) (e : string) (event : Event) (r : Registration) :
    Events db !! e = Some event ->
    (currentParticipants event < maxParticipants event)%Z ->
    violates_unique_index r (Registrations db) = false ->
    eventId r = e ->
    scanLogs r = [] ->
    write db (issued db e event r)
| write_committed (db : DB) (slot : nat) (r : Registration) (l : ScanEntry) :
    Registrations db !! slot = Some (Some r) ->
    scanStatus l = valid ->
    write db (committed db slot r l)
| write_unregistered (db : DB) (slot : nat) (r : Registration) :
    Registrations db !! slot = Some (Some r) ->
    write db (unregistered db slot (eventId r))
| write_user_deleted (db : DB) (id : string) :
    write db (user_deleted db id)
| write_events_deleted (db : DB) (eventIds : list string) :
    write db (set_Events (filter (fun doc => ~ listed eventIds doc) (Events db)) db).

(** The stored registrations, and how many of them are for an event. *)
Definition live (docs : list (option Registration)) : list Registration :=
  omap (fun d => d) docs.

Definition registrations_of (event : string) (docs : list (option Registration))
  : nat :=
  length (List.filter (fun r => String.eqb (eventId r) event) (live docs)).

(** Every event has a count between zero and its maximum, and at least as
    high as the number of registrations stored for it. *)
Definition counters_bound_registrations (db : DB) : Prop :=
  forall (e : string) (event : Event),
    Events db !! e = Some event ->
    (0 <= currentParticipants event <= maxParticipants event)%Z
    /\ (Z.of_nat (registrations_of e (Registrations db)) <= currentParticipants event)%Z.

(** No two stored registrations share a [registrationId] or a pair
    [(userId, eventId)]. *)
Definition unique_registrations (docs : list (option Registration)) : Prop :=
  forall (i j : nat) (r r' : Registration),
    docs !! i = Some (Some r) ->
    docs !! j = Some (Some r') ->
    registrationId r = registrationId r'
    \/ (userId r = userId r' /\ eventId r = eventId r') ->
    i = j.


(** An identifier in the form [ObjectId] prints. *)
Definition is_ObjectId (s : string) : bool :=
  Nat.eqb (String.length s) 24
  && forallb Hex.is_lower_digit (list_ascii_of_string s).

(** A text of characters below 128: its bytes are its UTF-16 code units,
    so that its length and its substrings are those of JavaScript. *)
Definition is_ASCII (s : string) : bool :=
  forallb (fun c => N.ltb (N_of_ascii c) 128) (list_ascii_of_string s).



(** ** A day of requests

    Asha registers through the batch route and Ben, who finds the event
    full, through the single route; Asha's credential is scanned, then she is
    unregistered; Ben tries again and is deleted by the administrator. *)

Module Replay.

Import Scenario.

Definition day : list request :=
  [ POST_register_multiple now (fun _ => id1) asha [hackathon];
    POST_register now id2 ben hackathon;
    POST_validate now (scan (encoded (qrCode asha_batch)));
    POST_unregister asha hackathon;
    POST_register now id2 ben hackathon;
    DELETE_admin_user ben ].

(** The bytes of the two draws of the scenario. *)
Definition draw1 : list N :=
  [0x00; 0x11; 0x22; 0x33; 0x44; 0x55; 0x66; 0x77;
   0x88; 0x99; 0xaa; 0xbb; 0xcc; 0xdd; 0xee; 0xff]%N.
Definition draw2 : list N := rev draw1.


(** A scan for the quiz. *)
Definition scan_at_quiz (text : string) : ValidateRequest.t :=
  {| ValidateRequest.qrData := text;
     ValidateRequest.eventId := Some quiz;
     ValidateRequest.scannedBy := Some "desk-2";
     ValidateRequest.location := None |}.

(** The portal with a second event, after Ben registered for the quiz
    and Asha for the hackathon, both through the batch route: Asha's
    registration is the second document. *)
Definition quiz_event : Event :=
  {| title := "Quiz"; date := 1767225600000; maxParticipants := 30;
     currentParticipants := 0; registrationDeadline := 1766000000000 |}.

Definition festival : DB :=
  serve_all None
    [ POST_register_multiple now (fun _ => id2) ben [quiz];
      POST_register_multiple now (fun _ => id1) asha [hackathon] ]
    (set_Events (<[quiz := quiz_event]> (Events db0)) db0).

(** Asha registered, and the hackathon deleted afterwards. *)
Definition orphaned : DB := deleteEvent hackathon db1.

(** An event name of 60 characters. *)
Definition long_title : string :=
  "International Collegiate Programming Contest Regional Finals".

End Replay.

(** * Properties *)

(** ** Hexadecimal text *)

Lemma ascii_N_roundtrip (c : ascii) : ascii_of_N (N_of_ascii c) = c.
Proof. apply ascii_N_embedding. Qed.

Lemma chars_of_string_of_chars (l : list ascii) :
  list_ascii_of_string (string_of_list_ascii l) = l.
Proof. apply list_ascii_of_string_of_list_ascii. Qed.

Lemma Hex_digit_lower (n : N) : Hex.is_lower_digit (Hex.digit n) = true.
Proof.
  destruct n as [|p]; [reflexivity|].
  do 5 (try destruct p as [p|p|]; try reflexivity).
Qed.

Lemma Hex_encode_length (bs : list N) : length (Hex.encode bs) = 2 * length bs.
Proof. induction bs as [|b bs IH]; simpl; [reflexivity | rewrite IH; lia]. Qed.

Lemma Hex_encode_lower (bs : list N) :
  Forall (fun c => Hex.is_lower_digit c = true) (Hex.encode bs).
Proof.
  induction bs as [|b bs IH]; simpl; [constructor|].
  repeat constructor; auto using Hex_digit_lower.
Qed.

Lemma Hex_lower_value (c : ascii) :
  Hex.is_lower_digit c = true -> exists v, Hex.value c = Some v /\ (v < 16)%N.
Proof.
  destruct c as [[] [] [] [] [] [] [] []]; intros H; try discriminate H;
    vm_compute; eexists; split; reflexivity.
Qed.

(** Replacing one character of lowercase hexadecimal text leaves the
    decoded bytes unchanged exactly when the new character has the value
    of the old one. *)
Lemma Hex_decode_replace (n : nat) :
  forall (s : list ascii) (i : nat) (c c' : ascii),
    length s = 2 * n ->
    Forall (fun c => Hex.is_lower_digit c = true) s ->
    s !! i = Some c ->
    (Hex.decode (<[i := c']> s) = Hex.decode s <-> Hex.value c' = Hex.value c).
Proof.
  induction n as [|n IH]; intros s i c c' Hlen Hall Hi.
  - destruct s; [discriminate Hi | discriminate Hlen].
  - destruct s as [|a [|b r]]; [discriminate Hlen | simpl in Hlen; lia |].
    simpl in Hlen.
    inversion Hall as [|? ? Ha Hall']; subst.
    inversion Hall' as [|? ? Hb Hr]; subst.
    destruct (Hex_lower_value a Ha) as (xa & Hxa & Hxa16).
    destruct (Hex_lower_value b Hb) as (xb & Hxb & Hxb16).
    destruct i as [|[|i]]; simpl in Hi.
    + injection Hi as <-. simpl. rewrite Hxa, Hxb.
      destruct (Hex.value c') as [x|] eqn:Hc'.
      * split; intros H.
        -- injection H as H. f_equal. lia.
        -- injection H as ->. reflexivity.
      * split; intros H; discriminate H.
    + injection Hi as <-. simpl. rewrite Hxa, Hxb.
      destruct (Hex.value c') as [y|] eqn:Hc'.
      * split; intros H.
        -- injection H as H. f_equal. lia.
        -- injection H as ->. reflexivity.
      * split; intros H; discriminate H.
    + simpl. rewrite Hxa, Hxb.
      rewrite <- (IH r i c c') by (auto; lia).
      split; intros H; [injection H as H; exact H | rewrite H; reflexivity].
Qed.

Lemma flip_char_value (j : nat) (c : ascii) :
  (j < 8)%nat -> Hex.is_lower_digit c = true ->
  (Hex.value (flip_char j c) = Hex.value c <-> j = 5%nat /\ Hex.is_lower_letter c = true).
Proof.
  intros Hj Hc.
  destruct j as [|[|[|[|[|[|[|[|j]]]]]]]]; try lia;
    destruct c as [[] [] [] [] [] [] [] []]; try discriminate Hc;
    vm_compute;
    (split;
     [ intros H; first [discriminate H | split; reflexivity]
     | intros [H1 H2]; first [discriminate H1 | discriminate H2 | reflexivity] ]).
Qed.

Lemma flip_bit_chars (j : nat) :
  forall (s : string) (i : nat) (c : ascii),
    String.get i s = Some c ->
    list_ascii_of_string (flip_bit i j s)
    = <[i := flip_char j c]> (list_ascii_of_string s)
    /\ list_ascii_of_string s !! i = Some c.
Proof.
  induction s as [|a s IH]; intros i c H; [discriminate H|].
  destruct i as [|i]; simpl in *.
  - injection H as ->. split; reflexivity.
  - destruct (IH i c H) as [-> ->]. split; reflexivity.
Qed.

(** ** The digest *)

Lemma digest_bytes_length (s : SHA256.state) : length (SHA256.digest_bytes s) = 32.
Proof. reflexivity. Qed.

Lemma createHmac_sha256_hex_chars (key data : string) :
  let s := list_ascii_of_string (createHmac_sha256_hex key data) in
  length s = 2 * 32 /\ Forall (fun c => Hex.is_lower_digit c = true) s.
Proof.
  unfold createHmac_sha256_hex. rewrite chars_of_string_of_chars. split.
  - rewrite Hex_encode_length. unfold HMAC.sha256, SHA256.hash.
    rewrite digest_bytes_length. reflexivity.
  - apply Hex_encode_lower.
Qed.

(** ** JSON text of a payload *)

#[local] Arguments String.append !_ _ / : simpl nomatch.

Lemma append_assoc (a b c : string) : (a +:+ b) +:+ c = a +:+ (b +:+ c).
Proof. induction a as [|x a IH]; simpl; [reflexivity | rewrite IH; reflexivity]. Qed.

(** A string literal reads back as the string it was written from. *)
Lemma parse_chars_escape (s rest : string) :
  JSON.parse_chars (JSON.escape s +:+ String JSON.dquote rest) = Some (s, rest).
Proof.
  unfold JSON.dquote.
  induction s as [|c s IH]; [reflexivity|].
  cbn [JSON.escape]. rewrite append_assoc.
  destruct c as [[] [] [] [] [] [] [] []];
    match goal with
    | |- context [JSON.escape_char ?c] =>
        let e := eval vm_compute in (JSON.escape_char c) in
        change (JSON.escape_char c) with e
    end;
    cbn; rewrite IH; reflexivity.
Qed.

Lemma quote_append (k rest : string) :
  JSON.quote k +:+ rest = String JSON.dquote (JSON.escape k +:+ String JSON.dquote rest).
Proof. unfold JSON.quote. cbn. rewrite append_assoc. reflexivity. Qed.

Lemma parse_value_string (fuel : nat) (v rest : string) :
  JSON.parse_value (S fuel) (JSON.quote v +:+ rest) = Some (JStr v, rest).
Proof.
  rewrite quote_append.
  change (JSON.parse_value (S fuel) (String JSON.dquote ?x))
    with (match JSON.parse_chars x with
          | Some (str, r) => Some (JStr str, r)
          | None => None
          end).
  rewrite parse_chars_escape. reflexivity.
Qed.

Ltac unfold_parse_members :=
  match goal with
  | |- context [JSON.parse_members (S (S ?fuel)) ?acc (String JSON.dquote ?x)] =>
      change (JSON.parse_members (S (S fuel)) acc (String JSON.dquote x))
        with (match JSON.parse_chars x with
              | Some (k, r) =>
                  match JSON.skip_ws r with
                  | String colon r' =>
                      if negb (N.eqb (N_of_ascii colon) 58) then None
                      else
                        match JSON.parse_value (S fuel) r' with
                        | Some (v, r'') =>
                            match JSON.skip_ws r'' with
                            | String c rest' =>
                                let n := N_of_ascii c in
                                if N.eqb n 44
                                then JSON.parse_members (S fuel)
                                       (JS.set_field k v acc) rest'
                                else if N.eqb n 125
                                then Some (JObj (JS.set_field k v acc), rest')
                                else None
                            | "" => None
                            end
                        | None => None
                        end
                  | "" => None
                  end
              | None => None
              end)
  end.

Lemma parse_members_comma (fuel : nat) (acc : list (string * json))
      (k v rest : string) :
  JSON.parse_members (S (S fuel)) acc
    (JSON.quote k +:+ ":" +:+ JSON.quote v +:+ "," +:+ rest)
  = JSON.parse_members (S fuel) (JS.set_field k (JStr v) acc) rest.
Proof.
  rewrite (quote_append k). unfold_parse_members.
  rewrite parse_chars_escape.
  change (JSON.skip_ws (":" +:+ ?x)) with (String ":" x).
  cbv iota beta. change (negb (N.eqb (N_of_ascii ":") 58)) with false. cbv iota.
  rewrite parse_value_string. reflexivity.
Qed.

Lemma parse_members_close (fuel : nat) (acc : list (string * json))
      (k v rest : string) :
  JSON.parse_members (S (S fuel)) acc
    (JSON.quote k +:+ ":" +:+ JSON.quote v +:+ "}" +:+ rest)
  = Some (JObj (JS.set_field k (JStr v) acc), rest).
Proof.
  rewrite (quote_append k). unfold_parse_members.
  rewrite parse_chars_escape.
  change (JSON.skip_ws (":" +:+ ?x)) with (String ":" x).
  cbv iota beta. change (negb (N.eqb (N_of_ascii ":") 58)) with false. cbv iota.
  rewrite parse_value_string. reflexivity.
Qed.

Lemma stringify_payload_object (p : QRPayload) :
  JSON.stringify (payload_object p)
  = "{" +:+ JSON.quote "registration_id" +:+ ":" +:+ JSON.quote (registration_id p)
    +:+ "," +:+ JSON.quote "student_id" +:+ ":" +:+ JSON.quote (student_id p)
    +:+ "," +:+ JSON.quote "event_id" +:+ ":" +:+ JSON.quote (event_id p)
    +:+ "," +:+ JSON.quote "issued_at" +:+ ":" +:+ JSON.quote (issued_at p)
    +:+ "," +:+ JSON.quote "expires_at" +:+ ":" +:+ JSON.quote (expires_at p)
    +:+ "," +:+ JSON.quote "signature" +:+ ":" +:+ JSON.quote (signature p)
    +:+ "," +:+ JSON.quote "event_title" +:+ ":" +:+ JSON.quote (event_title p)
    +:+ "," +:+ JSON.quote "student_name" +:+ ":" +:+ JSON.quote (student_name p)
    +:+ "}" +:+ "".
Proof.
  unfold payload_object. cbn [JSON.stringify].
  repeat rewrite append_assoc. reflexivity.
Qed.

(** The JSON text of a payload object parses back to the same object. *)
Lemma parse_stringify_payload (p : QRPayload) :
  JSON.parse (JSON.stringify (payload_object p)) = Some (payload_object p).
Proof.
  unfold JSON.parse.
  assert (Hfuel : exists fuel,
             2 * String.length (JSON.stringify (payload_object p)) + 2
             = S (S (S (S (S (S (S (S (S (S fuel)))))))))).
  { rewrite stringify_payload_object. cbn [String.append String.length].
    eexists. cbn [Nat.mul Nat.add]. rewrite ?Nat.add_succ_r. cbn [Nat.add]. reflexivity. }
  destruct Hfuel as [fuel ->].
  rewrite stringify_payload_object.
  change (JSON.parse_value (S ?f) ("{" +:+ JSON.quote ?k +:+ ?x))
    with (JSON.parse_members f [] (JSON.quote k +:+ x)).
  do 7 rewrite parse_members_comma.
  rewrite parse_members_close.
  reflexivity.
Qed.

(** ** The credential codec *)

Lemma generateQRSignature_with_signature (secret : option string) (s : string)
      (p : QRPayload) :
  generateQRSignature secret (payload_object (with_signature s p))
  = generateQRSignature secret (payload_object p).
Proof. reflexivity. Qed.

Lemma generateQRSignature_chars (secret : option string) (payload : json) :
  let s := list_ascii_of_string (generateQRSignature secret payload) in
  length s = 2 * 32 /\ Forall (fun c => Hex.is_lower_digit c = true) s.
Proof. apply createHmac_sha256_hex_chars. Qed.

(** Verification compares the decoded bytes of the two hexadecimal texts. *)
Lemma validateQRSignature_payload (secret : option string) (p : QRPayload) :
  validateQRSignature secret (payload_object p) = true
  <-> Hex.decode (list_ascii_of_string (signature p))
      = Hex.decode (list_ascii_of_string (generateQRSignature secret (payload_object p))).
Proof.
  unfold validateQRSignature.
  change (JS.get "signature" (payload_object p)) with (Some (JStr (signature p))).
  cbn [Buffer_from_hex]. unfold timingSafeEqual.
  split.
  - destruct (Nat.eqb _ _); [|discriminate].
    intros H. apply bool_decide_eq_true in H. exact H.
  - intros ->. rewrite Nat.eqb_refl. apply bool_decide_eq_true. reflexivity.
Qed.

Lemma validateQRSignature_sign (secret : option string) (p : QRPayload) :
  validateQRSignature secret (payload_object (sign secret p)) = true.
Proof. apply validateQRSignature_payload. reflexivity. Qed.

(** C1 (as amended). A signed payload, written as JSON and read back,
    verifies.  Flipping one bit of one character of its signature text
    makes verification fail, except for the bit of weight 32 of a letter
    a..f: that only changes the case of the letter, the hexadecimal
    decoding ignores case, and the tampered payload still verifies. *)
Theorem sign_verifies_and_detects_bit_flips (secret : option string) (p : QRPayload) :
  (exists decoded,
      JSON.parse (JSON.stringify (payload_object (sign secret p))) = Some decoded
      /\ validateQRSignature secret decoded = true)
  /\ forall (i j : nat) (c : ascii),
      (j < 8)%nat ->
      String.get i (signature (sign secret p)) = Some c ->
      (validateQRSignature secret
         (payload_object
            (with_signature (flip_bit i j (signature (sign secret p))) (sign secret p)))
       = true
       <-> j = 5%nat /\ Hex.is_lower_letter c = true).
Proof.
  split.
  - exists (payload_object (sign secret p)). split.
    + apply parse_stringify_payload.
    + apply validateQRSignature_sign.
  - intros i j c Hj Hget.
    rewrite validateQRSignature_payload.
    rewrite generateQRSignature_with_signature.
    change (signature (with_signature ?s _)) with s.
    change (generateQRSignature secret (payload_object (sign secret p)))
      with (signature (sign secret p)).
    destruct (flip_bit_chars j _ _ _ Hget) as [-> Hlookup].
    destruct (generateQRSignature_chars secret (payload_object p)) as [Hlen Hall].
    change (generateQRSignature secret (payload_object p))
      with (signature (sign secret p)) in Hlen, Hall.
    rewrite (Hex_decode_replace 32 _ i c (flip_char j c) Hlen Hall Hlookup).
    apply flip_char_value; [exact Hj|].
    rewrite Forall_forall in Hall. apply Hall.
    apply list_elem_of_lookup. eauto.
Qed.

(** ** Running handlers *)

Lemma run_bind {A B : Type} (m : async A) (k : A -> async B) (db : DB) :
  run (bind m k) db = run (k (run m db).1) (run m db).2.
Proof.
  revert db. induction m as [a | X o k' IH]; intros db; [reflexivity|].
  cbn [bind run]. destruct (exec o db) as [x db1]. apply IH.
Qed.

Lemma findOne_from_Some (f : Registration -> bool) (docs : list (option Registration)) :
  forall (base i : nat) (r : Registration),
    findOne_from base f docs = Some (i, r) ->
    base <= i /\ docs !! (i - base) = Some (Some r) /\ f r = true.
Proof.
  induction docs as [|[d|] docs IH]; intros base i r H; cbn in H.
  - discriminate H.
  - destruct (f d) eqn:Hf.
    + injection H as <- <-. rewrite Nat.sub_diag. auto.
    + destruct (IH _ _ _ H) as (Hle & Hl & Hr).
      replace (i - base) with (S (i - S base)) by lia. split; [lia | auto].
  - destruct (IH _ _ _ H) as (Hle & Hl & Hr).
    replace (i - base) with (S (i - S base)) by lia. split; [lia | auto].
Qed.

Lemma findOne_Some (f : Registration -> bool) (docs : list (option Registration))
      (i : nat) (r : Registration) :
  findOne f docs = Some (i, r) -> docs !! i = Some (Some r) /\ f r = true.
Proof.
  intros H. destruct (findOne_from_Some f docs 0 i r H) as (_ & Hl & Hr).
  rewrite Nat.sub_0_r in Hl. auto.
Qed.

Lemma findOne_from_None (f : Registration -> bool) (docs : list (option Registration)) :
  forall base : nat,
    findOne_from base f docs = None
    <-> forall (i : nat) (r : Registration), docs !! i = Some (Some r) -> f r = false.
Proof.
  induction docs as [|[d|] docs IH]; intros base; cbn.
  - split; [intros _ i r H; discriminate H | reflexivity].
  - destruct (f d) eqn:Hf.
    + split; [discriminate|]. intros H. specialize (H 0 d eq_refl). congruence.
    + rewrite IH. split.
      * intros H [|i] r Hl; cbn in Hl; [congruence | eauto].
      * intros H i r Hl. apply (H (S i)). exact Hl.
  - rewrite IH. split.
    + intros H [|i] r Hl; cbn in Hl; [discriminate | eauto].
    + intros H i r Hl. apply (H (S i)). exact Hl.
Qed.

Lemma findOne_None (f : Registration -> bool) (docs : list (option Registration)) :
  findOne f docs = None
  <-> forall (i : nat) (r : Registration), docs !! i = Some (Some r) -> f r = false.
Proof. apply findOne_from_None. Qed.



(** ** The validator *)

(** The run of the validator, by the way the scan ends. *)
Lemma run_validate (secret : option string) (now : Z) (body : ValidateRequest.t)
      (db : DB) :
  run (validate secret now body) db
  = match scan_of secret now body db with
    | Rejected why => (QRValidationResult.rejected 200 why, db)
    | AlreadyAttended r =>
        ({| QRValidationResult.code := 200;
            QRValidationResult.valid := false;
            QRValidationResult.reason := Some "Already marked as attended";
            QRValidationResult.registration := Some r;
            QRValidationResult.scanLog := None |}, db)
    | Failed => (failure, db)
    | Committed slot r =>
        (match Users db !! userId r, Events db !! eventId r with
         | Some _, Some _ =>
             {| QRValidationResult.code := 200;
                QRValidationResult.valid := true;
                QRValidationResult.reason := None;
                QRValidationResult.registration :=
                  Some (push_scanLog (valid_scanLog now body) (with_status attended r));
                QRValidationResult.scanLog := Some (valid_scanLog now body) |}
         | _, _ => failure
         end,
         committed db slot r (valid_scanLog now body))
    end.
Proof.
  unfold validate, scan_of, missing_fields, committed, standalone_scanLog, valid_scanLog.
  destruct (JSON.parse _) as [[]|]; try reflexivity;
    (destruct (Nat.ltb 0 _); [reflexivity|];
     destruct (negb (validateQRSignature _ _)); [reflexivity|];
     destruct (different_event _ _); [reflexivity|];
     destruct (cast_filter _) as [[[rid u] e]|]; [|reflexivity];
     cbn [run bind await exec];
     destruct (findOne _ _) as [[slot r]|] eqn:Hfind; [|reflexivity];
     cbn [populate fst snd];
     destruct (bool_decide (status r = cancelled)); [reflexivity|];
     destruct (qr_expired _ _); [reflexivity|];
     destruct (bool_decide (status r = attended));
     [ destruct (Users db !! userId r), (Events db !! eventId r); reflexivity |];
     cbn [run bind await exec];
     rewrite (proj1 (findOne_Some _ _ _ _ Hfind));
     cbn [negb run bind await exec];
     destruct (Users db !! userId r), (Events db !! eventId r); reflexivity).
Qed.

Lemma validate_rejection_frame
      (secret : option string) (now : Z) (body : ValidateRequest.t)
      (db db' : DB) (resp : QRValidationResult.t) :
  run (validate secret now body) db = (resp, db') ->
  QRValidationResult.valid resp = false ->
  QRValidationResult.code resp = 200 ->
  db' = db.
Proof.
  rewrite run_validate. intros Hrun Hvalid Hcode.
  destruct (scan_of secret now body db) as [why|r| |slot r]; [congruence .. |].
  destruct (Users db !! userId r), (Events db !! eventId r);
    injection Hrun as <- <-; discriminate.
Qed.

(** C10 (as amended). A rejection (an answer with [valid: false] and
    status 200: wrong format, missing fields, bad signature, other event,
    registration not found, cancelled, expired, already attended) leaves
    every collection as it was.  The answer with [valid: false] and
    status 500 is not among them: it can follow the writes of a valid
    scan. *)
Theorem validate_rejection_changes_nothing
        (secret : option string) (now : Z) (body : ValidateRequest.t)
        (db db' : DB) (resp : QRValidationResult.t) :
  run (validate secret now body) db = (resp, db') ->
  QRValidationResult.valid resp = false ->
  QRValidationResult.code resp = 200 ->
  db' = db.
Proof. apply validate_rejection_frame. Qed.

(** C5 (as amended). The validator writes one standalone scan log, with
    status [valid], and pushes one scan log onto the registration it marks
    attended, when it answers [valid: true]; a rejection writes no scan
    log of either kind. *)
Theorem validate_logs_valid_scans_only
        (secret : option string) (now : Z) (body : ValidateRequest.t)
        (db db' : DB) (resp : QRValidationResult.t) :
  run (validate secret now body) db = (resp, db') ->
  (QRValidationResult.valid resp = true ->
   exists (l : ScanLog.t) (slot : nat) (r : Registration) (entry : ScanEntry),
     ScanLogs db' = ScanLogs db ++ [l]
     /\ ScanLog.status l = valid
     /\ ScanLog.registrationId l = registrationId r
     /\ scanStatus entry = valid
     /\ Registrations db !! slot = Some (Some r)
     /\ Registrations db'
        = <[slot := Some (push_scanLog entry (with_status attended r))]>
            (Registrations db))
  /\ (QRValidationResult.valid resp = false ->
      QRValidationResult.code resp = 200 ->
      ScanLogs db' = ScanLogs db /\ Registrations db' = Registrations db).
Proof.
  intros Hrun. split.
  - intros Hvalid. rewrite run_validate in Hrun.
    destruct (scan_of secret now body db) as [why|r| |slot r] eqn:Hscan;
      try (injection Hrun as <- <-; discriminate).
    injection Hrun as _ <-.
    exists (standalone_scanLog db r (valid_scanLog now body)), slot, r,
      (valid_scanLog now body).
    repeat split.
    unfold scan_of in Hscan.
    repeat (case_match; try discriminate).
    match goal with
    | H : findOne _ _ = Some _ |- _ => apply findOne_Some in H; destruct H as [H _]
    end.
    congruence.
  - intros Hvalid Hcode.
    rewrite (validate_rejection_frame _ _ _ _ _ _ Hrun Hvalid Hcode). auto.
Qed.




Lemma Hex_decode_lower_length (n : nat) :
  forall s : list ascii,
    length s = 2 * n -> Forall (fun c => Hex.is_lower_digit c = true) s ->
    length (Hex.decode s) = n.
Proof.
  induction n as [|n IH]; intros s Hlen Hall.
  - destruct s; [reflexivity | discriminate Hlen].
  - destruct s as [|a [|b r]]; [discriminate Hlen | simpl in Hlen; lia |].
    inversion Hall as [|? ? Ha Hall']; subst.
    inversion Hall' as [|? ? Hb Hr]; subst.
    destruct (Hex_lower_value a Ha) as (xa & Hxa & _).
    destruct (Hex_lower_value b Hb) as (xb & Hxb & _).
    cbn [Hex.decode]. rewrite Hxa, Hxb. cbn [length]. f_equal.
    apply IH; [simpl in Hlen; lia | assumption].
Qed.

Lemma verified_signature_not_empty (secret : option string) (p : QRPayload) :
  validateQRSignature secret (payload_object p) = true -> signature p <> "".
Proof.
  intros H Hempty. apply validateQRSignature_payload in H. rewrite Hempty in H.
  destruct (generateQRSignature_chars secret (payload_object p)) as [Hlen Hall].
  pose proof (Hex_decode_lower_length 32 _ Hlen Hall) as H32.
  rewrite <- H in H32. discriminate H32.
Qed.

Lemma eqb_empty_false (s : string) : s <> "" -> String.eqb s "" = false.
Proof. intros H. apply String.eqb_neq. exact H. Qed.

(** The scan of the credential of a stored registration passes the checks
    on the payload and reaches the registration. *)
Lemma scan_of_credential (secret : option string) (now : Z) (body : ValidateRequest.t)
      (db : DB) (slot : nat) (r : Registration) :
  let p := qrPayload r in
  ValidateRequest.qrData body = JSON.stringify (payload_object p) ->
  registration_id p <> "" -> student_id p <> "" -> event_id p <> "" ->
  validateQRSignature secret (payload_object p) = true ->
  different_event (ValidateRequest.eventId body) (payload_object p) = false ->
  findOne (matches_triple (registration_id p) (student_id p) (event_id p))
          (Registrations db) = Some (slot, r) ->
  scan_of secret now body db
  = if bool_decide (status r = cancelled)
    then Rejected "Registration has been cancelled"
    else if qr_expired now (payload_object p)
    then Rejected "QR code has expired"
    else if bool_decide (status r = attended)
    then match Users db !! userId r, Events db !! eventId r with
         | Some _, Some _ => AlreadyAttended r
         | _, _ => Failed
         end
    else Committed slot r.
Proof.
  intros p Hqr Hrid Hsid Heid Hsig Hevent Hfind. subst p.
  pose proof (verified_signature_not_empty _ _ Hsig) as Hsg.
  unfold scan_of. rewrite Hqr, parse_stringify_payload.
  assert (Hmissing : missing_fields (payload_object (qrPayload r)) = []).
  { unfold missing_fields, requiredFields. cbn [List.filter payload_object JS.get
      JS.lookup_field String.eqb Ascii.eqb Bool.eqb JS.truthy].
    rewrite !eqb_empty_false by assumption. reflexivity. }
  rewrite Hmissing, Hsig, Hevent.
  change (cast_filter (payload_object (qrPayload r)))
    with (Some (registration_id (qrPayload r), student_id (qrPayload r),
                event_id (qrPayload r))).
  cbn [length Nat.ltb Nat.leb negb payload_object].
  fold (payload_object (qrPayload r)). rewrite Hfind. reflexivity.
Qed.






(** ** Issuance *)

Lemma run_register (secret : option string) (now : Z) (rid u e : string) (db : DB) :
  run (register secret now rid u e) db
  = match Users db !! u with
    | None => (RegisterResponse.failed 404 "User not found", db)
    | Some user =>
        match Events db !! e with
        | None => (RegisterResponse.failed 404 "Event not found", db)
        | Some event =>
            match findOne (matches_user_event u e) (Registrations db) with
            | Some _ =>
                (RegisterResponse.failed 409 "Already registered for this event", db)
            | None =>
                if (currentParticipants event >=? maxParticipants event)%Z
                then (RegisterResponse.failed 400 "Event is full", db)
                else if (now >? registrationDeadline event)%Z
                then (RegisterResponse.failed 400 "Registration deadline has passed", db)
                else
                  let r := single_registration secret now rid u user e event in
                  if violates_unique_index r (Registrations db)
                  then (RegisterResponse.failed 500 "Registration failed", db)
                  else ({| RegisterResponse.code := 200;
                           RegisterResponse.error := None;
                           RegisterResponse.success := true;
                           RegisterResponse.registration := Some r |},
                        issued db e event r)
            end
        end
    end.
Proof.
  unfold register, single_registration, issued, generateQRCodeWithEventName.
  cbn [run bind await exec].
  destruct (Users db !! u) as [user|]; [|reflexivity]. cbn [run bind await exec].
  destruct (Events db !! e) as [event|] eqn:Hevent; [|reflexivity].
  cbn [run bind await exec].
  destruct (findOne _ _) as [[slot existing]|]; [reflexivity|].
  destruct (_ >=? _)%Z; [reflexivity|].
  destruct (_ >? _)%Z; [reflexivity|].
  cbn [run bind await exec fst snd].
  destruct (violates_unique_index _ _); [reflexivity|].
  cbn [run bind await exec Events set_Registrations].
  rewrite Hevent. reflexivity.
Qed.

Lemma run_registerMultiple_event (secret : option string) (now : Z) (rid u : string)
      (user : User) (e : string) (results : MultiResults) (db : DB) :
  run (registerMultiple_event secret now rid u user e results) db
  = match findOne (matches_user_event u e) (Registrations db) with
    | Some _ => (push_failed e "Already registered for this event" results, db)
    | None =>
        match Events db !! e with
        | None => (push_failed e "Event not found" results, db)
        | Some event =>
            if (currentParticipants event >=? maxParticipants event)%Z
            then (push_failed e "Event is full" results, db)
            else if (now >? registrationDeadline event)%Z
            then (push_failed e "Registration deadline has passed" results, db)
            else
              let r := batch_registration secret now rid u user e event in
              if violates_unique_index r (Registrations db)
              then (push_failed e "Registration processing failed" results, db)
              else (match Users db !! u with
                    | Some _ => push_registration r results
                    | None => push_failed e "Registration processing failed" results
                    end,
                    issued db e event r)
        end
    end.
Proof.
  unfold registerMultiple_event, batch_registration, issued,
    generateQRCodeWithEventName.
  cbn [run bind await exec].
  destruct (findOne _ _) as [[slot existing]|]; [reflexivity|].
  cbn [run bind await exec].
  destruct (Events db !! e) as [event|] eqn:Hevent; [|reflexivity].
  destruct (_ >=? _)%Z; [reflexivity|].
  destruct (_ >? _)%Z; [reflexivity|].
  cbn [run bind await exec fst snd].
  destruct (violates_unique_index _ _); [reflexivity|].
  cbn [run bind await exec Events set_Registrations].
  rewrite Hevent.
  cbn [run bind await exec negb Registrations set_Events set_Registrations].
  rewrite lookup_app_r by reflexivity. rewrite Nat.sub_diag.
  cbn [lookup list_lookup populate fst snd Users Events set_Events set_Registrations
       userId eventId].
  rewrite lookup_insert_eq.
  destruct (Users db !! u); reflexivity.
Qed.

Lemma matches_user_event_true (u e : string) (r : Registration) :
  matches_user_event u e r = true <-> userId r = u /\ eventId r = e.
Proof.
  unfold matches_user_event. rewrite andb_true_iff, !String.eqb_eq. reflexivity.
Qed.

Lemma findOne_is_Some (f : Registration -> bool) (docs : list (option Registration)) :
  is_Some (findOne f docs)
  <-> exists (slot : nat) (r : Registration), docs !! slot = Some (Some r) /\ f r = true.
Proof.
  split.
  - intros [[slot r] H]. exists slot, r. apply findOne_Some. exact H.
  - intros (slot & r & Hl & Hf).
    destruct (findOne f docs) as [x|] eqn:Hfind; [eauto|].
    rewrite findOne_None in Hfind. specialize (Hfind slot r Hl). congruence.
Qed.

Lemma push_failed_reason (e why why' : string) (results : MultiResults) :
  push_failed e why results = push_failed e why' results -> why = why'.
Proof.
  intros H. apply (f_equal failedRegistrations) in H. cbn in H.
  apply app_inv_head in H. congruence.
Qed.

Lemma push_registration_not_failed (e why : string) (r : Registration)
      (results : MultiResults) :
  push_registration r results <> push_failed e why results.
Proof.
  intros H. apply (f_equal successfulRegistrations) in H. cbn in H. lia.
Qed.

(** C6 (as amended). On both paths an attempt is rejected as already
    registered exactly when some registration of the student for the event
    is stored, whatever its status: a cancelled one blocks a new issuance
    like any other.  (On the single-event path the user and the event are
    looked up first.) *)
Theorem already_registered_iff_any_registration_exists
        (secret : option string) (now : Z) (rid u e : string) (db : DB) :
  let stored :=
    exists (slot : nat) (r : Registration),
      Registrations db !! slot = Some (Some r) /\ userId r = u /\ eventId r = e in
  (is_Some (Users db !! u) -> is_Some (Events db !! e) ->
   ((run (register secret now rid u e) db).1
    = RegisterResponse.failed 409 "Already registered for this event" <-> stored))
  /\ forall (user : User) (results : MultiResults),
      (run (registerMultiple_event secret now rid u user e results) db).1
      = push_failed e "Already registered for this event" results <-> stored.
Proof.
  intros stored.
  assert (Hstored : stored <-> is_Some (findOne (matches_user_event u e)
                                          (Registrations db))).
  { rewrite findOne_is_Some. unfold stored.
    setoid_rewrite matches_user_event_true. reflexivity. }
  split.
  - intros [user Huser] [event Hevent]. rewrite Hstored, run_register, Huser, Hevent.
    destruct (findOne _ _) as [x|].
    + split; [eauto | reflexivity].
    + split; [|intros [x Hx]; discriminate Hx].
      intros H. exfalso.
      unfold RegisterResponse.failed in H.
      repeat case_match; cbn [fst] in H; discriminate H.
  - intros user results. rewrite Hstored, run_registerMultiple_event.
    destruct (findOne _ _) as [x|].
    + split; [eauto | reflexivity].
    + split; [|intros [x Hx]; discriminate Hx].
      cbn [fst]. intros H. exfalso.
      repeat case_match; cbn [fst] in H;
        try (apply push_failed_reason in H; discriminate H);
        try (apply push_registration_not_failed in H; exact H).
Qed.

(** C8 (as amended). Both issuance paths check the capacity first and the
    deadline second, and only when both pass (and the registration is
    stored) write the counter back as the count read plus one.  For an
    event that is both full and past its deadline the answer is
    [Event is full]. *)
Theorem capacity_is_checked_before_deadline
        (secret : option string) (now : Z) (rid u e : string) (db : DB)
        (user : User) (event : Event) (results : MultiResults) :
  Users db !! u = Some user ->
  Events db !! e = Some event ->
  findOne (matches_user_event u e) (Registrations db) = None ->
  let full := (maxParticipants event <= currentParticipants event)%Z in
  let late := (registrationDeadline event < now)%Z in
  let single := run (register secret now rid u e) db in
  let batch := run (registerMultiple_event secret now rid u user e results) db in
  (full ->
   single = (RegisterResponse.failed 400 "Event is full", db)
   /\ batch = (push_failed e "Event is full" results, db))
  /\ (~ full -> late ->
      single = (RegisterResponse.failed 400 "Registration deadline has passed", db)
      /\ batch = (push_failed e "Registration deadline has passed" results, db))
  /\ (~ full -> ~ late ->
      (violates_unique_index (single_registration secret now rid u user e event)
                             (Registrations db) = false ->
       RegisterResponse.success single.1 = true
       /\ Events single.2 !! e
          = Some (with_currentParticipants (currentParticipants event + 1) event))
      /\ (violates_unique_index (batch_registration secret now rid u user e event)
                                (Registrations db) = false ->
          successfulRegistrations batch.1 = S (successfulRegistrations results)
          /\ Events batch.2 !! e
             = Some (with_currentParticipants (currentParticipants event + 1) event))).
Proof.
  intros Huser Hevent Hnone full late single batch.
  subst single batch full late.
  rewrite run_register, run_registerMultiple_event, Huser, Hevent, Hnone.
  split; [|split].
  - intros Hfull.
    rewrite (proj2 (Z.geb_le _ _)) by exact Hfull. split; reflexivity.
  - intros Hroom Hlate.
    destruct (_ >=? _)%Z eqn:Hge; [apply Z.geb_le in Hge; contradiction|].
    rewrite (proj2 (Z.gtb_lt _ _)) by exact Hlate. split; reflexivity.
  - intros Hroom Hintime.
    destruct (_ >=? _)%Z eqn:Hge; [apply Z.geb_le in Hge; contradiction|].
    destruct (_ >? _)%Z eqn:Hgt; [apply Z.gtb_lt in Hgt; contradiction|].
    cbv zeta. split; intros ->; (split; [reflexivity|]);
      cbn [snd issued Events set_Events set_Registrations];
      apply lookup_insert_eq.
Qed.

(** The batch path signs the payload it stores: the stored payload
    verifies, carries the request time and the event date, and is the
    payload the QR code encodes. *)
Lemma batch_credential_verifies (secret : option string) (now : Z)
      (rid u : string) (user : User) (e : string) (event : Event) :
  let r := batch_registration secret now rid u user e event in
  issued_at (qrPayload r) = Date.toISOString now
  /\ expires_at (qrPayload r) = Date.toISOString (date event)
  /\ signature (qrPayload r) = generateQRSignature secret (payload_object (qrPayload r))
  /\ validateQRSignature secret (payload_object (qrPayload r)) = true
  /\ JSON.parse (encoded (qrCode r)) = Some (payload_object (qrPayload r)).
Proof.
  cbv zeta. repeat split.
  - apply validateQRSignature_sign.
  - apply parse_stringify_payload.
Qed.

(** The single-event path signs an object that has none of the four
    signed fields, so every signature it stores is the same text. *)
Lemma single_credential_signature (secret : option string) (now : Z)
      (rid u : string) (user : User) (e : string) (event : Event) :
  signature (qrPayload (single_registration secret now rid u user e event))
  = createHmac_sha256_hex (QR_SECRET secret) "undefined:undefined:undefined:undefined".
Proof. reflexivity. Qed.

Lemma violates_unique_index_false (r : Registration) (docs : list (option Registration)) :
  violates_unique_index r docs = false
  <-> forall (slot : nat) (r' : Registration),
      docs !! slot = Some (Some r') ->
      registrationId r' <> registrationId r
      /\ ~ (userId r' = userId r /\ eventId r' = eventId r).
Proof.
  unfold violates_unique_index. induction docs as [|[d|] docs IH]; cbn [existsb].
  - split; [intros _ slot r' H; discriminate H | reflexivity].
  - rewrite orb_false_iff, IH, orb_false_iff, String.eqb_neq.
    rewrite <- not_true_iff_false, matches_user_event_true.
    split.
    + intros [[Hid Hpair] Hrest] [|slot] r' Hl; cbn in Hl; [|eauto].
      injection Hl as <-. auto.
    + intros H. split; [apply (H 0 d eq_refl)|].
      intros slot r' Hl. apply (H (S slot)). exact Hl.
  - rewrite orb_false_l, IH. split.
    + intros H [|slot] r' Hl; cbn in Hl; [discriminate Hl | eauto].
    + intros H slot r' Hl. apply (H (S slot)). exact Hl.
Qed.

Lemma findOne_from_app_new (f : Registration -> bool) (r : Registration) :
  f r = true ->
  forall (docs : list (option Registration)) (base : nat),
    findOne_from base f docs = None ->
    findOne_from base f (docs ++ [Some r]) = Some (base + length docs, r).
Proof.
  intros Hr. induction docs as [|[d|] docs IH]; intros base Hnone; cbn in *.
  - rewrite Hr, Nat.add_0_r. reflexivity.
  - destruct (f d); [discriminate Hnone|].
    rewrite (IH _ Hnone). f_equal. f_equal. lia.
  - rewrite (IH _ Hnone). f_equal. f_equal. lia.
Qed.

Lemma matches_triple_refl (r : Registration) :
  matches_triple (registrationId r) (userId r) (eventId r) r = true.
Proof. unfold matches_triple. rewrite !String.eqb_refl. reflexivity. Qed.

(** What the batch path stores is a registration the validator can
    redeem: in the database the issuance leaves, the triple of the payload
    finds the new registration, in status [registered], with a payload
    that verifies, and with its user and its event. *)
Lemma batch_registration_is_redeemable (secret : option string) (now : Z)
      (rid u : string) (user : User) (e : string) (event : Event) (db : DB) :
  let r := batch_registration secret now rid u user e event in
  let p := qrPayload r in
  Users db !! u = Some user ->
  Events db !! e = Some event ->
  violates_unique_index r (Registrations db) = false ->
  findOne (matches_triple (registration_id p) (student_id p) (event_id p))
          (Registrations (issued db e event r))
  = Some (length (Registrations db), r)
  /\ status r = registered
  /\ validateQRSignature secret (payload_object p) = true
  /\ encoded (qrCode r) = JSON.stringify (payload_object p)
  /\ is_Some (Users (issued db e event r) !! userId r)
  /\ is_Some (Events (issued db e event r) !! eventId r).
Proof.
  intros r p Huser Hevent Hindex. repeat split.
  - cbn [issued Registrations set_Events set_Registrations].
    apply (findOne_from_app_new _ r (matches_triple_refl r) _ 0).
    apply findOne_from_None. intros slot r' Hslot.
    apply not_true_iff_false. intros Hmatch.
    rewrite violates_unique_index_false in Hindex.
    destruct (Hindex slot r' Hslot) as [Hid _]. apply Hid.
    unfold matches_triple in Hmatch.
    apply andb_true_iff in Hmatch as [Hmatch _].
    apply andb_true_iff in Hmatch as [Hmatch _].
    apply String.eqb_eq in Hmatch. exact Hmatch.
  - apply validateQRSignature_sign.
  - cbn. rewrite Huser. eauto.
  - cbn. rewrite lookup_insert_eq. eauto.
Qed.

(** ** Terminal states and unregistration *)

Lemma run_unregister (u e : string) (db : DB) :
  run (unregister u e) db
  = match findOne (matches_user_event u e) (Registrations db) with
    | None => ({| SimpleResponse.code := 404;
                  SimpleResponse.error := Some "Registration not found." |}, db)
    | Some (slot, _) =>
        let db1 := set_Registrations (<[slot := None]> (Registrations db)) db in
        ({| SimpleResponse.code := 200; SimpleResponse.error := None |},
         match Events db !! e with
         | Some event =>
             if (currentParticipants event >? 0)%Z
             then set_Events
                    (<[e := with_currentParticipants (currentParticipants event - 1)
                              event]> (Events db)) db1
             else db1
         | None => db1
         end)
    end.
Proof.
  unfold unregister. cbn [run bind await exec].
  destruct (findOne _ _) as [[slot r]|]; [|reflexivity].
  cbn [run bind await exec Events set_Registrations].
  destruct (Events db !! e) as [event|] eqn:Hevent; [|reflexivity].
  destruct (_ >? _)%Z; [|reflexivity].
  cbn [run bind await exec Events set_Registrations]. rewrite Hevent. reflexivity.
Qed.

(** Issuance only appends to the registrations. *)
Lemma registerMultiple_event_appends (secret : option string) (now : Z) (rid u : string)
      (user : User) (e : string) (results : MultiResults) (db : DB) :
  exists tail,
    Registrations (run (registerMultiple_event secret now rid u user e results) db).2
    = Registrations db ++ tail.
Proof.
  rewrite run_registerMultiple_event. cbv zeta.
  repeat case_match; cbn [snd issued Registrations set_Events set_Registrations];
    first [ exists []; rewrite app_nil_r; reflexivity | eexists; reflexivity ].
Qed.

Lemma registerMultiple_loop_appends (secret : option string) (now : Z)
      (random : nat -> string) (u : string) (user : User) (es : list string) :
  forall (i : nat) (results : MultiResults) (db : DB),
    exists tail,
      Registrations (run (registerMultiple_loop secret now random u user i es results)
                         db).2
      = Registrations db ++ tail.
Proof.
  induction es as [|e es IH]; intros i results db; cbn [registerMultiple_loop].
  - exists []. rewrite app_nil_r. reflexivity.
  - rewrite run_bind.
    destruct (registerMultiple_event_appends secret now (random i) u user e results db)
      as [tail1 H1].
    destruct (IH (S i)
                 (run (registerMultiple_event secret now (random i) u user e results)
                      db).1
                 (run (registerMultiple_event secret now (random i) u user e results)
                      db).2) as [tail2 H2].
    exists (tail1 ++ tail2). rewrite H2, H1, app_assoc. reflexivity.
Qed.

Lemma registerMultiple_appends (secret : option string) (now : Z)
      (random : nat -> string) (u : string) (es : list string) (db : DB) :
  exists tail,
    Registrations (run (registerMultiple secret now random u es) db).2
    = Registrations db ++ tail.
Proof.
  unfold registerMultiple.
  destruct (_ || _); [exists []; rewrite app_nil_r; reflexivity|].
  cbn [run bind await exec].
  destruct (Users db !! u) as [user|]; [|exists []; rewrite app_nil_r; reflexivity].
  rewrite run_bind. cbn [run snd].
  apply registerMultiple_loop_appends.
Qed.

Lemma register_appends (secret : option string) (now : Z) (rid u e : string) (db : DB) :
  exists tail,
    Registrations (run (register secret now rid u e) db).2 = Registrations db ++ tail.
Proof.
  rewrite run_register. cbv zeta.
  repeat case_match; cbn [snd issued Registrations set_Events set_Registrations];
    first [ exists []; rewrite app_nil_r; reflexivity | eexists; reflexivity ].
Qed.

Lemma validate_keeps_terminal (secret : option string) (now : Z)
      (body : ValidateRequest.t) (db : DB) (slot : nat) (r : Registration) :
  Registrations db !! slot = Some (Some r) ->
  status r = attended \/ status r = cancelled ->
  Registrations (run (validate secret now body) db).2 !! slot = Some (Some r).
Proof.
  intros Hslot Hterminal. rewrite run_validate.
  destruct (scan_of secret now body db) as [why|r'| |slot' r'] eqn:Hscan;
    try exact Hslot.
  cbn [snd committed Registrations set_ScanLogs set_Registrations].
  destruct (decide (slot' = slot)) as [->|Hne].
  - exfalso. unfold scan_of in Hscan.
    repeat (case_match; try discriminate).
    match goal with
    | H : findOne _ _ = Some _ |- _ => apply findOne_Some in H; destruct H as [H _]
    end.
    simplify_eq.
    repeat match goal with
           | H : bool_decide _ = false |- _ => apply bool_decide_eq_false in H
           end.
    destruct Hterminal; contradiction.
  - rewrite list_lookup_insert_ne by exact Hne. exact Hslot.
Qed.

Lemma run_deleteUser (id : string) (db : DB) :
  run (deleteUser id) db
  = match Users db !! id with
    | None => ({| SimpleResponse.code := 404;
                  SimpleResponse.error := Some "User not found." |},
               set_Users (delete id (Users db)) db)
    | Some _ =>
        ({| SimpleResponse.code := 200; SimpleResponse.error := None |},
         set_Registrations (deleteMany (matches_user id) (Registrations db))
           (set_Users (delete id (Users db)) db))
    end.
Proof.
  unfold deleteUser. cbn [run bind await exec].
  destruct (Users db !! id); reflexivity.
Qed.

Lemma deleteMany_lookup (f : Registration -> bool) (docs : list (option Registration))
      (slot : nat) (r : Registration) :
  docs !! slot = Some (Some r) -> f r = true ->
  deleteMany f docs !! slot = Some None.
Proof.
  intros Hslot Hf. unfold deleteMany.
  rewrite list_lookup_fmap, Hslot. cbn. rewrite Hf. reflexivity.
Qed.

(** C9 (as amended). Validation and issuance never change or delete a
    registration that is attended or cancelled.  Unregistration does: it
    deletes the student's registration for the event whatever its status,
    an attended or cancelled one included; and the administrative
    deletion of the user deletes all registrations of the user. *)
Theorem terminal_registration_survives_all_but_deletion
        (db : DB) (slot : nat) (r : Registration) :
  Registrations db !! slot = Some (Some r) ->
  status r = attended \/ status r = cancelled ->
  (forall (secret : option string) (now : Z) (body : ValidateRequest.t),
      Registrations (run (validate secret now body) db).2 !! slot = Some (Some r))
  /\ (forall (secret : option string) (now : Z) (rid u e : string),
         Registrations (run (register secret now rid u e) db).2 !! slot = Some (Some r))
  /\ (forall (secret : option string) (now : Z) (random : nat -> string)
             (u : string) (es : list string),
         Registrations (run (registerMultiple secret now random u es) db).2 !! slot
         = Some (Some r))
  /\ (findOne (matches_user_event (userId r) (eventId r)) (Registrations db)
      = Some (slot, r) ->
      SimpleResponse.code (run (unregister (userId r) (eventId r)) db).1 = 200
      /\ Registrations (run (unregister (userId r) (eventId r)) db).2 !! slot
         = Some None)
  /\ (is_Some (Users db !! userId r) ->
      Registrations (run (deleteUser (userId r)) db).2 !! slot = Some None).
Proof.
  intros Hslot Hterminal. repeat split.
  - intros secret now body. apply validate_keeps_terminal; assumption.
  - intros secret now rid u e.
    destruct (register_appends secret now rid u e db) as [tail ->].
    apply lookup_app_l_Some. exact Hslot.
  - intros secret now random u es.
    destruct (registerMultiple_appends secret now random u es db) as [tail ->].
    apply lookup_app_l_Some. exact Hslot.
  - rewrite run_unregister, H. reflexivity.
  - rewrite run_unregister, H. cbn [snd].
    assert (Hdel : <[slot := None]> (Registrations db) !! slot = Some None).
    { apply list_lookup_insert_eq. apply lookup_lt_Some in Hslot. exact Hslot. }
    repeat case_match; exact Hdel.
  - intros [user Huser]. rewrite run_deleteUser, Huser.
    cbn [snd Registrations set_Registrations].
    apply (deleteMany_lookup _ _ _ r Hslot). apply String.eqb_refl.
Qed.

(** ** Capacity *)

Lemma run_registerMultiple_one (secret : option string) (now : Z)
      (random : nat -> string) (u e : string) (user : User) (db : DB) :
  u <> "" ->
  Users db !! u = Some user ->
  run (registerMultiple secret now random u [e]) db
  = let res :=
      run (registerMultiple_event secret now (random 0) u user e
             {| totalEvents := 1; successfulRegistrations := 0;
                failedRegistrations := []; registrations := [] |}) db in
    ({| MultiResponse.code := 200; MultiResponse.error := None;
        MultiResponse.results := Some res.1 |}, res.2).
Proof.
  intros Hu Huser. unfold registerMultiple.
  rewrite (eqb_empty_false u Hu). cbn [length Nat.eqb orb run bind await exec].
  rewrite Huser. cbn [registerMultiple_loop].
  rewrite !run_bind. reflexivity.
Qed.

(** C4 (as amended). When N registration attempts by distinct students
    are served one after the other (each request runs to its response
    before the next starts), an event with K places left registers
    exactly K of them if N > K (min N K in general), refuses the others
    with [Event is full], and its counter ends that much higher.  The
    counter is written back as the count read earlier plus one, so this is
    a statement about requests that do not overlap. *)
Theorem sequential_registrations_fill_capacity
        (secret : option string) (now : Z) (e : string)
        (attempts : list (string * string)) :
  forall (db : DB) (event : Event),
    Events db !! e = Some event ->
    (now <= registrationDeadline event)%Z ->
    (currentParticipants event <= maxParticipants event)%Z ->
    NoDup (map fst attempts) ->
    NoDup (map snd attempts) ->
    (forall a, a ∈ attempts -> a.1 <> "" /\ is_Some (Users db !! a.1)) ->
    (forall (slot : nat) (r : Registration),
        Registrations db !! slot = Some (Some r) ->
        (registrationId r ∉ map snd attempts)
        /\ (eventId r = e -> userId r ∉ map fst attempts)) ->
    let K := Z.to_nat (maxParticipants event - currentParticipants event) in
    let N := length attempts in
    let out :=
      run_all (map (fun a => registerMultiple secret now (fun _ => a.2) a.1 [e])
                   attempts) db in
    length (List.filter registered_one out.1) = Nat.min N K
    /\ length (List.filter (refused_full e) out.1) = N - Nat.min N K
    /\ (currentParticipants <$> (Events out.2 !! e))
       = Some (currentParticipants event + Z.of_nat (Nat.min N K))%Z.
Proof.
  induction attempts as [|[u rid] attempts IH];
    intros db event Hevent Hdeadline Hroom Husers Hids Hexist Hfresh K N out.
  - subst out. cbn. rewrite Hevent. cbn. rewrite Z.add_0_r. auto.
  - subst out N. cbn [map run_all fst snd length].
    apply NoDup_cons in Husers as [Hu Husers].
    apply NoDup_cons in Hids as [Hrid Hids].
    destruct (Hexist (u, rid)) as [Hne [user Huser]]; [left|]. cbn [fst] in *.
    rewrite (run_registerMultiple_one secret now _ u e user db Hne Huser).
    rewrite run_registerMultiple_event.
    assert (Hnone : findOne (matches_user_event u e) (Registrations db) = None).
    { apply findOne_None. intros slot r Hslot.
      apply not_true_iff_false. rewrite matches_user_event_true. intros [Hru Hre].
      destruct (Hfresh slot r Hslot) as [_ Hfree].
      apply (Hfree Hre). rewrite Hru. left. }
    rewrite Hnone, Hevent.
    destruct (_ >=? _)%Z eqn:Hfull.
    + (* full: refused, nothing changes, and every later attempt is refused too *)
      apply Z.geb_le in Hfull.
      assert (HK : K = 0) by (subst K; lia).
      cbv zeta. cbn [fst snd].
      specialize (IH db event Hevent Hdeadline Hroom Husers Hids).
      destruct IH as (IH1 & IH2 & IH3).
      { intros a Ha. apply Hexist. right. exact Ha. }
      { intros slot r Hslot. destruct (Hfresh slot r Hslot) as [H1 H2]. split.
        - intros Hin. apply H1. right. exact Hin.
        - intros He Hin. apply (H2 He). right. exact Hin. }
      fold K in IH1, IH2, IH3. rewrite HK, Nat.min_0_r in *.
      destruct (run_all _ db) as [others db2]. cbn [fst snd] in *.
      cbn [List.filter registered_one refused_full MultiResponse.results
           push_failed successfulRegistrations failedRegistrations Nat.eqb app].
      rewrite bool_decide_eq_true_2 by reflexivity. cbn [length].
      rewrite IH1, IH2. repeat split; [lia | exact IH3].
    + (* a place is left: registered, and the counter goes up by one *)
      rewrite Z.geb_leb in Hfull. apply Z.leb_gt in Hfull.
      rewrite Z.gtb_ltb, (proj2 (Z.ltb_ge _ _)) by lia.
      set (r := batch_registration secret now rid u user e event).
      assert (Hindex : violates_unique_index r (Registrations db) = false).
      { apply violates_unique_index_false. intros slot r' Hslot.
        destruct (Hfresh slot r' Hslot) as [H1 H2]. split.
        - intros Hid. apply H1. rewrite Hid. left.
        - intros [Hru Hre]. apply (H2 Hre). rewrite Hru. left. }
      cbv zeta. fold r. rewrite Hindex, Huser. cbn [fst snd].
      set (event' := with_currentParticipants (currentParticipants event + 1) event).
      specialize (IH (issued db e event r) event').
      destruct IH as (IH1 & IH2 & IH3).
      { apply lookup_insert_eq. }
      { exact Hdeadline. }
      { cbn. lia. }
      { exact Husers. }
      { exact Hids. }
      { intros a Ha. destruct (Hexist a) as [H1 H2]; [right; exact Ha|].
        split; assumption. }
      { intros slot r' Hslot. cbn [issued Registrations set_Events set_Registrations]
          in Hslot.
        apply lookup_app_Some in Hslot as [Hslot|[_ Hslot]].
        - destruct (Hfresh slot r' Hslot) as [H1 H2]. split.
          + intros Hin. apply H1. right. exact Hin.
          + intros He Hin. apply (H2 He). right. exact Hin.
        - apply list_lookup_singleton_Some in Hslot as [_ Hslot].
          injection Hslot as <-. split; [exact Hrid | intros _; exact Hu]. }
      change (currentParticipants event') with (currentParticipants event + 1)%Z
        in IH1, IH2, IH3.
      change (maxParticipants event') with (maxParticipants event) in IH1, IH2, IH3.
      destruct (run_all _ (issued db e event r)) as [others db2].
      cbn [fst snd] in *.
      cbn [List.filter registered_one refused_full MultiResponse.results
           push_registration successfulRegistrations failedRegistrations Nat.eqb].
      rewrite bool_decide_eq_false_2 by discriminate. cbn [length].
      rewrite IH1, IH2, IH3. subst K.
      repeat split; [lia | lia | f_equal; lia].
Qed.

(** * The claims on the scenario *)

Import Scenario.
Import Replay.

Example asha_signature :
  signature (qrPayload asha_batch)
  = "28196280a727623953fb4042126c7285c9578431d28d39187b5ccec18ce10de1".
Proof. vm_compute. reflexivity. Qed.

Example batch_issuance_on_scenario :
  run (registerMultiple None now (fun _ => id1) asha [hackathon]) db0
  = ({| MultiResponse.code := 200; MultiResponse.error := None;
        MultiResponse.results :=
          Some {| totalEvents := 1; successfulRegistrations := 1;
                  failedRegistrations := []; registrations := [asha_batch] |} |},
     db1).
Proof. vm_compute. reflexivity. Qed.

(** ** C1 *)

Lemma sign_verifies_and_detects_bit_flips_witness :
  (3 < 8)%nat
  /\ String.get 8 (signature (qrPayload asha_batch)) = Some "a"%char
  /\ (validateQRSignature None
        (payload_object
           (with_signature (flip_bit 8 3 (signature (qrPayload asha_batch)))
              (qrPayload asha_batch))) = true
      <-> 3%nat = 5%nat /\ Hex.is_lower_letter "a" = true).
Proof.
  split; [lia|]. split; [vm_compute; reflexivity|].
  apply (proj2 (sign_verifies_and_detects_bit_flips None
                  (with_signature "" (qrPayload asha_batch))) 8%nat 3%nat);
    [lia | vm_compute; reflexivity].
Defined.

(** C1 as stated fails: flipping bit 5 of the character at index 8 of
    this signature turns its [a] into [A], and the tampered payload still
    verifies. *)
Lemma flipped_signature_bit_still_verifies :
  flip_bit 8 5 (signature (qrPayload asha_batch))
  = "28196280A727623953fb4042126c7285c9578431d28d39187b5ccec18ce10de1"
  /\ validateQRSignature None
       (payload_object
          (with_signature (flip_bit 8 5 (signature (qrPayload asha_batch)))
             (qrPayload asha_batch))) = true.
Proof. split; vm_compute; reflexivity. Qed.

(** ** C2 *)

(** C2, the single-event path at the failing input.  The request
    succeeds, but the signature it stores is the HMAC of
    [undefined:undefined:undefined:undefined]: the object that was signed
    has none of the four fields.  The stored payload does not verify, and
    the text in the QR code is rejected for its missing fields. *)
Theorem single_event_credential_does_not_verify :
  let out := run (register None now id1 asha hackathon) db0 in
  RegisterResponse.success out.1 = true
  /\ Registrations out.2 = [Some asha_single]
  /\ issued_at (qrPayload asha_single) = Date.toISOString now
  /\ expires_at (qrPayload asha_single) = Date.toISOString (date hackathon_event)
  /\ signature (qrPayload asha_single)
     = createHmac_sha256_hex (QR_SECRET None) "undefined:undefined:undefined:undefined"
  /\ String.eqb (signature (qrPayload asha_single))
       (generateQRSignature None (payload_object (qrPayload asha_single))) = false
  /\ validateQRSignature None (payload_object (qrPayload asha_single)) = false
  /\ QRValidationResult.reason
       (run (validate None now (scan (encoded (qrCode asha_single)))) out.2).1
     = Some "Missing required QR code fields: registration_id, student_id, event_id"
  /\ QRValidationResult.reason
       (run (validate None now
               (scan (JSON.stringify (payload_object (qrPayload asha_single)))))
            out.2).1
     = Some "Invalid QR code signature".
Proof. vm_compute. repeat split; reflexivity. Qed.

(** ** C3 *)




(** ** C4 *)


(** C4 as stated fails.  One place is left; the two requests take turns
    at each [await].  Both read the count 0 before either writes, both are
    registered, and both write the count 1. *)
Lemma overlapping_registrations_overbook :
  let out :=
    interleave [0; 1; 0; 1; 0; 1; 0; 1; 0; 1; 0; 1; 0; 1]%nat two_attempts db0 in
  (maxParticipants hackathon_event - currentParticipants hackathon_event = 1)%Z
  /\ map (fun m => registered_one <$> response m) out.1 = [Some true; Some true]
  /\ (currentParticipants <$> (Events out.2 !! hackathon)) = Some 1%Z
  /\ length (Registrations out.2) = 2%nat.
Proof. vm_compute. repeat split; reflexivity. Qed.

Lemma sequential_registrations_fill_capacity_witness :
  let out := run_all two_attempts db0 in
  length (List.filter registered_one out.1) = 1%nat
  /\ length (List.filter (refused_full hackathon) out.1) = 1%nat
  /\ (currentParticipants <$> (Events out.2 !! hackathon)) = Some 1%Z.
Proof.
  apply (sequential_registrations_fill_capacity None now hackathon
           [(asha, id1); (ben, id2)] db0 hackathon_event).
  - vm_compute. reflexivity.
  - vm_compute. discriminate.
  - vm_compute. discriminate.
  - compute_done.
  - compute_done.
  - intros a Ha. apply list_elem_of_In in Ha.
    destruct Ha as [<-|[<-|[]]]; (split; [discriminate | vm_compute; eexists; reflexivity]).
  - intros slot r H. destruct slot; discriminate H.
Defined.

(** ** C5 *)

(** C5 as stated fails: a scan of a text that is not JSON is rejected and
    no scan log is written, neither standalone nor on a registration. *)
Lemma rejected_scan_is_not_logged :
  let out := run (validate None now (scan "not a credential")) db1 in
  QRValidationResult.reason out.1 = Some "Invalid QR code format"
  /\ ScanLogs out.2 = []
  /\ Registrations out.2 = Registrations db1.
Proof. vm_compute. repeat split; reflexivity. Qed.

Lemma validate_logs_valid_scans_only_witness :
  let out := run (validate None now (scan "not a credential")) db1 in
  (QRValidationResult.valid out.1 = true ->
   exists (l : ScanLog.t) (slot : nat) (r : Registration) (entry : ScanEntry),
     ScanLogs out.2 = ScanLogs db1 ++ [l]
     /\ ScanLog.status l = valid
     /\ ScanLog.registrationId l = registrationId r
     /\ scanStatus entry = valid
     /\ Registrations db1 !! slot = Some (Some r)
     /\ Registrations out.2
        = <[slot := Some (push_scanLog entry (with_status attended r))]>
            (Registrations db1))
  /\ (QRValidationResult.valid out.1 = false ->
      QRValidationResult.code out.1 = 200%nat ->
      ScanLogs out.2 = ScanLogs db1 /\ Registrations out.2 = Registrations db1).
Proof.
  apply (validate_logs_valid_scans_only None now (scan "not a credential") db1).
  vm_compute. reflexivity.
Defined.

(** ** C6 *)

(** C6 as stated fails: Asha's only registration for the event is
    cancelled, and both paths still answer that she is already
    registered. *)
Lemma cancelled_registration_blocks_issuance :
  Registrations (db1_with cancelled) = [Some (with_status cancelled asha_batch)]
  /\ (run (register None now id2 asha hackathon) (db1_with cancelled)).1
     = RegisterResponse.failed 409 "Already registered for this event"
  /\ (MultiResponse.results
        (run (registerMultiple None now (fun _ => id2) asha [hackathon])
             (db1_with cancelled)).1)
     = Some {| totalEvents := 1; successfulRegistrations := 0;
               failedRegistrations :=
                 [(hackathon, "Already registered for this event")];
               registrations := [] |}.
Proof. vm_compute. repeat split; reflexivity. Qed.

Lemma already_registered_iff_any_registration_exists_witness :
  (run (register None now id2 asha hackathon) (db1_with cancelled)).1
  = RegisterResponse.failed 409 "Already registered for this event"
  <-> exists (slot : nat) (r : Registration),
      Registrations (db1_with cancelled) !! slot = Some (Some r)
      /\ userId r = asha /\ eventId r = hackathon.
Proof.
  apply (proj1 (already_registered_iff_any_registration_exists
                  None now id2 asha hackathon (db1_with cancelled)));
    vm_compute; eexists; reflexivity.
Defined.

(** ** C7 *)




(** ** C8 *)


(** C8 as stated fails: for an event that is full and past its deadline
    both paths report that the event is full, not the deadline. *)
Lemma full_and_late_event_reports_full :
  (maxParticipants hackathon_event <= 1)%Z
  /\ (registrationDeadline hackathon_event < late)%Z
  /\ (run (register None late id1 asha hackathon) full_and_late).1
     = RegisterResponse.failed 400 "Event is full"
  /\ (MultiResponse.results
        (run (registerMultiple None late (fun _ => id1) asha [hackathon])
             full_and_late).1)
     = Some {| totalEvents := 1; successfulRegistrations := 0;
               failedRegistrations := [(hackathon, "Event is full")];
               registrations := [] |}.
Proof. vm_compute. repeat split; try reflexivity; discriminate. Qed.

Lemma capacity_is_checked_before_deadline_witness :
  run (register None late id1 asha hackathon) full_and_late
  = (RegisterResponse.failed 400 "Event is full", full_and_late)
  /\ run (registerMultiple_event None late id1 asha {| name := "Asha" |} hackathon
            {| totalEvents := 1; successfulRegistrations := 0;
               failedRegistrations := []; registrations := [] |}) full_and_late
     = (push_failed hackathon "Event is full"
          {| totalEvents := 1; successfulRegistrations := 0;
             failedRegistrations := []; registrations := [] |}, full_and_late).
Proof.
  apply (proj1 (capacity_is_checked_before_deadline None late id1 asha hackathon
                  full_and_late {| name := "Asha" |}
                  (with_currentParticipants 1 hackathon_event)
                  {| totalEvents := 1; successfulRegistrations := 0;
                     failedRegistrations := []; registrations := [] |}
                  ltac:(vm_compute; reflexivity) ltac:(vm_compute; reflexivity)
                  ltac:(vm_compute; reflexivity))).
  vm_compute. discriminate.
Defined.

(** ** C9 *)

(** C9 as stated fails: unregistration deletes a registration that is
    already attended. *)
Lemma unregistration_deletes_attended_registration :
  Registrations (db1_with attended) = [Some (with_status attended asha_batch)]
  /\ SimpleResponse.code (run (unregister asha hackathon) (db1_with attended)).1
     = 200%nat
  /\ Registrations (run (unregister asha hackathon) (db1_with attended)).2 = [None].
Proof. vm_compute. repeat split; reflexivity. Qed.

Lemma terminal_registration_survives_all_but_deletion_witness :
  Registrations
    (run (validate None now (scan (encoded (qrCode asha_batch))))
         (db1_with attended)).2 !! 0%nat
  = Some (Some (with_status attended asha_batch)).
Proof.
  apply (proj1 (terminal_registration_survives_all_but_deletion
                  (db1_with attended) 0 (with_status attended asha_batch)
                  ltac:(vm_compute; reflexivity) ltac:(left; reflexivity))).
Defined.

(** ** C10 *)

(** C10 as stated fails.  Asha is registered and the hackathon has been
    deleted.  The scan of her credential passes every check, her
    registration is saved as attended and the scan log is stored; the
    answer is then built from the event, which is gone, and the route
    answers with status 500 and [valid: false]. *)
Lemma failed_scan_has_marked_attendance :
  let out := run (validate None now (scan (encoded (qrCode asha_batch)))) orphaned in
  QRValidationResult.valid out.1 = false
  /\ QRValidationResult.code out.1 = 500%nat
  /\ QRValidationResult.reason out.1 = Some "QR validation failed"
  /\ (status <$> mjoin (Registrations orphaned !! 0%nat)) = Some registered
  /\ (status <$> mjoin (Registrations out.2 !! 0%nat)) = Some attended
  /\ length (ScanLogs orphaned) = 0%nat
  /\ length (ScanLogs out.2) = 1%nat.
Proof. vm_compute. repeat split; reflexivity. Qed.

Lemma validate_rejection_changes_nothing_witness :
  (run (validate None now (scan (encoded (qrCode asha_batch)))) (db1_with attended)).2
  = db1_with attended.
Proof.
  apply (validate_rejection_changes_nothing None now
           (scan (encoded (qrCode asha_batch))) (db1_with attended) _
           (run (validate None now (scan (encoded (qrCode asha_batch))))
                (db1_with attended)).1);
    vm_compute; reflexivity.
Defined.

(** ** The label and the identifier *)

Lemma length_append (a b : string) :
  String.length (a +:+ b) = String.length a + String.length b.
Proof. induction a as [|c a IH]; simpl; [reflexivity | now rewrite IH]. Qed.

Lemma length_substring_prefix (s : string) :
  forall n : nat, n <= String.length s -> String.length (String.substring 0 n s) = n.
Proof.
  induction s as [|c s IH]; intros [|n] Hn; simpl in *; try reflexivity; try lia.
  rewrite IH by lia. reflexivity.
Qed.

Lemma is_ASCII_append (a b : string) :
  is_ASCII (a +:+ b) = is_ASCII a && is_ASCII b.
Proof.
  unfold is_ASCII. induction a as [|c a IH]; cbn; [reflexivity|].
  rewrite IH. apply andb_assoc.
Qed.

Lemma is_ASCII_prefix (s : string) :
  is_ASCII s = true -> forall n : nat, is_ASCII (String.substring 0 n s) = true.
Proof.
  unfold is_ASCII. induction s as [|c s IH]; intros Hs [|n]; try reflexivity.
  cbn in Hs |- *. apply andb_prop in Hs. destruct Hs as [Hc Hs].
  rewrite Hc. apply IH, Hs.
Qed.

(** X1. For an event name in ASCII, the label printed under the code is
    the name when it has at most [maxChars] characters; a longer name is
    cut to its first [maxChars - 3] characters followed by three dots, so
    that the label has [maxChars] characters (three when [maxChars] is
    below three).  The label is in ASCII too. *)
Theorem displayName_is_cut_to_maxChars (eventName : string) (maxChars : nat) :
  is_ASCII eventName = true ->
  is_ASCII (displayName eventName maxChars) = true
  /\ String.length (displayName eventName maxChars)
     = (if Nat.ltb maxChars (String.length eventName)
        then Nat.max maxChars 3 else String.length eventName)
  /\ (forall i : nat,
         i < maxChars - 3 ->
         String.get i (displayName eventName maxChars) = String.get i eventName)
  /\ (forall i : nat,
         maxChars - 3 <= i < Nat.max maxChars 3 ->
         String.get i (displayName eventName maxChars)
         = if Nat.ltb maxChars (String.length eventName)
           then Some "."%char else String.get i eventName).
Proof.
  intro Hascii. unfold displayName.
  destruct (Nat.ltb maxChars (String.length eventName)) eqn:Hlong.
  - apply Nat.ltb_lt in Hlong.
    assert (Hcut : String.length (String.substring 0 (maxChars - 3) eventName)
                   = maxChars - 3)
      by (apply length_substring_prefix; lia).
    split; [rewrite is_ASCII_append, is_ASCII_prefix by exact Hascii; reflexivity|].
    split; [|split].
    + rewrite length_append, Hcut. simpl. lia.
    + intros i Hi.
      rewrite <- append_correct1 by lia.
      rewrite substring_correct1 by lia.
      f_equal. lia.
    + intros i Hi.
      replace i with ((i - (maxChars - 3))
                      + String.length (String.substring 0 (maxChars - 3) eventName))
        by lia.
      rewrite <- append_correct2.
      assert (Hthree : i - (maxChars - 3) < 3) by lia.
      destruct (i - (maxChars - 3)) as [|[|[|k]]]; try reflexivity. lia.
  - split; [exact Hascii|]. split; [reflexivity | split; reflexivity].
Qed.

Lemma Hex_value_digit (n : N) : (n < 16)%N -> Hex.value (Hex.digit n) = Some n.
Proof.
  intro Hn.
  assert (Hcases : In n (map N.of_nat (seq 0 16))).
  { apply in_map_iff. exists (N.to_nat n). split; [lia|]. apply in_seq. lia. }
  simpl in Hcases.
  repeat (destruct Hcases as [<- | Hcases]; [reflexivity|]).
  destruct Hcases.
Qed.

Lemma Hex_decode_of_byte (b : N) (rest : list ascii) :
  (b < 256)%N -> Hex.decode (Hex.of_byte b ++ rest) = b :: Hex.decode rest.
Proof.
  intro Hb. unfold Hex.of_byte. simpl.
  assert (Hhigh : (N.shiftr b 4 < 16)%N).
  { rewrite N.shiftr_div_pow2. change (2 ^ 4)%N with 16%N.
    apply N.Div0.div_lt_upper_bound; lia. }
  assert (Hmask : N.land (N.shiftr b 4) 15 = N.shiftr b 4).
  { change 15%N with (N.ones 4). rewrite N.land_ones.
    apply N.mod_small. exact Hhigh. }
  assert (Hlow : N.land b 15 = (b mod 16)%N).
  { change 15%N with (N.ones 4). rewrite N.land_ones. reflexivity. }
  rewrite Hmask, Hlow.
  rewrite !Hex_value_digit; [| apply N.mod_lt; lia | exact Hhigh].
  f_equal.
  rewrite N.shiftr_div_pow2. change (2 ^ 4)%N with 16%N.
  symmetry. rewrite N.add_comm, N.mul_comm.
  rewrite (N.div_mod b 16) at 1 by lia. lia.
Qed.

Lemma Hex_decode_encode_app (bs : list N) (rest : list ascii) :
  Forall (fun b => (b < 256)%N) bs ->
  Hex.decode (Hex.encode bs ++ rest) = bs ++ Hex.decode rest.
Proof.
  induction 1 as [|b bs Hb _ IH]; [reflexivity|].
  change (Hex.encode (b :: bs)) with (Hex.of_byte b ++ Hex.encode bs).
  rewrite <- app_assoc.
  rewrite Hex_decode_of_byte by exact Hb.
  rewrite IH. reflexivity.
Qed.

Lemma Hex_decode_encode (bs : list N) :
  Forall (fun b => (b < 256)%N) bs -> Hex.decode (Hex.encode bs) = bs.
Proof.
  intro Hbs. rewrite <- (app_nil_r (Hex.encode bs)).
  rewrite Hex_decode_encode_app by exact Hbs. apply app_nil_r.
Qed.

(** X2. A registration identifier is two lowercase hexadecimal digits
    per byte drawn, and it decodes back to the bytes: two draws that
    differ give two identifiers. *)
Theorem generateUniqueRegistrationId_is_injective (bytes bytes' : list N) :
  Forall (fun b => (b < 256)%N) bytes ->
  Forall (fun b => (b < 256)%N) bytes' ->
  String.length (generateUniqueRegistrationId bytes) = 2 * length bytes
  /\ Forall (fun c => Hex.is_lower_digit c = true)
            (list_ascii_of_string (generateUniqueRegistrationId bytes))
  /\ Hex.decode (list_ascii_of_string (generateUniqueRegistrationId bytes)) = bytes
  /\ (generateUniqueRegistrationId bytes = generateUniqueRegistrationId bytes' ->
      bytes = bytes').
Proof.
  intros Hb Hb'. unfold generateUniqueRegistrationId.
  rewrite !chars_of_string_of_chars.
  split; [|split; [|split]].
  - rewrite <- (chars_of_string_of_chars (Hex.encode bytes)) at 1.
    rewrite <- Hex_encode_length.
    generalize (Hex.encode bytes) as l.
    induction l as [|c l IH]; simpl; [reflexivity | now rewrite IH].
  - apply Hex_encode_lower.
  - apply Hex_decode_encode, Hb.
  - intro Heq.
    rewrite <- (Hex_decode_encode bytes Hb), <- (Hex_decode_encode bytes' Hb').
    rewrite <- (chars_of_string_of_chars (Hex.encode bytes)).
    rewrite <- (chars_of_string_of_chars (Hex.encode bytes')).
    rewrite Heq. reflexivity.
Qed.

(** ** What a signature must be *)

Lemma be_bytes_small (width : nat) (x : N) :
  Forall (fun b => (b < 256)%N) (SHA256.be_bytes width x).
Proof.
  unfold SHA256.be_bytes. apply Forall_map, Forall_forall. intros i _. simpl.
  change 255%N with (N.ones 8). rewrite N.land_ones.
  apply N.mod_lt. discriminate.
Qed.

Lemma hash_bytes_small (msg : list N) : Forall (fun b => (b < 256)%N) (SHA256.hash msg).
Proof.
  unfold SHA256.hash, SHA256.digest_bytes.
  repeat (apply Forall_app; split); apply be_bytes_small.
Qed.

Lemma generateQRSignature_bytes (secret : option string) (payload : json) :
  exists bytes : list N,
    Forall (fun b => (b < 256)%N) bytes
    /\ length bytes = 32
    /\ list_ascii_of_string (generateQRSignature secret payload) = Hex.encode bytes.
Proof.
  unfold generateQRSignature, createHmac_sha256_hex.
  eexists. split; [|split]; [| |apply chars_of_string_of_chars].
  - apply hash_bytes_small.
  - reflexivity.
Qed.

Lemma Hex_value_small (c : ascii) (v : N) : Hex.value c = Some v -> (v < 16)%N.
Proof.
  unfold Hex.value. cbv zeta.
  do 3 (destruct (_ && _) eqn:Hrange;
        [apply andb_prop in Hrange; destruct Hrange as [Hlow Hhigh];
         apply N.leb_le in Hlow, Hhigh; intros [= <-]; lia
        |clear Hrange]).
  discriminate.
Qed.

Lemma Hex_decode_small :
  forall (n : nat) (s : list ascii),
    length s <= n ->
    Forall (fun b => (b < 256)%N) (Hex.decode s) /\ 2 * length (Hex.decode s) <= length s.
Proof.
  induction n as [|n IH]; intros s Hn.
  - destruct s; [|simpl in Hn; lia]. split; [constructor | reflexivity].
  - destruct s as [|a [|b rest]]; [split; [constructor | reflexivity]
                                  |split; [constructor | simpl; lia]|].
    cbn [Hex.decode].
    destruct (Hex.value a) as [x|] eqn:Hx; [|split; [constructor | simpl; lia]].
    destruct (Hex.value b) as [y|] eqn:Hy; [|split; [constructor | simpl; lia]].
    destruct (IH rest) as [Hsmall Hlen]; [simpl in Hn; lia|].
    apply Hex_value_small in Hx, Hy.
    split; [constructor; [lia | exact Hsmall] | simpl in *; lia].
Qed.

Lemma string_length_chars (s : string) :
  length (list_ascii_of_string s) = String.length s.
Proof. induction s as [|c s IH]; simpl; [reflexivity | now rewrite IH]. Qed.

Lemma chars_append (a b : string) :
  list_ascii_of_string (a +:+ b) = list_ascii_of_string a ++ list_ascii_of_string b.
Proof. induction a as [|c a IH]; simpl; [reflexivity | now rewrite IH]. Qed.

Lemma string_of_chars_of_string (s : string) :
  string_of_list_ascii (list_ascii_of_string s) = s.
Proof. induction s as [|c s IH]; simpl; [reflexivity | now rewrite IH]. Qed.

(** Verification, for any value read from a QR code. *)
Lemma validateQRSignature_decoded (secret : option string) (payload : json) :
  validateQRSignature secret payload = true
  <-> exists s : string,
      JS.get "signature" payload = Some (JStr s)
      /\ Hex.decode (list_ascii_of_string s)
         = Hex.decode (list_ascii_of_string (generateQRSignature secret payload)).
Proof.
  unfold validateQRSignature. cbv zeta.
  destruct (JS.get "signature" payload) as [[| | |s| |]|];
    cbn [Buffer_from_hex];
    try (split; [discriminate | intros (s' & [=] & _)]).
  unfold timingSafeEqual. split.
  - destruct (Nat.eqb _ _); [|discriminate].
    intros H. apply bool_decide_eq_true in H. exists s. split; [reflexivity | exact H].
  - intros (s' & [= <-] & ->). rewrite Nat.eqb_refl.
    apply bool_decide_eq_true. reflexivity.
Qed.

(** X3. For a payload whose [signature] is a string, verification
    succeeds exactly when the hexadecimal decoding of that string, printed
    again in lowercase, is the expected signature; a string shorter than
    64 characters never verifies.  A signature that is absent, null, a
    boolean or a number never verifies either: [Buffer.from] throws and
    the [catch] answers false. *)
Theorem validateQRSignature_accepts_only_the_digest
        (secret : option string) (payload : json) :
  (forall s : string,
      JS.get "signature" payload = Some (JStr s) ->
      (validateQRSignature secret payload = true
       <-> string_of_list_ascii (Hex.encode (Hex.decode (list_ascii_of_string s)))
           = generateQRSignature secret payload)
      /\ (String.length s < 64 -> validateQRSignature secret payload = false))
  /\ match JS.get "signature" payload with
     | None | Some JNull | Some (JBool _) | Some (JNum _) =>
         validateQRSignature secret payload = false
     | Some (JStr _) | Some (JArr _) | Some (JObj _) => True
     end.
Proof.
  destruct (generateQRSignature_bytes secret payload) as (bytes & Hsmall & Hlen & Hhex).
  assert (Hiff : validateQRSignature secret payload = true
                 <-> exists s : string,
                     JS.get "signature" payload = Some (JStr s)
                     /\ Hex.decode (list_ascii_of_string s) = bytes).
  { rewrite validateQRSignature_decoded, Hhex, Hex_decode_encode by exact Hsmall.
    reflexivity. }
  split.
  - intros s Hget.
    assert (Hbytes : validateQRSignature secret payload = true
                     <-> Hex.decode (list_ascii_of_string s) = bytes).
    { rewrite Hiff. split.
      - intros (s' & Hget' & Hs'). rewrite Hget in Hget'. injection Hget' as <-.
        exact Hs'.
      - intro Hs. exists s. split; [exact Hget | exact Hs]. }
    split.
    + rewrite Hbytes. split; intro Hs.
      * rewrite Hs, <- Hhex. apply string_of_chars_of_string.
      * apply (f_equal list_ascii_of_string) in Hs.
        rewrite chars_of_string_of_chars, Hhex in Hs.
        apply (f_equal Hex.decode) in Hs.
        rewrite !Hex_decode_encode in Hs;
          [exact Hs | exact Hsmall | apply (Hex_decode_small _ _ (Nat.le_refl _))].
    + intro Hshort. apply not_true_is_false. intro Hv.
      apply Hbytes in Hv.
      destruct (Hex_decode_small _ (list_ascii_of_string s) (Nat.le_refl _)) as [_ Hle].
      rewrite Hv, Hlen, string_length_chars in Hle. lia.
  - destruct (JS.get "signature" payload) as [[]|] eqn:Hget; try exact I;
      apply not_true_is_false; intro Hv; apply Hiff in Hv;
      destruct Hv as (s & Hs & _); discriminate Hs.
Qed.

(** X4. Text after a correct signature is ignored when its hexadecimal
    decoding is empty (one character, or text whose first two characters
    are not both hexadecimal digits): the payload still verifies. *)
Theorem text_after_the_signature_is_ignored
        (secret : option string) (p : QRPayload) (extra : string) :
  Hex.decode (list_ascii_of_string extra) = [] ->
  validateQRSignature secret
    (payload_object (with_signature (signature (sign secret p) +:+ extra)
                                    (sign secret p))) = true.
Proof.
  intro Hextra. apply validateQRSignature_payload.
  unfold sign. rewrite !generateQRSignature_with_signature.
  cbn [signature with_signature].
  destruct (generateQRSignature_bytes secret (payload_object p))
    as (bytes & Hsmall & _ & Hhex).
  rewrite chars_append, Hhex.
  rewrite Hex_decode_encode_app by exact Hsmall.
  rewrite Hextra, Hex_decode_encode by exact Hsmall.
  apply app_nil_r.
Qed.

(** ** What a scan needs to be valid *)

Lemma validate_accepts_iff (secret : option string) (now : Z)
      (body : ValidateRequest.t) (db : DB) :
  QRValidationResult.valid (run (validate secret now body) db).1 = true
  <-> exists (payload : json) (rid u e : string) (slot : nat) (r : Registration),
      JSON.parse (ValidateRequest.qrData body) = Some payload
      /\ missing_fields payload = []
      /\ validateQRSignature secret payload = true
      /\ different_event (ValidateRequest.eventId body) payload = false
      /\ cast_filter payload = Some (rid, u, e)
      /\ findOne (matches_triple rid u e) (Registrations db) = Some (slot, r)
      /\ (status r = registered \/ status r = absent)
      /\ qr_expired now payload = false
      /\ is_Some (Users db !! userId r)
      /\ is_Some (Events db !! eventId r).
Proof.
  rewrite run_validate. unfold scan_of. split.
  - destruct (JSON.parse _) as [payload|]; [|discriminate].
    assert (Hgoal :
      QRValidationResult.valid
        (match
           (if Nat.ltb 0 (length (missing_fields payload))
            then Rejected ("Missing required QR code fields: "
                           +:+ join ", " (missing_fields payload))
            else if negb (validateQRSignature secret payload)
            then Rejected "Invalid QR code signature"
            else if different_event (ValidateRequest.eventId body) payload
            then Rejected "QR code is for a different event"
            else
              match cast_filter payload with
              | None => Failed
              | Some (rid, u, e) =>
                  match findOne (matches_triple rid u e) (Registrations db) with
                  | None => Rejected "Registration not found"
                  | Some (slot, r) =>
                      if bool_decide (status r = cancelled)
                      then Rejected "Registration has been cancelled"
                      else if qr_expired now payload
                      then Rejected "QR code has expired"
                      else if bool_decide (status r = attended)
                      then match Users db !! userId r, Events db !! eventId r with
                           | Some _, Some _ => AlreadyAttended r
                           | _, _ => Failed
                           end
                      else Committed slot r
                  end
              end)
         with
         | Rejected why => (QRValidationResult.rejected 200 why, db)
         | AlreadyAttended r =>
             ({| QRValidationResult.code := 200;
                 QRValidationResult.valid := false;
                 QRValidationResult.reason := Some "Already marked as attended";
                 QRValidationResult.registration := Some r;
                 QRValidationResult.scanLog := None |}, db)
         | Failed => (failure, db)
         | Committed slot r =>
             (match Users db !! userId r, Events db !! eventId r with
              | Some _, Some _ =>
                  {| QRValidationResult.code := 200;
                     QRValidationResult.valid := true;
                     QRValidationResult.reason := None;
                     QRValidationResult.registration :=
                       Some (push_scanLog (valid_scanLog now body)
                               (with_status attended r));
                     QRValidationResult.scanLog := Some (valid_scanLog now body) |}
              | _, _ => failure
              end,
              committed db slot r (valid_scanLog now body))
         end).1 = true ->
      exists (payload' : json) (rid u e : string) (slot : nat) (r : Registration),
        Some payload = Some payload'
        /\ missing_fields payload' = []
        /\ validateQRSignature secret payload' = true
        /\ different_event (ValidateRequest.eventId body) payload' = false
        /\ cast_filter payload' = Some (rid, u, e)
        /\ findOne (matches_triple rid u e) (Registrations db) = Some (slot, r)
        /\ (status r = registered \/ status r = absent)
        /\ qr_expired now payload' = false
        /\ is_Some (Users db !! userId r)
        /\ is_Some (Events db !! eventId r)).
    { destruct (missing_fields payload) as [|? ?] eqn:Hmissing; [|discriminate].
      cbn [length Nat.ltb Nat.leb].
      destruct (validateQRSignature secret payload) eqn:Hsig; [|discriminate].
      cbn [negb].
      destruct (different_event _ payload) eqn:Hevent; [discriminate|].
      destruct (cast_filter payload) as [[[rid u] e]|] eqn:Hcast; [|discriminate].
      destruct (findOne _ _) as [[slot r]|] eqn:Hfind; [|discriminate].
      destruct (bool_decide (status r = cancelled)) eqn:Hc; [discriminate|].
      destruct (qr_expired now payload) eqn:Hexp; [discriminate|].
      destruct (bool_decide (status r = attended)) eqn:Ha.
      { destruct (Users db !! userId r), (Events db !! eventId r); discriminate. }
      destruct (Users db !! userId r) as [user|] eqn:Huser; [|discriminate].
      destruct (Events db !! eventId r) as [event|] eqn:Hev; [|discriminate].
      intros _. exists payload, rid, u, e, slot, r.
      apply bool_decide_eq_false in Hc, Ha.
      repeat split; try assumption; try (eexists; eassumption).
      destruct (status r); [left | | right |]; congruence. }
    destruct payload; [discriminate | exact Hgoal ..].
  - intros (payload & rid & u & e & slot & r & -> & Hmissing & Hsig & Hevent & Hcast
            & Hfind & Hstatus & Hexp & [user Huser] & [event Hev]).
    assert (Hnull : payload <> JNull).
    { intros ->. discriminate Hmissing. }
    rewrite Hmissing, Hsig, Hevent, Hcast, Hfind, Hexp.
    rewrite !bool_decide_eq_false_2 by (destruct Hstatus as [-> | ->]; discriminate).
    destruct payload;
      [contradiction
      | cbn [length Nat.ltb Nat.leb negb]; rewrite Huser, Hev; reflexivity ..].
Qed.

(** A signature that verifies has the 64 characters of a digest at
    least. *)
Lemma verified_signature_is_long (secret : option string) (payload : json)
      (sg : string) :
  JS.get "signature" payload = Some (JStr sg) ->
  validateQRSignature secret payload = true ->
  64 <= String.length sg.
Proof.
  intros Hget Hsig. apply validateQRSignature_decoded in Hsig.
  destruct Hsig as (s & Hget' & Hs). rewrite Hget in Hget'. injection Hget' as <-.
  destruct (generateQRSignature_bytes secret payload) as (bytes & Hsmall & Hlen & Hhex).
  rewrite Hhex, Hex_decode_encode in Hs by exact Hsmall.
  destruct (Hex_decode_small _ (list_ascii_of_string sg) (Nat.le_refl _)) as [_ Hle].
  rewrite Hs, Hlen, string_length_chars in Hle. lia.
Qed.

Lemma is_ObjectId_not_empty (s : string) : is_ObjectId s = true -> s <> "".
Proof. intros H ->. discriminate H. Qed.

(** X5. For a payload in the form issuance writes it (the fields the
    validator signs and looks up are strings, the student and the event
    are named by identifiers as [ObjectId] prints them, the expiry is
    absent, empty or a text that [Date.parse] reads), a scan is answered
    valid exactly when all of this holds: the registration identifier is
    not empty, the signature verifies, the credential is not presented
    for another event, it is not expired, and it names a stored
    registration (by identifier, student and event) that is registered
    or absent and whose student and event still exist. *)
Theorem validate_is_valid_exactly_when
        (secret : option string) (now : Z) (body : ValidateRequest.t) (db : DB)
        (payload : json) (rid u e issued sg : string) :
  JSON.parse (ValidateRequest.qrData body) = Some payload ->
  JS.get "registration_id" payload = Some (JStr rid) ->
  JS.get "student_id" payload = Some (JStr u) ->
  JS.get "event_id" payload = Some (JStr e) ->
  JS.get "issued_at" payload = Some (JStr issued) ->
  JS.get "signature" payload = Some (JStr sg) ->
  is_ObjectId u = true ->
  is_ObjectId e = true ->
  match JS.get "expires_at" payload with
  | None => True
  | Some (JStr text) => text = "" \/ is_Some (Date.parse text)
  | Some _ => False
  end ->
  (QRValidationResult.valid (run (validate secret now body) db).1 = true
   <-> rid <> ""
       /\ validateQRSignature secret payload = true
       /\ different_event (ValidateRequest.eventId body) payload = false
       /\ qr_expired now payload = false
       /\ exists (slot : nat) (r : Registration),
           findOne (matches_triple rid u e) (Registrations db) = Some (slot, r)
           /\ (status r = registered \/ status r = absent)
           /\ is_Some (Users db !! userId r)
           /\ is_Some (Events db !! eventId r)).
Proof.
  intros Hparse Hrid Hu He _ Hsg Hcanon_u Hcanon_e _.
  assert (Hcast : cast_filter payload = Some (rid, u, e)).
  { unfold cast_filter. rewrite Hrid, Hu, He. reflexivity. }
  assert (Hmissing : missing_fields payload
                     = (if String.eqb rid "" then ["registration_id"] else [])
                       ++ (if String.eqb sg "" then ["signature"] else [])).
  { unfold missing_fields, requiredFields. cbn [List.filter].
    rewrite Hrid, Hu, He, Hsg. cbn [JS.truthy].
    rewrite (eqb_empty_false u (is_ObjectId_not_empty u Hcanon_u)).
    rewrite (eqb_empty_false e (is_ObjectId_not_empty e Hcanon_e)).
    destruct (String.eqb rid ""), (String.eqb sg ""); reflexivity. }
  rewrite validate_accepts_iff. split.
  - intros (payload' & rid' & u' & e' & slot & r & Hparse' & Hnone & Hsig & Hevent
            & Hcast' & Hfind & Hstatus & Hexp & Huser & Hev).
    rewrite Hparse in Hparse'. injection Hparse' as <-.
    rewrite Hcast in Hcast'. injection Hcast' as <- <- <-.
    split.
    { intros ->. rewrite Hmissing in Hnone. discriminate Hnone. }
    repeat (split; [assumption|]).
    exists slot, r. repeat split; assumption.
  - intros (Hnot_empty & Hsig & Hevent & Hexp & slot & r & Hfind & Hstatus & Huser & Hev).
    exists payload, rid, u, e, slot, r.
    repeat split; try assumption.
    rewrite Hmissing, (eqb_empty_false rid Hnot_empty).
    replace (String.eqb sg "") with false; [reflexivity|].
    symmetry. apply eqb_empty_false. intros ->.
    pose proof (verified_signature_is_long secret payload "" Hsg Hsig) as Hlong.
    cbn in Hlong. lia.
Qed.




(** X7. A credential presented for another event than its own is never
    valid, and the scan changes nothing; when its fields are present and
    its signature verifies the answer is that it is for a different
    event. *)
Theorem credential_of_another_event_is_refused
        (secret : option string) (now : Z) (body : ValidateRequest.t) (db : DB)
        (payload : json) :
  JSON.parse (ValidateRequest.qrData body) = Some payload ->
  different_event (ValidateRequest.eventId body) payload = true ->
  QRValidationResult.valid (run (validate secret now body) db).1 = false
  /\ (run (validate secret now body) db).2 = db
  /\ (missing_fields payload = [] ->
      validateQRSignature secret payload = true ->
      QRValidationResult.reason (run (validate secret now body) db).1
      = Some "QR code is for a different event").
Proof.
  intros Hparse Hother. rewrite run_validate. unfold scan_of. rewrite Hparse.
  destruct (missing_fields payload) as [|field rest] eqn:Hmissing.
  - cbn [length Nat.ltb Nat.leb]. rewrite Hother.
    destruct (validateQRSignature secret payload);
      cbn [negb]; destruct payload; try discriminate Hmissing;
      (split; [reflexivity | split; [reflexivity |]]);
      intros _ H; try discriminate H; reflexivity.
  - cbn [length Nat.ltb Nat.leb].
    destruct payload;
      (split; [reflexivity | split; [reflexivity |]]);
      intros H; discriminate H.
Qed.

(** ** The writes of a request *)

Lemma DB_eta (db : DB) :
  {| Users := Users db; Events := Events db; Registrations := Registrations db;
     ScanLogs := ScanLogs db |} = db.
Proof. destruct db; reflexivity. Qed.

Lemma registerMultiple_event_writes (secret : option string) (now : Z) (rid u : string)
      (user : User) (e : string) (results : MultiResults) (db : DB) :
  rtc write db (run (registerMultiple_event secret now rid u user e results) db).2.
Proof.
  rewrite run_registerMultiple_event. cbv zeta.
  destruct (findOne _ _); [apply rtc_refl|].
  destruct (Events db !! e) as [event|] eqn:Hevent; [|apply rtc_refl].
  destruct (_ >=? _)%Z eqn:Hfull; [apply rtc_refl|].
  destruct (_ >? _)%Z; [apply rtc_refl|].
  destruct (violates_unique_index _ _) eqn:Hunique; [apply rtc_refl|].
  apply rtc_once, write_issued; try assumption; try reflexivity.
  rewrite Z.geb_leb in Hfull. apply Z.leb_gt in Hfull. exact Hfull.
Qed.

Lemma registerMultiple_loop_writes (secret : option string) (now : Z)
      (random : nat -> string) (u : string) (user : User) (es : list string) :
  forall (i : nat) (results : MultiResults) (db : DB),
    rtc write db (run (registerMultiple_loop secret now random u user i es results) db).2.
Proof.
  induction es as [|e es IH]; intros i results db; cbn [registerMultiple_loop].
  - apply rtc_refl.
  - rewrite run_bind. etrans; [apply registerMultiple_event_writes | apply IH].
Qed.

Lemma registerMultiple_writes (secret : option string) (now : Z)
      (random : nat -> string) (u : string) (es : list string) (db : DB) :
  rtc write db (run (registerMultiple secret now random u es) db).2.
Proof.
  unfold registerMultiple.
  destruct (_ || _); [apply rtc_refl|].
  cbn [run bind await exec].
  destruct (Users db !! u) as [user|]; [|apply rtc_refl].
  rewrite run_bind. cbn [run snd].
  apply registerMultiple_loop_writes.
Qed.

Lemma register_writes (secret : option string) (now : Z) (rid u e : string) (db : DB) :
  rtc write db (run (register secret now rid u e) db).2.
Proof.
  rewrite run_register. cbv zeta.
  destruct (Users db !! u) as [user|]; [|apply rtc_refl].
  destruct (Events db !! e) as [event|] eqn:Hevent; [|apply rtc_refl].
  destruct (findOne _ _); [apply rtc_refl|].
  destruct (_ >=? _)%Z eqn:Hfull; [apply rtc_refl|].
  destruct (_ >? _)%Z; [apply rtc_refl|].
  destruct (violates_unique_index _ _) eqn:Hunique; [apply rtc_refl|].
  apply rtc_once, write_issued; try assumption; try reflexivity.
  rewrite Z.geb_leb in Hfull. apply Z.leb_gt in Hfull. exact Hfull.
Qed.

Lemma scan_of_Committed (secret : option string) (now : Z) (body : ValidateRequest.t)
      (db : DB) (slot : nat) (r : Registration) :
  scan_of secret now body db = Committed slot r ->
  Registrations db !! slot = Some (Some r)
  /\ status r <> cancelled /\ status r <> attended.
Proof.
  unfold scan_of. intro H.
  repeat match type of H with
         | match ?x with _ => _ end = _ => destruct x eqn:?; try discriminate H
         | (if ?x then _ else _) = _ => destruct x eqn:?; try discriminate H
         | (let '(_, _) := ?x in _) = _ => destruct x eqn:?
         end;
    injection H as <- <-;
    match goal with
    | Hf : findOne _ _ = Some _ |- _ => apply findOne_Some in Hf; destruct Hf as [Hf _]
    end;
    repeat match goal with
           | Hb : bool_decide _ = false |- _ => apply bool_decide_eq_false in Hb
           end;
    repeat split; assumption.
Qed.

Lemma validate_writes (secret : option string) (now : Z) (body : ValidateRequest.t)
      (db : DB) :
  rtc write db (run (validate secret now body) db).2.
Proof.
  rewrite run_validate.
  destruct (scan_of secret now body db) as [why|r| |slot r] eqn:Hscan;
    try apply rtc_refl.
  apply rtc_once, write_committed; [|reflexivity].
  apply (scan_of_Committed _ _ _ _ _ _ Hscan).
Qed.

Lemma run_unregister_found (u e : string) (db : DB) (slot : nat) (r : Registration) :
  findOne (matches_user_event u e) (Registrations db) = Some (slot, r) ->
  run (unregister u e) db
  = ({| SimpleResponse.code := 200; SimpleResponse.error := None |},
     unregistered db slot e).
Proof. intro Hfind. rewrite run_unregister, Hfind. reflexivity. Qed.

Lemma unregister_writes (u e : string) (db : DB) :
  rtc write db (run (unregister u e) db).2.
Proof.
  destruct (findOne (matches_user_event u e) (Registrations db)) as [[slot r]|] eqn:Hfind.
  - rewrite (run_unregister_found _ _ _ _ _ Hfind).
    destruct (findOne_Some _ _ _ _ Hfind) as [Hslot Hmatch].
    apply matches_user_event_true in Hmatch. destruct Hmatch as [_ <-].
    apply rtc_once, write_unregistered. exact Hslot.
  - rewrite run_unregister, Hfind. apply rtc_refl.
Qed.

Lemma deleteUser_unknown (id : string) (db : DB) :
  Users db !! id = None -> (run (deleteUser id) db).2 = db.
Proof.
  intro Hnone. rewrite run_deleteUser, Hnone. cbn [snd]. unfold set_Users.
  rewrite delete_id by exact Hnone. apply DB_eta.
Qed.

Lemma deleteUser_writes (id : string) (db : DB) :
  rtc write db (run (deleteUser id) db).2.
Proof.
  destruct (Users db !! id) as [user|] eqn:Huser.
  - rewrite run_deleteUser, Huser. apply rtc_once, write_user_deleted.
  - rewrite deleteUser_unknown by exact Huser. apply rtc_refl.
Qed.

Lemma deleteEvents_writes (eventIds : list string) (db : DB) :
  rtc write db (deleteEvents eventIds db).2.
Proof.
  unfold deleteEvents. destruct (Nat.eqb _ _); [apply rtc_refl|].
  apply rtc_once, write_events_deleted.
Qed.

Lemma lookup_not_listed (eventIds : list string) (events : gmap string Event)
      (e : string) :
  filter (fun doc => ~ listed eventIds doc) events !! e
  = if bool_decide (e ∈ eventIds) then None else events !! e.
Proof.
  destruct (bool_decide (e ∈ eventIds)) eqn:Hin.
  - apply bool_decide_eq_true in Hin. apply map_lookup_filter_None. right.
    intros event _ Hnot. apply Hnot. exact Hin.
  - apply bool_decide_eq_false in Hin.
    destruct (events !! e) as [event|] eqn:Hevent.
    + apply map_lookup_filter_Some. split; [exact Hevent | exact Hin].
    + apply map_lookup_filter_None. left. exact Hevent.
Qed.

Lemma deleteEvent_is_deleteEvents (id : string) (db : DB) :
  deleteEvent id db = (deleteEvents [id] db).2.
Proof.
  unfold deleteEvent, deleteEvents. cbn [length Nat.eqb snd]. f_equal.
  apply map_eq. intro e. rewrite lookup_not_listed.
  destruct (decide (e = id)) as [->|Hne].
  - rewrite lookup_delete_eq, bool_decide_eq_true_2 by (apply list_elem_of_singleton; reflexivity).
    reflexivity.
  - rewrite lookup_delete_ne by congruence.
    rewrite bool_decide_eq_false_2; [reflexivity|].
    intro Hin. apply list_elem_of_singleton in Hin. contradiction.
Qed.

Lemma serve_writes (secret : option string) (req : request) (db : DB) :
  rtc write db (serve secret req db).
Proof.
  destruct req; cbn [serve].
  - apply registerMultiple_writes.
  - apply register_writes.
  - apply validate_writes.
  - apply unregister_writes.
  - apply deleteUser_writes.
  - apply deleteEvents_writes.
  - rewrite deleteEvent_is_deleteEvents. apply deleteEvents_writes.
Qed.

Lemma serve_all_writes (secret : option string) (reqs : list request) :
  forall db : DB, rtc write db (serve_all secret reqs db).
Proof.
  induction reqs as [|req reqs IH]; intro db; cbn [serve_all fold_left].
  - apply rtc_refl.
  - etrans; [apply serve_writes | apply IH].
Qed.

(** What is kept by every write is kept by every sequence of requests. *)
Lemma serve_all_invariant (I : DB -> Prop) :
  (forall db db' : DB, write db db' -> I db -> I db') ->
  forall (secret : option string) (reqs : list request) (db : DB),
    I db -> I (serve_all secret reqs db).
Proof.
  intros Hstep secret reqs db Hdb.
  induction (serve_all_writes secret reqs db) as [|db1 db2 db3 Hw _ IH];
    [exact Hdb | apply IH, (Hstep _ _ Hw Hdb)].
Qed.

(** ** What every sequence of requests keeps *)

Lemma registrations_of_app (e : string) (l l' : list (option Registration)) :
  registrations_of e (l ++ l') = registrations_of e l + registrations_of e l'.
Proof.
  unfold registrations_of, live.
  rewrite omap_app, List.filter_app, length_app. reflexivity.
Qed.

Lemma registrations_of_one (e : string) (d : option Registration)
      (l : list (option Registration)) :
  registrations_of e (d :: l)
  = match d with
    | Some r => if String.eqb (eventId r) e then 1 else 0
    | None => 0
    end + registrations_of e l.
Proof.
  unfold registrations_of, live. destruct d as [r|]; cbn; [|reflexivity].
  destruct (String.eqb (eventId r) e); reflexivity.
Qed.

Lemma registrations_of_nil (e : string) : registrations_of e [] = 0.
Proof. reflexivity. Qed.

Lemma registrations_of_insert (e : string) (l : list (option Registration))
      (slot : nat) (d d' : option Registration) :
  l !! slot = Some d ->
  registrations_of e (<[slot := d']> l) + registrations_of e [d]
  = registrations_of e l + registrations_of e [d'].
Proof.
  intro Hslot.
  rewrite insert_take_drop by (apply lookup_lt_Some in Hslot; exact Hslot).
  rewrite <- (take_drop_middle l slot d Hslot) at 3.
  rewrite !registrations_of_app, !(registrations_of_one e _ (drop _ _)),
    !(registrations_of_one e _ []).
  lia.
Qed.

Lemma registrations_of_deleteMany (e : string) (f : Registration -> bool)
      (l : list (option Registration)) :
  registrations_of e (deleteMany f l) <= registrations_of e l.
Proof.
  induction l as [|d l IH]; [reflexivity|].
  change (deleteMany f (d :: l))
    with (match d with
          | Some r => if f r then None else Some r
          | None => None
          end :: deleteMany f l).
  rewrite !registrations_of_one.
  destruct d as [r|]; [destruct (f r)|]; lia.
Qed.

Lemma write_keeps_counters (db db' : DB) :
  write db db' -> counters_bound_registrations db -> counters_bound_registrations db'.
Proof.
  intros Hwrite Hinv.
  destruct Hwrite as [db e event r Hevent Hroom _ He _
                     |db slot r l Hslot _
                     |db slot r Hslot
                     |db id
                     |db eventIds];
    intros e' event' Hlookup.
  - cbn [issued Events Registrations set_Events set_Registrations] in *.
    rewrite registrations_of_app, registrations_of_one, He.
    destruct (Hinv e event Hevent) as [Hbound Hcount].
    destruct (decide (e' = e)) as [->|Hne].
    + rewrite lookup_insert_eq in Hlookup. injection Hlookup as <-.
      rewrite String.eqb_refl. cbn [currentParticipants maxParticipants
        with_currentParticipants]. rewrite registrations_of_nil. lia.
    + rewrite lookup_insert_ne in Hlookup by congruence.
      replace (String.eqb e e') with false
        by (symmetry; apply String.eqb_neq; congruence).
      rewrite registrations_of_nil.
      destruct (Hinv e' event' Hlookup). split; [assumption | lia].
  - cbn [committed Events Registrations set_ScanLogs set_Registrations] in *.
    pose proof (registrations_of_insert e' _ slot _
                  (Some (push_scanLog l (with_status attended r))) Hslot) as Hsame.
    rewrite !registrations_of_one, !registrations_of_nil in Hsame.
    cbn [eventId push_scanLog with_status] in Hsame.
    destruct (Hinv e' event' Hlookup). split; [assumption | lia].
  - pose proof (registrations_of_insert e' _ slot _ None Hslot) as Hless.
    rewrite !registrations_of_one, !registrations_of_nil in Hless.
    unfold unregistered in Hlookup |- *. cbv zeta in Hlookup |- *.
    destruct (Events db !! eventId r) as [event|] eqn:Hevent.
    + destruct (_ >? _)%Z eqn:Hpositive.
      * cbn [Events Registrations set_Events set_Registrations] in *.
        apply Z.gtb_lt in Hpositive.
        destruct (Hinv _ event Hevent) as [Hbound Hcount].
        destruct (decide (e' = eventId r)) as [->|Hne].
        -- rewrite lookup_insert_eq in Hlookup. injection Hlookup as <-.
           rewrite String.eqb_refl in Hless.
           cbn [currentParticipants maxParticipants with_currentParticipants].
           lia.
        -- rewrite lookup_insert_ne in Hlookup by congruence.
           destruct (Hinv e' event' Hlookup). split; [assumption | lia].
      * cbn [Events Registrations set_Events set_Registrations] in *.
        destruct (Hinv e' event' Hlookup). split; [assumption | lia].
    + cbn [Events Registrations set_Events set_Registrations] in *.
      destruct (Hinv e' event' Hlookup). split; [assumption | lia].
  - cbn [user_deleted Events Registrations set_Users set_Registrations] in *.
    pose proof (registrations_of_deleteMany e' (matches_user id) (Registrations db)).
    destruct (Hinv e' event' Hlookup). split; [assumption | lia].
  - cbn [Events Registrations set_Events] in *.
    apply map_lookup_filter_Some_1_1 in Hlookup.
    exact (Hinv e' event' Hlookup).
Qed.

(** X8. No overbooking when requests are served one after the other:
    if every event has a count between zero and its maximum that is at
    least the number of registrations stored for it, this still holds
    after any sequence of registrations, scans, unregistrations and
    deletions of users and events; so no event ever has more
    registrations than places. *)
Theorem requests_in_sequence_never_overbook
        (secret : option string) (reqs : list request) (db : DB) :
  counters_bound_registrations db ->
  counters_bound_registrations (serve_all secret reqs db)
  /\ forall (e : string) (event : Event),
      Events (serve_all secret reqs db) !! e = Some event ->
      (Z.of_nat (registrations_of e (Registrations (serve_all secret reqs db)))
       <= maxParticipants event)%Z.
Proof.
  intro Hdb.
  pose proof (serve_all_invariant _ write_keeps_counters secret reqs db Hdb) as Hinv.
  split; [exact Hinv|].
  intros e event Hevent. destruct (Hinv e event Hevent). lia.
Qed.

Lemma lookup_deleteMany (f : Registration -> bool) (docs : list (option Registration))
      (slot : nat) (r : Registration) :
  deleteMany f docs !! slot = Some (Some r) ->
  docs !! slot = Some (Some r) /\ f r = false.
Proof.
  unfold deleteMany. rewrite list_lookup_fmap.
  destruct (docs !! slot) as [[r'|]|]; cbn; try discriminate.
  destruct (f r') eqn:Hf; [discriminate|]. intros [= <-]. split; [reflexivity | exact Hf].
Qed.

Lemma lookup_one {A : Type} (x y : A) (k : nat) :
  [x] !! k = Some y -> k = 0 /\ x = y.
Proof. destruct k as [|[|k]]; [intros [= <-]; split; reflexivity | discriminate ..]. Qed.

Lemma write_keeps_unique (db db' : DB) :
  write db db' ->
  unique_registrations (Registrations db) -> unique_registrations (Registrations db').
Proof.
  intros Hwrite Hinv.
  destruct Hwrite as [db e event r _ _ Hunique _ _
                     |db slot r l Hslot _
                     |db slot r Hslot
                     |db id
                     |db eventIds];
    intros i j r1 r2 Hi Hj Hsame.
  - cbn [issued Registrations set_Events set_Registrations] in *.
    pose proof (proj1 (violates_unique_index_false _ _) Hunique) as Hfresh.
    apply lookup_app_Some in Hi, Hj.
    destruct Hi as [Hi | [Hi Hi']], Hj as [Hj | [Hj Hj']].
    + exact (Hinv i j r1 r2 Hi Hj Hsame).
    + apply lookup_one in Hj'. destruct Hj' as [_ [= <-]].
      destruct (Hfresh i r1 Hi) as [Hid Hpair].
      exfalso. destruct Hsame as [Hsame | Hsame]; [contradiction | tauto].
    + apply lookup_one in Hi'. destruct Hi' as [_ [= <-]].
      destruct (Hfresh j r2 Hj) as [Hid Hpair].
      exfalso.
      destruct Hsame as [Hsame | [Hu He]]; [congruence | apply Hpair; split; congruence].
    + apply lookup_one in Hi', Hj'. lia.
  - cbn [committed Registrations set_ScanLogs set_Registrations] in *.
    assert (Hold : forall (k : nat) (x : Registration),
               <[slot := Some (push_scanLog l (with_status attended r))]>
                 (Registrations db) !! k = Some (Some x) ->
               exists x', Registrations db !! k = Some (Some x')
                          /\ registrationId x' = registrationId x
                          /\ userId x' = userId x /\ eventId x' = eventId x).
    { intros k x Hk. destruct (decide (k = slot)) as [->|Hne].
      - rewrite list_lookup_insert_eq in Hk
          by (apply lookup_lt_Some in Hslot; exact Hslot).
        injection Hk as <-. exists r. repeat split. exact Hslot.
      - rewrite list_lookup_insert_ne in Hk by congruence.
        exists x. repeat split. exact Hk. }
    destruct (Hold i r1 Hi) as (x1 & Hx1 & Hid1 & Hu1 & He1).
    destruct (Hold j r2 Hj) as (x2 & Hx2 & Hid2 & Hu2 & He2).
    apply (Hinv i j x1 x2 Hx1 Hx2). rewrite Hid1, Hid2, Hu1, Hu2, He1, He2. exact Hsame.
  - assert (Hregs : Registrations (unregistered db slot (eventId r))
                    = <[slot := None]> (Registrations db)).
    { unfold unregistered. cbv zeta. repeat case_match; reflexivity. }
    rewrite Hregs in Hi, Hj.
    assert (Hold : forall (k : nat) (x : Registration),
               <[slot := None]> (Registrations db) !! k = Some (Some x) ->
               Registrations db !! k = Some (Some x)).
    { intros k x Hk. destruct (decide (k = slot)) as [->|Hne].
      - rewrite list_lookup_insert_eq in Hk
          by (apply lookup_lt_Some in Hslot; exact Hslot).
        discriminate Hk.
      - rewrite list_lookup_insert_ne in Hk by congruence. exact Hk. }
    exact (Hinv i j r1 r2 (Hold _ _ Hi) (Hold _ _ Hj) Hsame).
  - cbn [user_deleted Registrations set_Users set_Registrations] in *.
    apply lookup_deleteMany in Hi, Hj.
    exact (Hinv i j r1 r2 (proj1 Hi) (proj1 Hj) Hsame).
  - exact (Hinv i j r1 r2 Hi Hj Hsame).
Qed.

(** X9. The two unique indexes hold after every sequence of requests:
    no two stored registrations share an identifier, and no student has
    two registrations for one event. *)
Theorem requests_keep_registrations_unique
        (secret : option string) (reqs : list request) (db : DB) :
  unique_registrations (Registrations db) ->
  unique_registrations (Registrations (serve_all secret reqs db)).
Proof.
  apply (serve_all_invariant (fun db => unique_registrations (Registrations db))).
  exact write_keeps_unique.
Qed.


Lemma status_name_valid (s : ScanStatus) : status_name s = "valid" -> s = valid.
Proof. destruct s; [reflexivity | discriminate ..]. Qed.


(** ** Issuance, unregistration and deletion *)

Lemma registerMultiple_event_outcome (secret : option string) (now : Z) (rid u : string)
      (user : User) (e : string) (results : MultiResults) (db : DB) :
  Users db !! u = Some user ->
  (exists why : string,
      run (registerMultiple_event secret now rid u user e results) db
      = (push_failed e why results, db))
  \/ (exists event : Event,
         Events db !! e = Some event
         /\ run (registerMultiple_event secret now rid u user e results) db
            = (push_registration (batch_registration secret now rid u user e event)
                 results,
               issued db e event (batch_registration secret now rid u user e event))).
Proof.
  intro Huser. rewrite run_registerMultiple_event. cbv zeta. rewrite Huser.
  destruct (findOne _ _); [left; eexists; reflexivity|].
  destruct (Events db !! e) as [event|]; [|left; eexists; reflexivity].
  destruct (_ >=? _)%Z; [left; eexists; reflexivity|].
  destruct (_ >? _)%Z; [left; eexists; reflexivity|].
  destruct (violates_unique_index _ _); [left; eexists; reflexivity|].
  right. exists event. split; reflexivity.
Qed.

Lemma registerMultiple_loop_accounts (secret : option string) (now : Z)
      (random : nat -> string) (u : string) (user : User) (dates : string -> option Z)
      (es : list string) :
  forall (i : nat) (results : MultiResults) (db : DB),
    Users db !! u = Some user ->
    (forall e : string, (date <$> (Events db !! e)) = dates e) ->
    let out := run (registerMultiple_loop secret now random u user i es results) db in
    exists (new : list Registration) (failed : list (string * string)),
      totalEvents out.1 = totalEvents results
      /\ successfulRegistrations out.1 = successfulRegistrations results + length new
      /\ registrations out.1 = registrations results ++ new
      /\ failedRegistrations out.1 = failedRegistrations results ++ failed
      /\ length new + length failed = length es
      /\ Registrations out.2 = Registrations db ++ map Some new
      /\ Forall (fun r =>
                   eventId r ∈ es
                   /\ exists (rid : string) (event : Event),
                       r = batch_registration secret now rid u user (eventId r) event
                       /\ dates (eventId r) = Some (date event)) new
      /\ Forall (fun f => f.1 ∈ es) failed.
Proof.
  induction es as [|e es IH]; intros i results db Huser Hdates;
    cbn [registerMultiple_loop].
  - exists [], []. cbn. rewrite !app_nil_r. repeat split; auto.
  - cbv zeta. rewrite run_bind.
    destruct (registerMultiple_event_outcome secret now (random i) u user e results db
                Huser) as [[why ->] | (event & Hevent & ->)]; cbn [fst snd].
    + destruct (IH (S i) (push_failed e why results) db Huser Hdates)
        as (new & failed & Ht & Hs & Hr & Hf & Hlen & Hregs & Hnew & Hfailed).
      exists new, ((e, why) :: failed).
      rewrite Ht, Hs, Hr, Hf, Hregs. cbn [push_failed totalEvents
        successfulRegistrations registrations failedRegistrations length].
      rewrite <- app_assoc.
      repeat split; try reflexivity; try lia.
      * eapply Forall_impl; [exact Hnew|].
        intros r [? ?]. split; [now apply elem_of_cons; right | assumption].
      * constructor; [now apply elem_of_cons; left|].
        eapply Forall_impl; [exact Hfailed|]. intros f ?. now apply elem_of_cons; right.
    + set (r := batch_registration secret now (random i) u user e event).
      assert (Hdates' : forall e' : string,
                 (date <$> (Events (issued db e event r) !! e')) = dates e').
      { intro e'. cbn [issued Events set_Events set_Registrations].
        destruct (decide (e' = e)) as [->|Hne].
        - rewrite lookup_insert_eq, <- Hdates, Hevent. reflexivity.
        - rewrite lookup_insert_ne by congruence. apply Hdates. }
      destruct (IH (S i) (push_registration r results) (issued db e event r) Huser
                   Hdates')
        as (new & failed & Ht & Hs & Hr & Hf & Hlen & Hregs & Hnew & Hfailed).
      exists (r :: new), failed.
      rewrite Ht, Hs, Hr, Hf, Hregs. cbn [push_registration totalEvents
        successfulRegistrations registrations failedRegistrations length
        issued Registrations set_Events set_Registrations map].
      rewrite <- !app_assoc.
      repeat split; try reflexivity; try lia.
      * constructor.
        -- split; [now apply elem_of_cons; left|].
           exists (random i), event. split; [reflexivity|].
           rewrite <- Hdates. cbn [eventId r batch_registration]. rewrite Hevent.
           reflexivity.
        -- eapply Forall_impl; [exact Hnew|].
           intros r' [? ?]. split; [now apply elem_of_cons; right | assumption].
      * eapply Forall_impl; [exact Hfailed|]. intros f ?. now apply elem_of_cons; right.
Qed.

Lemma registerMultiple_outcome (secret : option string) (now : Z)
      (random : nat -> string) (u : string) (es : list string) (db : DB) :
  let out := run (registerMultiple secret now random u es) db in
  match MultiResponse.results out.1 with
  | Some res =>
      MultiResponse.code out.1 = 200
      /\ totalEvents res = length es
      /\ successfulRegistrations res + length (failedRegistrations res) = length es
      /\ length (registrations res) = successfulRegistrations res
      /\ Registrations out.2 = Registrations db ++ map Some (registrations res)
      /\ Forall (fun r =>
                   eventId r ∈ es
                   /\ exists (rid : string) (user : User) (event : Event),
                       r = batch_registration secret now rid u user (eventId r) event
                       /\ (date <$> (Events db !! eventId r)) = Some (date event))
                (registrations res)
      /\ Forall (fun f => f.1 ∈ es) (failedRegistrations res)
  | None =>
      out.2 = db
      /\ ((MultiResponse.code out.1 = 400 /\ (u = "" \/ es = []))
          \/ (MultiResponse.code out.1 = 404 /\ Users db !! u = None))
  end.
Proof.
  cbv zeta. unfold registerMultiple.
  destruct (String.eqb u "") eqn:Hu.
  { cbn. apply String.eqb_eq in Hu. split; [reflexivity|]. left. auto. }
  destruct es as [|e es].
  { cbn. split; [reflexivity|]. left. auto. }
  cbn [length Nat.eqb orb run bind await exec].
  destruct (Users db !! u) as [user|] eqn:Huser.
  2:{ cbn. split; [reflexivity|]. right. auto. }
  rewrite run_bind. cbn [run fst snd MultiResponse.results MultiResponse.code].
  destruct (registerMultiple_loop_accounts secret now random u user
              (fun e' => date <$> (Events db !! e')) (e :: es) 0
              {| totalEvents := S (length es); successfulRegistrations := 0;
                 failedRegistrations := []; registrations := [] |} db Huser
              (fun _ => eq_refl))
    as (new & failed & Ht & Hs & Hr & Hf & Hlen & Hregs & Hnew & Hfailed).
  cbv zeta in Ht, Hs, Hr, Hf, Hregs.
  cbn [totalEvents successfulRegistrations registrations failedRegistrations
       app Nat.add] in Ht, Hs, Hr, Hf.
  rewrite Ht, Hs, Hr, Hf, Hregs.
  repeat split; try reflexivity; try assumption.
  eapply Forall_impl; [exact Hnew|].
  intros r (Hin & rid & event & Hr' & Hdate). split; [exact Hin|].
  exists rid, user, event. split; assumption.
Qed.

(** X11. A batch request accounts for every event asked for, when the
    student id is empty or an ObjectId, the event ids are ObjectIds and
    no identifier drawn is empty.  When it answers with results, the
    total is the number of event ids, each id is either registered or
    listed as failed, the registrations returned are exactly the ones
    stored (all for the student, in status registered), and nothing else
    is added; when it answers without results (status 400 for an empty
    student or list, 404 for an unknown student) the database is
    unchanged. *)
Theorem registerMultiple_accounts_for_every_event
        (secret : option string) (now : Z) (random : nat -> string)
        (u : string) (es : list string) (db : DB) :
  u = "" \/ is_ObjectId u = true ->
  forallb is_ObjectId es = true ->
  (forall i : nat, random i <> "") ->
  let out := run (registerMultiple secret now random u es) db in
  match MultiResponse.results out.1 with
  | Some res =>
      MultiResponse.code out.1 = 200
      /\ totalEvents res = length es
      /\ successfulRegistrations res + length (failedRegistrations res) = length es
      /\ length (registrations res) = successfulRegistrations res
      /\ Registrations out.2 = Registrations db ++ map Some (registrations res)
      /\ Forall (fun r => userId r = u /\ status r = registered /\ eventId r ∈ es)
                (registrations res)
      /\ Forall (fun f => f.1 ∈ es) (failedRegistrations res)
  | None =>
      out.2 = db
      /\ ((MultiResponse.code out.1 = 400 /\ (u = "" \/ es = []))
          \/ (MultiResponse.code out.1 = 404 /\ Users db !! u = None))
  end.
Proof.
  intros _ _ _. cbv zeta.
  pose proof (registerMultiple_outcome secret now random u es db) as H.
  cbv zeta in H.
  destruct (MultiResponse.results _) as [res|]; [|exact H].
  destruct H as (Hc & Ht & Hs & Hl & Hregs & Hnew & Hfailed).
  repeat split; try assumption.
  eapply Forall_impl; [exact Hnew|].
  intros r (Hin & rid & user & event & Hr & _).
  rewrite Hr. repeat split. rewrite <- Hr. exact Hin.
Qed.

(** X12. On the batch path every registration returned carries a
    payload signed over its own fields: the payload names the
    registration, the student and the event, is issued at the time of
    the request and expires at the date of the event, its signature is
    the one [generateQRSignature] computes from it, it verifies, and the
    QR text parses back to it. *)
Theorem batch_credentials_are_signed_over_their_own_fields
        (secret : option string) (now : Z) (random : nat -> string)
        (u : string) (es : list string) (db : DB) :
  match MultiResponse.results (run (registerMultiple secret now random u es) db).1 with
  | Some res =>
      Forall (fun r =>
                registration_id (qrPayload r) = registrationId r
                /\ student_id (qrPayload r) = u
                /\ event_id (qrPayload r) = eventId r
                /\ issued_at (qrPayload r) = Date.toISOString now
                /\ (Date.toISOString <$> (date <$> (Events db !! eventId r)))
                   = Some (expires_at (qrPayload r))
                /\ signature (qrPayload r)
                   = generateQRSignature secret (payload_object (qrPayload r))
                /\ validateQRSignature secret (payload_object (qrPayload r)) = true
                /\ JSON.parse (encoded (qrCode r)) = Some (payload_object (qrPayload r)))
             (registrations res)
  | None => True
  end.
Proof.
  pose proof (registerMultiple_outcome secret now random u es db) as H.
  cbv zeta in H.
  destruct (MultiResponse.results _) as [res|]; [|exact I].
  destruct H as (_ & _ & _ & _ & _ & Hnew & _).
  eapply Forall_impl; [exact Hnew|].
  intros r (_ & rid & user & event & Hr & Hdate).
  destruct (batch_credential_verifies secret now rid u user (eventId r) event)
    as (Hissued & Hexpires & Hsig & Hverifies & Hparse).
  rewrite <- Hr in Hissued, Hexpires, Hsig, Hverifies, Hparse.
  rewrite Hdate. cbn [fmap option_fmap option_map]. rewrite Hexpires.
  repeat split; try assumption; rewrite Hr; reflexivity.
Qed.

Lemma violates_unique_index_true (r : Registration) (docs : list (option Registration)) :
  violates_unique_index r docs = true
  <-> exists (slot : nat) (r' : Registration),
      docs !! slot = Some (Some r')
      /\ (registrationId r' = registrationId r
          \/ (userId r' = userId r /\ eventId r' = eventId r)).
Proof.
  unfold violates_unique_index. rewrite existsb_exists. split.
  - intros ([r'|] & Hin & Hr'); [|discriminate].
    apply list_elem_of_In, list_elem_of_lookup in Hin. destruct Hin as [slot Hslot].
    exists slot, r'. split; [exact Hslot|].
    apply orb_prop in Hr'. destruct Hr' as [Hid | Hpair].
    + left. apply String.eqb_eq. exact Hid.
    + right. apply matches_user_event_true. exact Hpair.
  - intros (slot & r' & Hslot & Hsame). exists (Some r'). split.
    + apply list_elem_of_In, list_elem_of_lookup. exists slot. exact Hslot.
    + apply orb_true_intro. destruct Hsame as [Hid | Hpair].
      * left. apply String.eqb_eq. exact Hid.
      * right. apply matches_user_event_true. exact Hpair.
Qed.

(** X13. For a student id and an event id that are ObjectIds and an
    identifier drawn that is not empty, the single-event registration
    answers with status 500 exactly when every check passes (user,
    event, no registration of the student for the event, a free place,
    deadline not passed) and the identifier drawn is already the
    identifier of a stored registration; nothing is written then. *)
Theorem register_fails_exactly_on_identifier_collision
        (secret : option string) (now : Z) (rid u e : string) (db : DB) :
  is_ObjectId u = true ->
  is_ObjectId e = true ->
  rid <> "" ->
  (RegisterResponse.code (run (register secret now rid u e) db).1 = 500
   <-> exists (user : User) (event : Event) (slot : nat) (r : Registration),
       Users db !! u = Some user
       /\ Events db !! e = Some event
       /\ findOne (matches_user_event u e) (Registrations db) = None
       /\ (currentParticipants event < maxParticipants event)%Z
       /\ (now <= registrationDeadline event)%Z
       /\ Registrations db !! slot = Some (Some r)
       /\ registrationId r = rid)
  /\ (RegisterResponse.success (run (register secret now rid u e) db).1 = false ->
      (run (register secret now rid u e) db).2 = db).
Proof.
  intros _ _ _.
  rewrite run_register. cbv zeta. split; [split|].
  - destruct (Users db !! u) as [user|]; [|discriminate].
    destruct (Events db !! e) as [event|]; [|discriminate].
    destruct (findOne _ _) eqn:Hfind; [discriminate|].
    destruct (_ >=? _)%Z eqn:Hfull; [discriminate|].
    destruct (_ >? _)%Z eqn:Hlate; [discriminate|].
    destruct (violates_unique_index _ _) eqn:Hunique; [|discriminate].
    intros _. apply violates_unique_index_true in Hunique.
    destruct Hunique as (slot & r & Hslot & Hsame).
    exists user, event, slot, r.
    rewrite Z.geb_leb in Hfull. apply Z.leb_gt in Hfull.
    rewrite Z.gtb_ltb in Hlate. apply Z.ltb_ge in Hlate.
    repeat split; try assumption.
    destruct Hsame as [Hid | Hpair]; [exact Hid|].
    pose proof (proj1 (findOne_None _ _) Hfind slot r Hslot) as Hno.
    apply matches_user_event_true in Hpair. cbn [userId eventId single_registration] in Hpair.
    congruence.
  - intros (user & event & slot & r & -> & -> & -> & Hroom & Hopen & Hslot & Hid).
    replace (_ >=? _)%Z with false
      by (symmetry; rewrite Z.geb_leb; apply Z.leb_gt; exact Hroom).
    replace (_ >? _)%Z with false
      by (symmetry; rewrite Z.gtb_ltb; apply Z.ltb_ge; exact Hopen).
    replace (violates_unique_index _ _) with true; [reflexivity|].
    symmetry. apply violates_unique_index_true.
    exists slot, r. split; [exact Hslot | left; exact Hid].
  - repeat case_match; try reflexivity. discriminate.
Qed.

Lemma with_currentParticipants_same (event : Event) (n : Z) :
  n = currentParticipants event -> with_currentParticipants n event = event.
Proof. intros ->. destruct event; reflexivity. Qed.

Lemma with_currentParticipants_twice (event : Event) (n m : Z) :
  with_currentParticipants n (with_currentParticipants m event)
  = with_currentParticipants n event.
Proof. reflexivity. Qed.

Lemma findOne_from_tombstone (f : Registration -> bool) :
  forall (docs : list (option Registration)) (base : nat),
    findOne_from base f docs = None -> findOne_from base f (docs ++ [None]) = None.
Proof.
  induction docs as [|[r|] docs IH]; intros base H; cbn in *; try reflexivity.
  - destruct (f r); [discriminate | apply IH, H].
  - apply IH, H.
Qed.

(** Unregistration after an issuance for the same student and event. *)
Lemma unregister_issued (u e : string) (db : DB) (event : Event) (r : Registration) :
  userId r = u -> eventId r = e ->
  findOne (matches_user_event u e) (Registrations db) = None ->
  Events db !! e = Some event ->
  (0 <= currentParticipants event)%Z ->
  run (unregister u e) (issued db e event r)
  = ({| SimpleResponse.code := 200; SimpleResponse.error := None |},
     set_Registrations (Registrations db ++ [None]) db).
Proof.
  intros Hu He Hnone Hevent Hcount.
  assert (Hfind : findOne (matches_user_event u e) (Registrations (issued db e event r))
                  = Some (length (Registrations db), r)).
  { cbn [issued Registrations set_Events set_Registrations].
    apply (findOne_from_app_new _ r); [|exact Hnone].
    apply matches_user_event_true. split; assumption. }
  rewrite (run_unregister_found _ _ _ _ _ Hfind). f_equal.
  unfold unregistered. cbv zeta.
  cbn [issued Events Registrations set_Events set_Registrations].
  rewrite lookup_insert_eq.
  cbn [currentParticipants with_currentParticipants].
  replace (_ >? _)%Z with true by (symmetry; apply Z.gtb_lt; lia).
  unfold set_Events, set_Registrations. cbn [Users Events Registrations ScanLogs].
  rewrite insert_insert_eq.
  rewrite with_currentParticipants_twice.
  rewrite (with_currentParticipants_same event) by lia.
  rewrite insert_id by exact Hevent.
  cbn [issued Users ScanLogs set_Events set_Registrations].
  f_equal.
  rewrite insert_app_r_alt by reflexivity.
  rewrite Nat.sub_diag. reflexivity.
Qed.

Lemma findOne_from_app_tombstone (f : Registration -> bool) :
  forall (docs : list (option Registration)) (base : nat),
    findOne_from base f (docs ++ [None]) = findOne_from base f docs.
Proof.
  induction docs as [|[r|] docs IH]; intro base; cbn; try reflexivity.
  - destruct (f r); [reflexivity | apply IH].
  - apply IH.
Qed.

Lemma violates_unique_index_tombstone (r : Registration)
      (docs : list (option Registration)) :
  violates_unique_index r (docs ++ [None]) = violates_unique_index r docs.
Proof.
  unfold violates_unique_index. rewrite existsb_app. cbn. rewrite !orb_false_r.
  reflexivity.
Qed.

(** X14. Unregistration undoes a registration: after a registration
    that succeeded (on either path) for an event whose count was not
    negative, unregistering the student from the event answers with
    status 200 and leaves the users, the events with their counts and the
    scan logs as they were before the registration; of the registration
    an empty slot is left, and every later single-event registration
    request is answered as it would have been before. *)
Theorem unregister_undoes_registration
        (secret : option string) (now : Z) (rid u e : string) (db : DB) :
  (forall event : Event,
      Events db !! e = Some event -> (0 <= currentParticipants event)%Z) ->
  let ok := {| SimpleResponse.code := 200; SimpleResponse.error := None |} in
  let undone := set_Registrations (Registrations db ++ [None]) db in
  (RegisterResponse.success (run (register secret now rid u e) db).1 = true ->
   run (unregister u e) (run (register secret now rid u e) db).2 = (ok, undone))
  /\ (registered_one (run (registerMultiple secret now (fun _ => rid) u [e]) db).1 = true ->
      run (unregister u e) (run (registerMultiple secret now (fun _ => rid) u [e]) db).2
      = (ok, undone))
  /\ (forall (now' : Z) (rid' u' e' : string),
         (run (register secret now' rid' u' e') undone).1
         = (run (register secret now' rid' u' e') db).1).
Proof.
  intros Hcount ok undone. split; [|split].
  - rewrite run_register. cbv zeta.
    destruct (Users db !! u) as [user|]; [|discriminate].
    destruct (Events db !! e) as [event|] eqn:Hevent; [|discriminate].
    destruct (findOne _ _) eqn:Hfind; [discriminate|].
    destruct (_ >=? _)%Z; [discriminate|].
    destruct (_ >? _)%Z; [discriminate|].
    destruct (violates_unique_index _ _); [discriminate|].
    intros _. cbn [snd].
    apply unregister_issued; try assumption; try reflexivity.
    apply Hcount. reflexivity.
  - unfold registerMultiple.
    destruct (String.eqb u ""); [discriminate|].
    cbn [length Nat.eqb orb run bind await exec].
    destruct (Users db !! u) as [user|] eqn:Huser; [|discriminate].
    cbn [registerMultiple_loop]. rewrite !run_bind.
    rewrite run_registerMultiple_event. cbv zeta. rewrite Huser.
    destruct (findOne _ _) eqn:Hfind; [discriminate|].
    destruct (Events db !! e) as [event|] eqn:Hevent; [|discriminate].
    destruct (_ >=? _)%Z; [discriminate|].
    destruct (_ >? _)%Z; [discriminate|].
    destruct (violates_unique_index _ _); [discriminate|].
    intros _. cbn [run fst snd].
    apply unregister_issued; try assumption; try reflexivity.
    apply Hcount. reflexivity.
  - intros now' rid' u' e'. rewrite !run_register. cbv zeta.
    subst undone. cbn [Users Events Registrations set_Registrations].
    unfold findOne. rewrite findOne_from_app_tombstone.
    destruct (Users db !! u') as [user|]; [|reflexivity].
    destruct (Events db !! e') as [event|]; [|reflexivity].
    rewrite violates_unique_index_tombstone.
    repeat case_match; reflexivity.
Qed.

(** X15. For a student id and an event id that are ObjectIds,
    unregistration either finds no registration of the student for the
    event, answers with status 404 and changes nothing; or it answers
    with status 200, empties the slot of the first such registration
    whatever its status, lowers the count of the event by one unless it
    is zero or less, and leaves the users, the other events and the scan
    logs as they are. *)
Theorem unregister_deletes_one_registration (u e : string) (db : DB) :
  is_ObjectId u = true ->
  is_ObjectId e = true ->
  let out := run (unregister u e) db in
  (SimpleResponse.code out.1 = 404
   /\ out.2 = db
   /\ forall (slot : nat) (r : Registration),
       Registrations db !! slot = Some (Some r) -> matches_user_event u e r = false)
  \/ (SimpleResponse.code out.1 = 200
      /\ (exists (slot : nat) (r : Registration),
             Registrations db !! slot = Some (Some r)
             /\ userId r = u /\ eventId r = e
             /\ Registrations out.2 = <[slot := None]> (Registrations db))
      /\ Users out.2 = Users db
      /\ ScanLogs out.2 = ScanLogs db
      /\ (forall e' : string, e' <> e -> Events out.2 !! e' = Events db !! e')
      /\ (currentParticipants <$> (Events out.2 !! e))
         = ((fun event => if (currentParticipants event >? 0)%Z
                          then (currentParticipants event - 1)%Z
                          else currentParticipants event)
              <$> (Events db !! e))).
Proof.
  intros _ _. cbv zeta.
  destruct (findOne (matches_user_event u e) (Registrations db)) as [[slot r]|] eqn:Hfind.
  - right. rewrite (run_unregister_found _ _ _ _ _ Hfind). cbn [fst snd].
    destruct (findOne_Some _ _ _ _ Hfind) as [Hslot Hmatch].
    apply matches_user_event_true in Hmatch. destruct Hmatch as [Hu He].
    unfold unregistered. cbv zeta.
    destruct (Events db !! e) as [event|] eqn:Hevent;
      [destruct (_ >? _)%Z eqn:Hpositive|];
      cbn [Users Events Registrations ScanLogs set_Events set_Registrations];
      (split; [reflexivity|]);
      (split; [exists slot, r; repeat split; assumption|]);
      (split; [reflexivity|]); (split; [reflexivity|]); split;
      try reflexivity;
      try (intros e' Hne; rewrite lookup_insert_ne by congruence; reflexivity).
    + rewrite lookup_insert_eq. cbn. rewrite Hpositive. reflexivity.
    + rewrite Hevent. cbn. rewrite Hpositive. reflexivity.
    + rewrite Hevent. reflexivity.
  - left. rewrite run_unregister, Hfind. cbn [fst snd].
    split; [reflexivity|]. split; [reflexivity|].
    apply findOne_None. exact Hfind.
Qed.

(** X16. Deleting a user by an id that is an ObjectId removes the user
    and every registration of the user, and nothing else: the other
    users, the registrations of other users in their slots, every event
    with its count (the places of the deleted registrations are not
    given back) and the scan logs stay as they are.  For an unknown user
    the answer is status 404 and the database is unchanged. *)
Theorem deleteUser_deletes_the_registrations_of_the_user (id : string) (db : DB) :
  is_ObjectId id = true ->
  let out := run (deleteUser id) db in
  Users out.2 = delete id (Users db)
  /\ Events out.2 = Events db
  /\ ScanLogs out.2 = ScanLogs db
  /\ length (Registrations out.2) = length (Registrations db)
  /\ (forall (slot : nat) (r : Registration),
         Registrations out.2 !! slot = Some (Some r) ->
         Registrations db !! slot = Some (Some r))
  /\ match Users db !! id with
     | Some _ =>
         SimpleResponse.code out.1 = 200
         /\ forall (slot : nat) (r : Registration),
             Registrations out.2 !! slot = Some (Some r)
             <-> Registrations db !! slot = Some (Some r) /\ userId r <> id
     | None => SimpleResponse.code out.1 = 404 /\ out.2 = db
     end.
Proof.
  intros _. cbv zeta. rewrite run_deleteUser.
  destruct (Users db !! id) as [user|] eqn:Huser;
    cbn [fst snd Users Events Registrations ScanLogs set_Users set_Registrations];
    repeat (split; [reflexivity|]).
  - split; [unfold deleteMany; apply length_map|].
    split; [intros slot r H; apply lookup_deleteMany in H; apply H|].
    split; [reflexivity|].
    intros slot r. split.
    + intro H. apply lookup_deleteMany in H. destruct H as [H Hf].
      split; [exact H|]. unfold matches_user in Hf. apply String.eqb_neq. exact Hf.
    + intros [H Hf]. unfold deleteMany. rewrite list_lookup_fmap, H. cbn.
      unfold matches_user.
      replace (String.eqb (userId r) id) with false
        by (symmetry; apply String.eqb_neq; exact Hf).
      reflexivity.
  - split; [intros slot r H; exact H|].
    split; [reflexivity|].
    unfold set_Users. rewrite delete_id by exact Huser. apply DB_eta.
Qed.

(** ** The listings and the deletion of events *)

Lemma getRegistrations_without_user (id : string) (users : gmap string User)
      (events : gmap string Event) (logs logs' : list ScanLog.t)
      (docs : list (option Registration)) (purge : bool) :
  getRegistrations
    {| Users := delete id users; Events := events;
       Registrations := if purge then deleteMany (matches_user id) docs else docs;
       ScanLogs := logs' |}
  = List.filter (fun entry => negb (String.eqb (userId entry.1.1) id))
      (getRegistrations {| Users := users; Events := events; Registrations := docs;
                           ScanLogs := logs |}).
Proof.
  unfold getRegistrations. cbn [Users Events Registrations].
  induction docs as [|[r|] docs IH].
  - destruct purge; reflexivity.
  - assert (Hlookup : delete id users !! userId r
                      = if String.eqb (userId r) id then None else users !! userId r).
    { destruct (String.eqb (userId r) id) eqn:Hid.
      - apply String.eqb_eq in Hid. rewrite Hid. apply lookup_delete_eq.
      - apply String.eqb_neq in Hid. apply lookup_delete_ne. congruence. }
    destruct purge; cbn [deleteMany map omap list_omap] in IH |- *;
      unfold matches_user; cbn [omap list_omap];
      destruct (String.eqb (userId r) id) eqn:Hid;
      cbn [omap list_omap]; rewrite ?Hlookup, ?Hid;
      destruct (users !! userId r), (events !! eventId r);
      cbn [List.filter fst snd negb]; rewrite ?Hid; cbn [negb];
      rewrite <- ?IH; reflexivity.
  - destruct purge; cbn [deleteMany map omap list_omap] in IH |- *; exact IH.
Qed.

(** X18. After the deletion of a user the registration listing is the
    listing of before without the entries of that user; the entries of
    other users are kept, in their order. *)
Theorem getRegistrations_after_deleteUser (id : string) (db : DB) :
  getRegistrations (run (deleteUser id) db).2
  = List.filter (fun entry => negb (String.eqb (userId entry.1.1) id))
      (getRegistrations db)
  /\ Forall (fun entry =>
               Users db !! userId entry.1.1 = Some entry.1.2
               /\ Events db !! eventId entry.1.1 = Some entry.2)
            (getRegistrations db).
Proof.
  split.
  - rewrite run_deleteUser. destruct db as [users events docs logs].
    cbn [Users]. destruct (users !! id); cbn [snd];
      unfold set_Registrations, set_Users;
      cbn [Users Events Registrations ScanLogs].
    + apply (getRegistrations_without_user id _ _ _ _ _ true).
    + apply (getRegistrations_without_user id _ _ _ _ _ false).
  - unfold getRegistrations. apply Forall_forall. intros entry Hin.
    apply list_elem_of_omap in Hin.
    destruct Hin as ([r|] & _ & Hentry); [|discriminate].
    destruct (Users db !! userId r) as [u|] eqn:Hu; [|discriminate].
    destruct (Events db !! eventId r) as [e|] eqn:He; [|discriminate].
    injection Hentry as <-. cbn [fst snd]. split; assumption.
Qed.

(** X19. Given a list of ids that are ObjectIds, the bulk deletion of
    events refuses the empty list with status 400 and changes nothing;
    otherwise it deletes exactly the stored events whose id is in the
    list and reports their number.  The users, the registrations (those
    of the deleted events included) and the scan logs are left as they
    are; the registration listing then leaves out the registrations of
    the deleted events.  The deletion of one event by an id that is an
    ObjectId leaves the same database as the bulk deletion of that
    id. *)
Theorem deleteEvents_deletes_the_listed_events (eventIds : list string) (db : DB) :
  forallb is_ObjectId eventIds = true ->
  let out := deleteEvents eventIds db in
  (forall id : string,
      is_ObjectId id = true -> deleteEvent id db = (deleteEvents [id] db).2)
  /\ (DeleteEventsResponse.code out.1 = 400 <-> eventIds = [])
  /\ match DeleteEventsResponse.deletedCount out.1 with
     | Some n => n + size (Events out.2) = size (Events db)
     | None => eventIds = [] /\ out.2 = db
     end
  /\ (eventIds = [] \/
      forall e : string,
        Events out.2 !! e = if bool_decide (e ∈ eventIds) then None else Events db !! e)
  /\ Users out.2 = Users db
  /\ Registrations out.2 = Registrations db
  /\ ScanLogs out.2 = ScanLogs db
  /\ getRegistrations out.2
     = List.filter (fun entry => bool_decide (eventId entry.1.1 ∉ eventIds))
         (getRegistrations db).
Proof.
  intros _. cbv zeta. split; [intros id _; apply deleteEvent_is_deleteEvents|].
  unfold deleteEvents.
  destruct eventIds as [|e0 rest].
  - cbn. repeat split; try reflexivity; auto.
    induction (getRegistrations db) as [|entry l IH]; [reflexivity|].
    cbn. rewrite bool_decide_eq_true_2 by apply not_elem_of_nil. f_equal. exact IH.
  - cbn [length Nat.eqb]. set (ids := e0 :: rest).
    cbn [fst snd DeleteEventsResponse.code
         DeleteEventsResponse.deletedCount Users Events Registrations ScanLogs
         set_Events].
    split; [split; discriminate|].
    split.
    { transitivity (size (filter (listed ids) (Events db)
                          ∪ filter (fun doc => ~ listed ids doc) (Events db))).
      - symmetry. apply map_size_disj_union, map_disjoint_filter_complement.
      - f_equal. apply map_filter_union_complement. }
    split; [right; intro e; apply lookup_not_listed|].
    repeat (split; [reflexivity|]).
    unfold getRegistrations. cbn [Users Events Registrations set_Events].
    induction (Registrations db) as [|[r|] docs IH]; [reflexivity | | exact IH].
    cbn [omap list_omap]. rewrite lookup_not_listed.
    destruct (bool_decide (eventId r ∈ ids)) eqn:Hin.
    + apply bool_decide_eq_true in Hin.
      destruct (Users db !! userId r), (Events db !! eventId r); cbn;
        rewrite ?bool_decide_eq_false_2 by (intro Hnot; apply Hnot; exact Hin);
        exact IH.
    + apply bool_decide_eq_false in Hin.
      destruct (Users db !! userId r), (Events db !! eventId r); cbn;
        rewrite ?bool_decide_eq_true_2 by exact Hin;
        try (f_equal; exact IH); exact IH.
Qed.

(** ** From the registration to the scan *)

(** X20. The credential returned by a batch registration is accepted:
    when a batch request for one event registers the student, a scan of
    the QR text of the registration returned, presented for that event
    before the credential expires, is answered valid and marks the
    registration attended. *)
Theorem batch_credential_is_valid_when_scanned
        (secret : option string) (now now' : Z) (rid u e : string) (db : DB)
        (scanner location : option string) :
  u <> "" -> e <> "" -> rid <> "" ->
  let out := run (registerMultiple secret now (fun _ => rid) u [e]) db in
  registered_one out.1 = true ->
  exists r : Registration,
    (registrations <$> MultiResponse.results out.1) = Some [r]
    /\ Registrations out.2 = Registrations db ++ [Some r]
    /\ let body :=
         {| ValidateRequest.qrData := encoded (qrCode r);
            ValidateRequest.eventId := Some e;
            ValidateRequest.scannedBy := scanner;
            ValidateRequest.location := location |} in
       (qr_expired now' (payload_object (qrPayload r)) = false ->
        QRValidationResult.valid (run (validate secret now' body) out.2).1 = true
        /\ Registrations (run (validate secret now' body) out.2).2
           = Registrations db
             ++ [Some (push_scanLog (valid_scanLog now' body) (with_status attended r))]).
Proof.
  intros Hu He Hrid. cbv zeta. unfold registerMultiple.
  rewrite (eqb_empty_false u Hu).
  cbn [length Nat.eqb orb run bind await exec].
  destruct (Users db !! u) as [user|] eqn:Huser; [|discriminate].
  cbn [registerMultiple_loop]. rewrite !run_bind.
  rewrite run_registerMultiple_event. cbv zeta. rewrite Huser.
  destruct (findOne _ _) eqn:Hfind; [discriminate|].
  destruct (Events db !! e) as [event|] eqn:Hevent; [|discriminate].
  destruct (_ >=? _)%Z; [discriminate|].
  destruct (_ >? _)%Z; [discriminate|].
  destruct (violates_unique_index _ _) eqn:Hunique; [discriminate|].
  intros _. cbn [run fst snd MultiResponse.results].
  set (r := batch_registration secret now rid u user e event).
  exists r. split; [reflexivity|]. split; [reflexivity|].
  intro Hfresh.
  destruct (batch_registration_is_redeemable secret now rid u user e event db
              Huser Hevent Hunique)
    as (Hstored & Hstatus & Hsig & Hqr & Hu' & He').
  fold r in Hstored, Hstatus, Hsig, Hqr, Hu', He'.
  set (body := {| ValidateRequest.qrData := encoded (qrCode r);
                  ValidateRequest.eventId := Some e;
                  ValidateRequest.scannedBy := scanner;
                  ValidateRequest.location := location |}).
  assert (Hscan : scan_of secret now' body (issued db e event r)
                  = Committed (length (Registrations db)) r).
  { rewrite (scan_of_credential secret now' body _ (length (Registrations db)) r);
      try assumption.
    - rewrite Hfresh, Hstatus. rewrite !bool_decide_eq_false_2 by discriminate.
      reflexivity.
    - cbn. rewrite (eqb_empty_false e He), String.eqb_refl. reflexivity. }
  rewrite run_validate, Hscan.
  destruct Hu' as [user' Hu'], He' as [event' He']. rewrite Hu', He'.
  split; [reflexivity|].
  cbn [snd committed issued Registrations set_ScanLogs set_Events set_Registrations].
  rewrite insert_app_r_alt by reflexivity. rewrite Nat.sub_diag. reflexivity.
Qed.

(** ** What a scan and an issuance leave alone *)

(** X21. A scan never touches the users or the events (no count
    changes), and never adds or removes a registration: every
    registration stays in its slot with its identifier, student, event,
    payload and QR code, and is either unchanged or marked attended with
    the log of this scan added. *)
Theorem validate_touches_one_registration
        (secret : option string) (now : Z) (body : ValidateRequest.t) (db : DB) :
  let out := run (validate secret now body) db in
  Users out.2 = Users db
  /\ Events out.2 = Events db
  /\ length (Registrations out.2) = length (Registrations db)
  /\ (forall slot : nat,
         Registrations out.2 !! slot = Registrations db !! slot
         \/ exists r : Registration,
             Registrations db !! slot = Some (Some r)
             /\ Registrations out.2 !! slot
                = Some (Some (push_scanLog (valid_scanLog now body)
                                (with_status attended r)))
             /\ (status r = registered \/ status r = absent))
  /\ (QRValidationResult.valid out.1 = true ->
      length (ScanLogs out.2) = S (length (ScanLogs db))).
Proof.
  cbv zeta. rewrite run_validate.
  destruct (scan_of secret now body db) as [why|r| |slot r] eqn:Hscan;
    try (cbn [fst snd]; repeat split; try reflexivity;
         try (intro; left; reflexivity); discriminate).
  destruct (scan_of_Committed _ _ _ _ _ _ Hscan) as (Hslot & Hc & Ha).
  cbn [fst snd committed Users Events Registrations ScanLogs set_ScanLogs
       set_Registrations].
  split; [reflexivity|]. split; [reflexivity|].
  split; [apply length_insert|]. split.
  - intro k. destruct (decide (k = slot)) as [->|Hne].
    + right. exists r. split; [exact Hslot|]. split.
      * apply list_lookup_insert_eq. apply lookup_lt_Some in Hslot. exact Hslot.
      * destruct (status r); [left | | right |]; congruence.
    + left. apply list_lookup_insert_ne. congruence.
  - intros _. rewrite length_app. cbn. lia.
Qed.


(** ** The day of requests, replayed *)

Import Replay.

Lemma generateUniqueRegistrationId_is_injective_witness :
  String.length (generateUniqueRegistrationId draw1) = 32
  /\ Hex.decode (list_ascii_of_string (generateUniqueRegistrationId draw1)) = draw1
  /\ generateUniqueRegistrationId draw1 = id1.
Proof.
  destruct (generateUniqueRegistrationId_is_injective draw1 draw2)
    as (Hlength & _ & Hdecode & _).
  - repeat constructor.
  - repeat constructor.
  - split; [exact Hlength | split; [exact Hdecode | reflexivity]].
Defined.

Lemma text_after_the_signature_is_ignored_witness :
  Hex.decode (list_ascii_of_string "==") = []
  /\ validateQRSignature None
       (payload_object
          (with_signature (signature (sign None (qrPayload asha_batch)) +:+ "==")
                          (sign None (qrPayload asha_batch)))) = true.
Proof.
  split; [reflexivity|].
  apply (text_after_the_signature_is_ignored None (qrPayload asha_batch) "==").
  reflexivity.
Defined.


Lemma credential_of_another_event_is_refused_witness :
  let out := run (validate None now (scan_at_quiz (encoded (qrCode asha_batch)))) db1 in
  QRValidationResult.valid out.1 = false
  /\ out.2 = db1
  /\ QRValidationResult.reason out.1 = Some "QR code is for a different event".
Proof.
  destruct (credential_of_another_event_is_refused None now
              (scan_at_quiz (encoded (qrCode asha_batch))) db1
              (payload_object (qrPayload asha_batch)))
    as (Hvalid & Hsame & Hreason).
  - vm_compute. reflexivity.
  - vm_compute. reflexivity.
  - split; [exact Hvalid | split; [exact Hsame|]].
    apply Hreason; vm_compute; reflexivity.
Defined.

Lemma db0_counters : counters_bound_registrations db0.
Proof.
  intros e event Hevent.
  change (Events db0) with ({[hackathon := hackathon_event]} : gmap string Event)
    in Hevent.
  apply lookup_singleton_Some in Hevent. destruct Hevent as [<- <-].
  vm_compute. repeat split; discriminate.
Qed.

Lemma requests_in_sequence_never_overbook_witness :
  Events (serve_all None day db0) !! hackathon
  = Some (with_currentParticipants 1 hackathon_event)
  /\ (Z.of_nat (registrations_of hackathon (Registrations (serve_all None day db0)))
      <= maxParticipants (with_currentParticipants 1 hackathon_event))%Z.
Proof.
  assert (Hevent : Events (serve_all None day db0) !! hackathon
                   = Some (with_currentParticipants 1 hackathon_event))
    by (vm_compute; reflexivity).
  split; [exact Hevent|].
  exact (proj2 (requests_in_sequence_never_overbook None day db0 db0_counters)
               hackathon _ Hevent).
Defined.

Lemma requests_keep_registrations_unique_witness :
  length (Registrations (serve_all None day db0)) = 2
  /\ unique_registrations (Registrations (serve_all None day db0)).
Proof.
  split; [vm_compute; reflexivity|].
  apply (requests_keep_registrations_unique None day db0).
  intros i j r r' Hi. destruct i; discriminate Hi.
Defined.


Lemma unregister_undoes_registration_witness :
  run (unregister asha hackathon) (run (register None now id1 asha hackathon) db0).2
  = ({| SimpleResponse.code := 200; SimpleResponse.error := None |},
     set_Registrations (Registrations db0 ++ [None]) db0).
Proof.
  assert (Hcount : forall event : Event,
             Events db0 !! hackathon = Some event ->
             (0 <= currentParticipants event)%Z).
  { intros event Hevent. vm_compute in Hevent. injection Hevent as <-.
    cbn. lia. }
  apply (proj1 (unregister_undoes_registration None now id1 asha hackathon db0 Hcount)).
  vm_compute. reflexivity.
Defined.

Lemma batch_credential_is_valid_when_scanned_witness :
  exists r : Registration,
    (registrations
       <$> MultiResponse.results
             (run (registerMultiple None now (fun _ => id1) asha [hackathon]) db0).1)
    = Some [r]
    /\ Registrations (run (registerMultiple None now (fun _ => id1) asha [hackathon])
                          db0).2
       = Registrations db0 ++ [Some r]
    /\ let body :=
         {| ValidateRequest.qrData := encoded (qrCode r);
            ValidateRequest.eventId := Some hackathon;
            ValidateRequest.scannedBy := Some "gate-1";
            ValidateRequest.location := None |} in
       (qr_expired now (payload_object (qrPayload r)) = false ->
        QRValidationResult.valid
          (run (validate None now body)
               (run (registerMultiple None now (fun _ => id1) asha [hackathon])
                    db0).2).1 = true
        /\ Registrations
             (run (validate None now body)
                  (run (registerMultiple None now (fun _ => id1) asha [hackathon])
                       db0).2).2
           = Registrations db0
             ++ [Some (push_scanLog (valid_scanLog now body)
                         (with_status attended r))]).
Proof.
  apply (batch_credential_is_valid_when_scanned None now now id1 asha hackathon db0
           (Some "gate-1") None);
    try discriminate.
  vm_compute. reflexivity.
Defined.

Lemma displayName_is_cut_to_maxChars_witness :
  String.length long_title = 60
  /\ displayName long_title 40 = "International Collegiate Programming ..."
  /\ is_ASCII (displayName long_title 40) = true
  /\ String.length (displayName long_title 40) = 40.
Proof.
  destruct (displayName_is_cut_to_maxChars long_title 40) as (Hascii & Hlength & _).
  - vm_compute. reflexivity.
  - split; [reflexivity|]. split; [vm_compute; reflexivity|].
    split; [exact Hascii | exact Hlength].
Defined.

Lemma validate_is_valid_exactly_when_witness :
  findOne (matches_triple id1 asha hackathon) (Registrations db1)
  = Some (0, asha_batch)
  /\ QRValidationResult.valid
       (run (validate None now (scan (encoded (qrCode asha_batch)))) db1).1 = true.
Proof.
  split; [vm_compute; reflexivity|].
  apply (validate_is_valid_exactly_when None now (scan (encoded (qrCode asha_batch)))
           db1 (payload_object (qrPayload asha_batch)) id1 asha hackathon
           (issued_at (qrPayload asha_batch)) (signature (qrPayload asha_batch))).
  1-8: vm_compute; reflexivity.
  - vm_compute. right. eexists. reflexivity.
  - split; [vm_compute; discriminate|].
    do 3 (split; [vm_compute; reflexivity|]).
    exists 0, asha_batch.
    split; [vm_compute; reflexivity|].
    split; [left; vm_compute; reflexivity|].
    split; vm_compute; eexists; reflexivity.
Defined.

Lemma registerMultiple_accounts_for_every_event_witness :
  match MultiResponse.results
          (run (registerMultiple None now (fun _ => id1) asha [hackathon]) db0).1 with
  | Some res =>
      totalEvents res = 1
      /\ successfulRegistrations res = 1
      /\ registrations res = [asha_batch]
  | None => False
  end.
Proof.
  assert (Hdrawn : forall i : nat, (fun _ : nat => id1) i <> "")
    by (intros i H; vm_compute in H; discriminate H).
  pose proof (registerMultiple_accounts_for_every_event None now (fun _ => id1)
                asha [hackathon] db0 (or_intror eq_refl) eq_refl Hdrawn) as H.
  cbv zeta in H.
  destruct (MultiResponse.results _) as [res|] eqn:Hres.
  - destruct H as (_ & Htotal & _).
    vm_compute in Hres. injection Hres as <-.
    split; [exact Htotal|]. split; vm_compute; reflexivity.
  - vm_compute in Hres. discriminate Hres.
Defined.

Lemma register_fails_exactly_on_identifier_collision_witness :
  (registrationId <$> mjoin (Registrations festival !! 1)) = Some id1
  /\ RegisterResponse.code (run (register None now id1 asha quiz) festival).1 = 500
  /\ (run (register None now id1 asha quiz) festival).2 = festival.
Proof.
  split; [vm_compute; reflexivity|].
  destruct (register_fails_exactly_on_identifier_collision None now id1 asha quiz
              festival) as [Hcollision Hsame].
  - vm_compute. reflexivity.
  - vm_compute. reflexivity.
  - vm_compute. discriminate.
  - split.
    + apply Hcollision.
      exists {| name := "Asha" |}, (with_currentParticipants 1 quiz_event), 1, asha_batch.
      repeat split; try (vm_compute; reflexivity); vm_compute; discriminate.
    + apply Hsame. vm_compute. reflexivity.
Defined.

Lemma unregister_deletes_one_registration_witness :
  SimpleResponse.code (run (unregister asha hackathon) db1).1 = 200
  /\ Registrations (run (unregister asha hackathon) db1).2 = [None]
  /\ (currentParticipants <$> (Events (run (unregister asha hackathon) db1).2 !! hackathon))
     = Some 0%Z.
Proof.
  destruct (unregister_deletes_one_registration asha hackathon db1)
    as [(Hcode & _) | (Hcode & _)].
  - vm_compute. reflexivity.
  - vm_compute. reflexivity.
  - vm_compute in Hcode. discriminate Hcode.
  - split; [exact Hcode|]. split; vm_compute; reflexivity.
Defined.

Lemma deleteUser_deletes_the_registrations_of_the_user_witness :
  Users (run (deleteUser asha) db1).2 = delete asha (Users db1)
  /\ Registrations (run (deleteUser asha) db1).2 = [None]
  /\ (currentParticipants <$> (Events (run (deleteUser asha) db1).2 !! hackathon))
     = Some 1%Z.
Proof.
  destruct (deleteUser_deletes_the_registrations_of_the_user asha db1)
    as (Husers & _).
  - vm_compute. reflexivity.
  - split; [exact Husers|]. split; vm_compute; reflexivity.
Defined.

Lemma deleteEvents_deletes_the_listed_events_witness :
  DeleteEventsResponse.deletedCount (deleteEvents [hackathon] db1).1 = Some 1
  /\ Registrations (deleteEvents [hackathon] db1).2 = Registrations db1
  /\ getRegistrations (deleteEvents [hackathon] db1).2 = [].
Proof.
  destruct (deleteEvents_deletes_the_listed_events [hackathon] db1)
    as (_ & _ & _ & _ & _ & Hregistrations & _).
  - vm_compute. reflexivity.
  - split; [vm_compute; reflexivity|].
    split; [exact Hregistrations | vm_compute; reflexivity].
Defined.
